(** * PyChat web client: join validation, envelope handling, timers

    A shallow embedding of the React component [App] of the PyChat
    front end (the current version, and the join validation of the
    earlier version kept under [frontend/src/App.js]).

    The component's [useState] cells, its [useRef] cells and the part of
    the browser it talks to (the WebSocket objects it created, the frames
    it sent, the timers it has pending) are the fields of one record,
    [AppState].  Every handler of the component is a function from
    [AppState] to [AppState]; the events of the browser and of the user
    drive a step function, and the states the component can be in are the
    ones reachable from the mounted component. *)

From Stdlib Require Import Strings.Ascii Strings.String DecimalString.
From Stdlib Require Import Bool ZArith NArith PArith Lia.
From Stdlib Require Import List.
Import ListNotations.

Local Open Scope Z_scope.

(** ** JavaScript strings

    A JavaScript string is a sequence of UTF-16 code units; [.length]
    counts code units. *)

Definition jsstring := list N.

(** A string literal of the source made of ASCII characters only. *)
Definition js (s : string) : jsstring :=
  map N_of_ascii (list_ascii_of_string s).

(** [!s] for a string [s]: only the empty string is falsy. *)
Definition isEmpty (s : jsstring) : bool :=
  match s with [] => true | _ :: _ => false end.

(** [a === b] on strings. *)
Fixpoint strictEq (a b : jsstring) : bool :=
  match a, b with
  | [], [] => true
  | x :: a', y :: b' => N.eqb x y && strictEq a' b'
  | _, _ => false
  end.

(** WhiteSpace and LineTerminator code points of ECMAScript, the ones
    [String.prototype.trim] strips: TAB, LF, VT, FF, CR, SP, NBSP,
    U+1680, U+2000..U+200A, LS, PS, U+202F, U+205F, U+3000, U+FEFF. *)
Definition isWhiteSpace (c : N) : bool :=
  ((c =? 9) || (c =? 10) || (c =? 11) || (c =? 12) || (c =? 13)
   || (c =? 32) || (c =? 160) || (c =? 5760)
   || ((8192 <=? c) && (c <=? 8202))
   || (c =? 8232) || (c =? 8233) || (c =? 8239) || (c =? 8287)
   || (c =? 12288) || (c =? 65279))%N.

Fixpoint trimStart (s : jsstring) : jsstring :=
  match s with
  | [] => []
  | c :: s' => if isWhiteSpace c then trimStart s' else s
  end.

Definition trimEnd (s : jsstring) : jsstring := rev (trimStart (rev s)).

Definition trim (s : jsstring) : jsstring := trimEnd (trimStart s).

(** The character class [[A-Z0-9]]. *)
Definition isUpperAlnum (c : N) : bool :=
  (((65 <=? c) && (c <=? 90)) || ((48 <=? c) && (c <=? 57)))%N.

(** The character class [[A-Za-z0-9]]. *)
Definition isAlnum (c : N) : bool :=
  (isUpperAlnum c || ((97 <=? c) && (c <=? 122)))%N.

(** [s.replace(/[^A-Z0-9]/g, '')]. *)
Definition stripNonUpperAlnum (s : jsstring) : jsstring :=
  filter isUpperAlnum s.

(** [/^[A-Za-z0-9]+$/.test(s)]. *)
Definition isAlnumWord (s : jsstring) : bool :=
  negb (isEmpty s) && forallb isAlnum s.

(** [s.slice(0, n)]. *)
Definition slice0 (n : nat) (s : jsstring) : jsstring := firstn n s.

(** ** JavaScript numbers

    The numbers the component computes with are integral: clock
    readings and counts of seconds.  A number is modelled by the integer
    it denotes, which JavaScript holds as an IEEE 754 double.  Up to
    [2^53] every integer is a double and arithmetic is exact; clock
    readings stay far below that, a count of seconds sent by the server
    need not. *)

(** The double nearest to the integer [z], ties going to the even
    significand: the result of an arithmetic operation whose exact
    value is [z].  (Below [2^1024] in magnitude, where doubles are
    finite.) *)
Definition roundDouble (z : Z) : Z :=
  let a := Z.abs z in
  if a <? 2 ^ 53 then z
  else
    let e := Z.log2 a - 52 in
    let q := Z.shiftr a e in
    let r := a - Z.shiftl q e in
    let half := 2 ^ (e - 1) in
    let q' := if r <? half then q
              else if half <? r then q + 1
              else if Z.even q then q else q + 1 in
    Z.sgn z * Z.shiftl q' e.

(** All the decimal digits of an integer, with its sign. *)
Definition decimalText (z : Z) : jsstring :=
  js (NilZero.string_of_int (Z.to_int z)).

(** The integer with the fewest significant digits that still denotes
    the double [a] (of [nd] digits, at least [2^53]); among two of the
    same length the nearer one, then the one with the even last digit.
    [k] is the number of leading digits tried. *)
Fixpoint shortestDigits (fuel : nat) (k nd a : Z) : Z :=
  match fuel with
  | O => a
  | S fuel' =>
      let scale := 10 ^ (nd - k) in
      let v1 := (a / scale) * scale in
      let v2 := v1 + scale in
      let ok1 := roundDouble v1 =? a in
      let ok2 := roundDouble v2 =? a in
      if ok1 && ok2
      then if a - v1 <? v2 - a then v1
           else if v2 - a <? a - v1 then v2
           else if Z.even (a / scale) then v1 else v2
      else if ok1 then v1
      else if ok2 then v2
      else shortestDigits fuel' (k + 1) nd a
  end.

Fixpoint dropZeros (s : jsstring) : jsstring :=
  match s with
  | [] => []
  | c :: s' => if (c =? 48)%N then dropZeros s' else s
  end.

(** [Number.prototype.toString] on an integral number, as string
    concatenation ['msg-' + Date.now()] and template literals apply it:
    every digit below [2^53]; from there on the shortest digits that
    denote the same double, padded with zeros; and from [1e21] on the
    exponent form, as in [1.5e+21]. *)
Definition numberToString (z : Z) : jsstring :=
  let a := Z.abs z in
  if a <? 2 ^ 53 then decimalText z
  else
    let nd := Z.of_nat (length (decimalText a)) in
    let d := decimalText (shortestDigits (Z.to_nat nd) 1 nd a) in
    let text :=
      if (length d <=? 21)%nat then d
      else match rev (dropZeros (rev d)) with
           | [] => d
           | c :: rest =>
               (c :: (if isEmpty rest then [] else 46%N :: rest))
                 ++ js "e+" ++ decimalText (Z.of_nat (length d) - 1)
           end in
    if z <? 0 then 45%N :: text else text.

(** [String.prototype.isWellFormed]: no lone surrogate.  A code unit in
    D800..DBFF must be followed by one in DC00..DFFF, which must not
    occur elsewhere.  [encodeURIComponent] throws a URIError on the
    other strings. *)
Definition isHighSurrogate (c : N) : bool :=
  ((55296 <=? c) && (c <=? 56319))%N.

Definition isLowSurrogate (c : N) : bool :=
  ((56320 <=? c) && (c <=? 57343))%N.

Fixpoint isWellFormed (s : jsstring) : bool :=
  match s with
  | [] => true
  | c :: s' =>
      if isHighSurrogate c
      then match s' with
           | d :: s'' => isLowSurrogate d && isWellFormed s''
           | [] => false
           end
      else negb (isLowSurrogate c) && isWellFormed s'
  end.

(** ** Values on the wire and in the message list *)

(** A message id: the server's [message_id] (a JSON string or number) or
    a string made by the client. *)
Inductive MsgId :=
| IdStr (s : jsstring)
| IdNum (n : Z).

(** Truthiness, as [data.message_id || ...] tests it. *)
Definition truthyId (i : MsgId) : bool :=
  match i with
  | IdStr s => negb (isEmpty s)
  | IdNum n => negb (n =? 0)
  end.

(** [a === b] on ids. *)
Definition idEq (a b : MsgId) : bool :=
  match a, b with
  | IdStr x, IdStr y => strictEq x y
  | IdNum x, IdNum y => x =? y
  | _, _ => false
  end.

Inductive MsgType := system | user.

(** The [timestamp] of a rendered message: [new Date()] at the time of
    handling, or [new Date(raw)] of the envelope's field. *)
Inductive Stamp :=
| DateNow (now : Z)
| DateOf (raw : jsstring).

(** An entry of the rendered message list. *)
Record ChatMessage := mkMsg {
  msg_id : MsgId;
  msg_type : MsgType;
  msg_username : option jsstring;
  msg_content : jsstring;
  msg_timestamp : Stamp
}.

(** An element of the [messages] array of a batch envelope. *)
Record WireMessage := mkWire {
  wire_message_id : option MsgId;
  wire_username : jsstring;
  wire_content : jsstring;
  wire_timestamp : jsstring
}.

(** The parsed envelope [data], by its [type].  An optional field is
    [None] when the JSON object lacks it (or holds null). *)
Inductive Envelope :=
| welcome (message : jsstring) (users : option (list jsstring))
| message (message_id : option MsgId) (username content timestamp : jsstring)
| messages_batch (messages : option (list WireMessage))
| user_joined (username timestamp : jsstring)
| user_left (username timestamp : jsstring)
| rate_limit (remaining_seconds : option Z)
| typing (typing_users : option (list jsstring))
| unknown (type : jsstring).

(** A frame the client sends: [{message: text}] or [{typing: flag}]. *)
Inductive Frame :=
| MessageFrame (text : jsstring)
| TypingFrame (isTyping : bool).

(** ** The browser side: sockets and timers *)

Inductive ReadyState := CONNECTING | OPEN | CLOSING | CLOSED.

Definition readyStateEq (a b : ReadyState) : bool :=
  match a, b with
  | CONNECTING, CONNECTING | OPEN, OPEN | CLOSING, CLOSING | CLOSED, CLOSED => true
  | _, _ => false
  end.

(** A WebSocket object made by [connectWebSocket(user, group)].  Its URL
    is [WS_URL/ws/<user>/<group>], kept here as the two components.  Its
    handlers are closures of the [connectWebSocket] that made it, so they
    see that closure's [groupId]: [ws_groupId]. *)
Record Socket := mkSocket {
  ws_user : jsstring;
  ws_group : jsstring;
  ws_groupId : jsstring;
  readyState : ReadyState
}.

(** What a pending timer will run.  The callbacks are closures: the
    reconnect callback sees the [groupId] of its [connectWebSocket], the
    typing callback the [isConnected] of its [sendTypingIndicator]. *)
Inductive TimerKind :=
| ReconnectTimer (capturedGroupId : jsstring)
| RateLimitInterval
| TypingTimer (capturedIsConnected : bool).

(** A pending timer: the id [setTimeout]/[setInterval] returned (a
    positive integer, hence truthy), its callback, its delay in
    milliseconds, and whether it repeats ([setInterval]). *)
Record Timer := mkTimer {
  timerId : positive;
  timerKind : TimerKind;
  timerDelay : Z;
  timerRepeats : bool
}.

(** ** The component's state *)

Record AppState := mkApp {
  (* useState cells *)
  isConnected : bool;
  username : jsstring;
  groupId : jsstring;
  messages : list ChatMessage;
  users : list jsstring;
  messageInput : jsstring;
  error : jsstring;
  rateLimitSeconds : Z;
  isRateLimited : bool;
  pendingMessage : jsstring;
  typingUsers : list jsstring;
  (* useRef cells (the .current of each) *)
  wsRef : option nat;
  reconnectTimeoutRef : option positive;
  rateLimitIntervalRef : option positive;
  pendingMessageRef : jsstring;
  usernameRef : jsstring;
  startRateLimitCountdownRef : bool;
  typingTimeoutRef : option positive;
  lastTypingSentRef : Z;
  handleWebSocketMessageRef : bool;
  (* the browser and React: sockets created, frames sent, pending timers,
     whether the component is still mounted, and the updaters of
     [setMessages] queued for the next render *)
  sockets : list Socket;
  outbox : list (nat * Frame);
  timers : list Timer;
  nextTimerId : positive;
  mounted : bool;
  queuedUpdaters : list jsstring
}.

Definition setIsConnected (v : bool) (s : AppState) : AppState :=
  mkApp v (username s) (groupId s) (messages s) (users s) (messageInput s)
    (error s) (rateLimitSeconds s) (isRateLimited s) (pendingMessage s)
    (typingUsers s) (wsRef s) (reconnectTimeoutRef s) (rateLimitIntervalRef s)
    (pendingMessageRef s) (usernameRef s) (startRateLimitCountdownRef s)
    (typingTimeoutRef s) (lastTypingSentRef s) (handleWebSocketMessageRef s)
    (sockets s) (outbox s) (timers s) (nextTimerId s) (mounted s)
    (queuedUpdaters s).

Definition setUsername (v : jsstring) (s : AppState) : AppState :=
  mkApp (isConnected s) v (groupId s) (messages s) (users s) (messageInput s)
    (error s) (rateLimitSeconds s) (isRateLimited s) (pendingMessage s)
    (typingUsers s) (wsRef s) (reconnectTimeoutRef s) (rateLimitIntervalRef s)
    (pendingMessageRef s) (usernameRef s) (startRateLimitCountdownRef s)
    (typingTimeoutRef s) (lastTypingSentRef s) (handleWebSocketMessageRef s)
    (sockets s) (outbox s) (timers s) (nextTimerId s) (mounted s)
    (queuedUpdaters s).

Definition setGroupId (v : jsstring) (s : AppState) : AppState :=
  mkApp (isConnected s) (username s) v (messages s) (users s) (messageInput s)
    (error s) (rateLimitSeconds s) (isRateLimited s) (pendingMessage s)
    (typingUsers s) (wsRef s) (reconnectTimeoutRef s) (rateLimitIntervalRef s)
    (pendingMessageRef s) (usernameRef s) (startRateLimitCountdownRef s)
    (typingTimeoutRef s) (lastTypingSentRef s) (handleWebSocketMessageRef s)
    (sockets s) (outbox s) (timers s) (nextTimerId s) (mounted s)
    (queuedUpdaters s).

Definition setMessages (v : list ChatMessage) (s : AppState) : AppState :=
  mkApp (isConnected s) (username s) (groupId s) v (users s) (messageInput s)
    (error s) (rateLimitSeconds s) (isRateLimited s) (pendingMessage s)
    (typingUsers s) (wsRef s) (reconnectTimeoutRef s) (rateLimitIntervalRef s)
    (pendingMessageRef s) (usernameRef s) (startRateLimitCountdownRef s)
    (typingTimeoutRef s) (lastTypingSentRef s) (handleWebSocketMessageRef s)
    (sockets s) (outbox s) (timers s) (nextTimerId s) (mounted s)
    (queuedUpdaters s).

Definition setUsers (v : list jsstring) (s : AppState) : AppState :=
  mkApp (isConnected s) (username s) (groupId s) (messages s) v
    (messageInput s) (error s) (rateLimitSeconds s) (isRateLimited s)
    (pendingMessage s) (typingUsers s) (wsRef s) (reconnectTimeoutRef s)
    (rateLimitIntervalRef s) (pendingMessageRef s) (usernameRef s)
    (startRateLimitCountdownRef s) (typingTimeoutRef s) (lastTypingSentRef s)
    (handleWebSocketMessageRef s) (sockets s) (outbox s) (timers s)
    (nextTimerId s) (mounted s) (queuedUpdaters s).

Definition setMessageInput (v : jsstring) (s : AppState) : AppState :=
  mkApp (isConnected s) (username s) (groupId s) (messages s) (users s) v
    (error s) (rateLimitSeconds s) (isRateLimited s) (pendingMessage s)
    (typingUsers s) (wsRef s) (reconnectTimeoutRef s) (rateLimitIntervalRef s)
    (pendingMessageRef s) (usernameRef s) (startRateLimitCountdownRef s)
    (typingTimeoutRef s) (lastTypingSentRef s) (handleWebSocketMessageRef s)
    (sockets s) (outbox s) (timers s) (nextTimerId s) (mounted s)
    (queuedUpdaters s).

Definition setError (v : jsstring) (s : AppState) : AppState :=
  mkApp (isConnected s) (username s) (groupId s) (messages s) (users s)
    (messageInput s) v (rateLimitSeconds s) (isRateLimited s)
    (pendingMessage s) (typingUsers s) (wsRef s) (reconnectTimeoutRef s)
    (rateLimitIntervalRef s) (pendingMessageRef s) (usernameRef s)
    (startRateLimitCountdownRef s) (typingTimeoutRef s) (lastTypingSentRef s)
    (handleWebSocketMessageRef s) (sockets s) (outbox s) (timers s)
    (nextTimerId s) (mounted s) (queuedUpdaters s).

Definition setRateLimitSeconds (v : Z) (s : AppState) : AppState :=
  mkApp (isConnected s) (username s) (groupId s) (messages s) (users s)
    (messageInput s) (error s) v (isRateLimited s) (pendingMessage s)
    (typingUsers s) (wsRef s) (reconnectTimeoutRef s) (rateLimitIntervalRef s)
    (pendingMessageRef s) (usernameRef s) (startRateLimitCountdownRef s)
    (typingTimeoutRef s) (lastTypingSentRef s) (handleWebSocketMessageRef s)
    (sockets s) (outbox s) (timers s) (nextTimerId s) (mounted s)
    (queuedUpdaters s).

Definition setIsRateLimited (v : bool) (s : AppState) : AppState :=
  mkApp (isConnected s) (username s) (groupId s) (messages s) (users s)
    (messageInput s) (error s) (rateLimitSeconds s) v (pendingMessage s)
    (typingUsers s) (wsRef s) (reconnectTimeoutRef s) (rateLimitIntervalRef s)
    (pendingMessageRef s) (usernameRef s) (startRateLimitCountdownRef s)
    (typingTimeoutRef s) (lastTypingSentRef s) (handleWebSocketMessageRef s)
    (sockets s) (outbox s) (timers s) (nextTimerId s) (mounted s)
    (queuedUpdaters s).

Definition setPendingMessage (v : jsstring) (s : AppState) : AppState :=
  mkApp (isConnected s) (username s) (groupId s) (messages s) (users s)
    (messageInput s) (error s) (rateLimitSeconds s) (isRateLimited s) v
    (typingUsers s) (wsRef s) (reconnectTimeoutRef s) (rateLimitIntervalRef s)
    (pendingMessageRef s) (usernameRef s) (startRateLimitCountdownRef s)
    (typingTimeoutRef s) (lastTypingSentRef s) (handleWebSocketMessageRef s)
    (sockets s) (outbox s) (timers s) (nextTimerId s) (mounted s)
    (queuedUpdaters s).

Definition setTypingUsers (v : list jsstring) (s : AppState) : AppState :=
  mkApp (isConnected s) (username s) (groupId s) (messages s) (users s)
    (messageInput s) (error s) (rateLimitSeconds s) (isRateLimited s)
    (pendingMessage s) v (wsRef s) (reconnectTimeoutRef s)
    (rateLimitIntervalRef s) (pendingMessageRef s) (usernameRef s)
    (startRateLimitCountdownRef s) (typingTimeoutRef s) (lastTypingSentRef s)
    (handleWebSocketMessageRef s) (sockets s) (outbox s) (timers s)
    (nextTimerId s) (mounted s) (queuedUpdaters s).

Definition set_wsRef (v : option nat) (s : AppState) : AppState :=
  mkApp (isConnected s) (username s) (groupId s) (messages s) (users s)
    (messageInput s) (error s) (rateLimitSeconds s) (isRateLimited s)
    (pendingMessage s) (typingUsers s) v (reconnectTimeoutRef s)
    (rateLimitIntervalRef s) (pendingMessageRef s) (usernameRef s)
    (startRateLimitCountdownRef s) (typingTimeoutRef s) (lastTypingSentRef s)
    (handleWebSocketMessageRef s) (sockets s) (outbox s) (timers s)
    (nextTimerId s) (mounted s) (queuedUpdaters s).

Definition set_reconnectTimeoutRef (v : option positive) (s : AppState) : AppState :=
  mkApp (isConnected s) (username s) (groupId s) (messages s) (users s)
    (messageInput s) (error s) (rateLimitSeconds s) (isRateLimited s)
    (pendingMessage s) (typingUsers s) (wsRef s) v (rateLimitIntervalRef s)
    (pendingMessageRef s) (usernameRef s) (startRateLimitCountdownRef s)
    (typingTimeoutRef s) (lastTypingSentRef s) (handleWebSocketMessageRef s)
    (sockets s) (outbox s) (timers s) (nextTimerId s) (mounted s)
    (queuedUpdaters s).

Definition set_rateLimitIntervalRef (v : option positive) (s : AppState) : AppState :=
  mkApp (isConnected s) (username s) (groupId s) (messages s) (users s)
    (messageInput s) (error s) (rateLimitSeconds s) (isRateLimited s)
    (pendingMessage s) (typingUsers s) (wsRef s) (reconnectTimeoutRef s) v
    (pendingMessageRef s) (usernameRef s) (startRateLimitCountdownRef s)
    (typingTimeoutRef s) (lastTypingSentRef s) (handleWebSocketMessageRef s)
    (sockets s) (outbox s) (timers s) (nextTimerId s) (mounted s)
    (queuedUpdaters s).

Definition set_pendingMessageRef (v : jsstring) (s : AppState) : AppState :=
  mkApp (isConnected s) (username s) (groupId s) (messages s) (users s)
    (messageInput s) (error s) (rateLimitSeconds s) (isRateLimited s)
    (pendingMessage s) (typingUsers s) (wsRef s) (reconnectTimeoutRef s)
    (rateLimitIntervalRef s) v (usernameRef s) (startRateLimitCountdownRef s)
    (typingTimeoutRef s) (lastTypingSentRef s) (handleWebSocketMessageRef s)
    (sockets s) (outbox s) (timers s) (nextTimerId s) (mounted s)
    (queuedUpdaters s).

Definition set_usernameRef (v : jsstring) (s : AppState) : AppState :=
  mkApp (isConnected s) (username s) (groupId s) (messages s) (users s)
    (messageInput s) (error s) (rateLimitSeconds s) (isRateLimited s)
    (pendingMessage s) (typingUsers s) (wsRef s) (reconnectTimeoutRef s)
    (rateLimitIntervalRef s) (pendingMessageRef s) v
    (startRateLimitCountdownRef s) (typingTimeoutRef s) (lastTypingSentRef s)
    (handleWebSocketMessageRef s) (sockets s) (outbox s) (timers s)
    (nextTimerId s) (mounted s) (queuedUpdaters s).

Definition set_startRateLimitCountdownRef (v : bool) (s : AppState) : AppState :=
  mkApp (isConnected s) (username s) (groupId s) (messages s) (users s)
    (messageInput s) (error s) (rateLimitSeconds s) (isRateLimited s)
    (pendingMessage s) (typingUsers s) (wsRef s) (reconnectTimeoutRef s)
    (rateLimitIntervalRef s) (pendingMessageRef s) (usernameRef s) v
    (typingTimeoutRef s) (lastTypingSentRef s) (handleWebSocketMessageRef s)
    (sockets s) (outbox s) (timers s) (nextTimerId s) (mounted s)
    (queuedUpdaters s).

Definition set_typingTimeoutRef (v : option positive) (s : AppState) : AppState :=
  mkApp (isConnected s) (username s) (groupId s) (messages s) (users s)
    (messageInput s) (error s) (rateLimitSeconds s) (isRateLimited s)
    (pendingMessage s) (typingUsers s) (wsRef s) (reconnectTimeoutRef s)
    (rateLimitIntervalRef s) (pendingMessageRef s) (usernameRef s)
    (startRateLimitCountdownRef s) v (lastTypingSentRef s)
    (handleWebSocketMessageRef s) (sockets s) (outbox s) (timers s)
    (nextTimerId s) (mounted s) (queuedUpdaters s).

Definition set_lastTypingSentRef (v : Z) (s : AppState) : AppState :=
  mkApp (isConnected s) (username s) (groupId s) (messages s) (users s)
    (messageInput s) (error s) (rateLimitSeconds s) (isRateLimited s)
    (pendingMessage s) (typingUsers s) (wsRef s) (reconnectTimeoutRef s)
    (rateLimitIntervalRef s) (pendingMessageRef s) (usernameRef s)
    (startRateLimitCountdownRef s) (typingTimeoutRef s) v
    (handleWebSocketMessageRef s) (sockets s) (outbox s) (timers s)
    (nextTimerId s) (mounted s) (queuedUpdaters s).

Definition set_handleWebSocketMessageRef (v : bool) (s : AppState) : AppState :=
  mkApp (isConnected s) (username s) (groupId s) (messages s) (users s)
    (messageInput s) (error s) (rateLimitSeconds s) (isRateLimited s)
    (pendingMessage s) (typingUsers s) (wsRef s) (reconnectTimeoutRef s)
    (rateLimitIntervalRef s) (pendingMessageRef s) (usernameRef s)
    (startRateLimitCountdownRef s) (typingTimeoutRef s) (lastTypingSentRef s)
    v (sockets s) (outbox s) (timers s) (nextTimerId s) (mounted s)
    (queuedUpdaters s).

Definition set_sockets (v : list Socket) (s : AppState) : AppState :=
  mkApp (isConnected s) (username s) (groupId s) (messages s) (users s)
    (messageInput s) (error s) (rateLimitSeconds s) (isRateLimited s)
    (pendingMessage s) (typingUsers s) (wsRef s) (reconnectTimeoutRef s)
    (rateLimitIntervalRef s) (pendingMessageRef s) (usernameRef s)
    (startRateLimitCountdownRef s) (typingTimeoutRef s) (lastTypingSentRef s)
    (handleWebSocketMessageRef s) v (outbox s) (timers s) (nextTimerId s)
    (mounted s) (queuedUpdaters s).

Definition set_outbox (v : list (nat * Frame)) (s : AppState) : AppState :=
  mkApp (isConnected s) (username s) (groupId s) (messages s) (users s)
    (messageInput s) (error s) (rateLimitSeconds s) (isRateLimited s)
    (pendingMessage s) (typingUsers s) (wsRef s) (reconnectTimeoutRef s)
    (rateLimitIntervalRef s) (pendingMessageRef s) (usernameRef s)
    (startRateLimitCountdownRef s) (typingTimeoutRef s) (lastTypingSentRef s)
    (handleWebSocketMessageRef s) (sockets s) v (timers s) (nextTimerId s)
    (mounted s) (queuedUpdaters s).

Definition set_timers (v : list Timer) (s : AppState) : AppState :=
  mkApp (isConnected s) (username s) (groupId s) (messages s) (users s)
    (messageInput s) (error s) (rateLimitSeconds s) (isRateLimited s)
    (pendingMessage s) (typingUsers s) (wsRef s) (reconnectTimeoutRef s)
    (rateLimitIntervalRef s) (pendingMessageRef s) (usernameRef s)
    (startRateLimitCountdownRef s) (typingTimeoutRef s) (lastTypingSentRef s)
    (handleWebSocketMessageRef s) (sockets s) (outbox s) v (nextTimerId s)
    (mounted s) (queuedUpdaters s).

Definition set_nextTimerId (v : positive) (s : AppState) : AppState :=
  mkApp (isConnected s) (username s) (groupId s) (messages s) (users s)
    (messageInput s) (error s) (rateLimitSeconds s) (isRateLimited s)
    (pendingMessage s) (typingUsers s) (wsRef s) (reconnectTimeoutRef s)
    (rateLimitIntervalRef s) (pendingMessageRef s) (usernameRef s)
    (startRateLimitCountdownRef s) (typingTimeoutRef s) (lastTypingSentRef s)
    (handleWebSocketMessageRef s) (sockets s) (outbox s) (timers s) v
    (mounted s) (queuedUpdaters s).

Definition set_mounted (v : bool) (s : AppState) : AppState :=
  mkApp (isConnected s) (username s) (groupId s) (messages s) (users s)
    (messageInput s) (error s) (rateLimitSeconds s) (isRateLimited s)
    (pendingMessage s) (typingUsers s) (wsRef s) (reconnectTimeoutRef s)
    (rateLimitIntervalRef s) (pendingMessageRef s) (usernameRef s)
    (startRateLimitCountdownRef s) (typingTimeoutRef s) (lastTypingSentRef s)
    (handleWebSocketMessageRef s) (sockets s) (outbox s) (timers s)
    (nextTimerId s) v (queuedUpdaters s).

Definition set_queuedUpdaters (v : list jsstring) (s : AppState) : AppState :=
  mkApp (isConnected s) (username s) (groupId s) (messages s) (users s)
    (messageInput s) (error s) (rateLimitSeconds s) (isRateLimited s)
    (pendingMessage s) (typingUsers s) (wsRef s) (reconnectTimeoutRef s)
    (rateLimitIntervalRef s) (pendingMessageRef s) (usernameRef s)
    (startRateLimitCountdownRef s) (typingTimeoutRef s) (lastTypingSentRef s)
    (handleWebSocketMessageRef s) (sockets s) (outbox s) (timers s)
    (nextTimerId s) (mounted s) v.


(** ** Timers *)

(** [setTimeout(callback, delay)]: a fresh id, one more pending timer. *)
Definition setTimeout (k : TimerKind) (delay : Z) (s : AppState)
  : positive * AppState :=
  let t := nextTimerId s in
  (t, set_nextTimerId (Pos.succ t)
        (set_timers (timers s ++ [mkTimer t k delay false]) s)).

(** [setInterval(callback, delay)]. *)
Definition setInterval (k : TimerKind) (delay : Z) (s : AppState)
  : positive * AppState :=
  let t := nextTimerId s in
  (t, set_nextTimerId (Pos.succ t)
        (set_timers (timers s ++ [mkTimer t k delay true]) s)).

Definition keepsTimer (t : positive) (x : Timer) : bool :=
  negb (Pos.eqb (timerId x) t).

(** [clearTimeout(t)]: the timer of that id, if pending, is dropped;
    an id that is not pending changes nothing. *)
Definition clearTimeout (t : positive) (s : AppState) : AppState :=
  set_timers (filter (keepsTimer t) (timers s)) s.

(** [clearInterval(t)]: timeouts and intervals share one pool of ids. *)
Definition clearInterval (t : positive) (s : AppState) : AppState :=
  clearTimeout t s.

(** ** Sockets *)

Fixpoint updateNth {A : Type} (i : nat) (f : A -> A) (l : list A) : list A :=
  match l, i with
  | [], _ => []
  | x :: l', O => f x :: l'
  | x :: l', S i' => x :: updateNth i' f l'
  end.

Definition withReadyState (r : ReadyState) (w : Socket) : Socket :=
  mkSocket (ws_user w) (ws_group w) (ws_groupId w) r.

(** The object [wsRef.current] points to, if any. *)
Definition currentSocket (s : AppState) : option Socket :=
  match wsRef s with
  | Some i => nth_error (sockets s) i
  | None => None
  end.

(** [wsRef.current?.readyState === WebSocket.OPEN]. *)
Definition wsIsOpen (s : AppState) : bool :=
  match currentSocket s with
  | Some w => readyStateEq (readyState w) OPEN
  | None => false
  end.

(** [ws.close(1000, reason)] starts the closing handshake of a socket that
    is connecting or open; the close event comes later, from the browser. *)
Definition closing (w : Socket) : Socket :=
  match readyState w with
  | CONNECTING | OPEN => withReadyState CLOSING w
  | CLOSING | CLOSED => w
  end.

Definition ws_close (i : nat) (s : AppState) : AppState :=
  set_sockets (updateNth i closing (sockets s)) s.

(** [wsRef.current.send(JSON.stringify(frame))].  [None] is an exception:
    a TypeError when [wsRef.current] is null, an InvalidStateError when
    the socket is still connecting.  A socket that is closing or closed
    drops the frame silently. *)
Definition ws_send (f : Frame) (s : AppState) : option AppState :=
  match wsRef s with
  | None => None
  | Some i =>
      match nth_error (sockets s) i with
      | None => None
      | Some w =>
          match readyState w with
          | CONNECTING => None
          | OPEN => Some (set_outbox (outbox s ++ [(i, f)]) s)
          | CLOSING | CLOSED => Some s
          end
      end
  end.

(** ** The rate-limit countdown *)

(** [startRateLimitCountdown(seconds)]. *)
Definition startRateLimitCountdown (seconds : Z) (s : AppState) : AppState :=
  let s1 := match rateLimitIntervalRef s with
            | Some t => clearInterval t s
            | None => s
            end in
  let s2 := setIsRateLimited true (setRateLimitSeconds seconds s1) in
  let (t, s3) := setInterval RateLimitInterval 1000 s2 in
  set_rateLimitIntervalRef (Some t) s3.

(** The callback of the countdown's interval: one tick.  The callback
    passes an updater to [setRateLimitSeconds]; this is the tick
    together with the run of that updater, which React does at the
    render that follows.  [prev - 1] is a subtraction of doubles. *)
Definition rateLimitTick (s : AppState) : AppState :=
  if rateLimitSeconds s <=? 1 then
    let s1 := setIsRateLimited false s in
    let s2 := match rateLimitIntervalRef s1 with
              | Some t => set_rateLimitIntervalRef None (clearInterval t s1)
              | None => s1
              end in
    setRateLimitSeconds 0 (setError [] s2)
  else setRateLimitSeconds (roundDouble (rateLimitSeconds s - 1)) s.

(** ** Envelopes from the server *)

Definition systemMessage (now : Z) (content : jsstring) (at_ : Stamp)
  : ChatMessage :=
  mkMsg (IdStr (js "system-" ++ numberToString now)) system None content at_.

Definition userMessage (i : MsgId) (username content timestamp : jsstring)
  : ChatMessage :=
  mkMsg i user (Some username) content (DateOf timestamp).

(** [message_id || 'msg-' + Date.now()]. *)
Definition orFreshId (message_id : option MsgId) (now : Z) : MsgId :=
  match message_id with
  | Some i => if truthyId i then i else IdStr (js "msg-" ++ numberToString now)
  | None => IdStr (js "msg-" ++ numberToString now)
  end.

(** [prev.some(msg => msg.id === i)], also [existingIds.has(i)]. *)
Definition hasId (i : MsgId) (prev : list ChatMessage) : bool :=
  existsb (fun msg => idEq (msg_id msg) i) prev.

(** [prev.includes(u)]. *)
Definition includes (u : jsstring) (prev : list jsstring) : bool :=
  existsb (fun x => strictEq x u) prev.

Definition rateLimitedText (remaining : Z) : jsstring :=
  [9201; 65039]%N ++ js " Rate limited! Please wait " ++ numberToString remaining
    ++ js " seconds before sending another message".

(** The side effect inside the updater that the [message] case passes
    to [setMessages], reached when the id is not rendered yet: the
    user's own message settles the pending text.  [name] is the
    [data.username] the updater captured; the refs are read when the
    updater runs. *)
Definition settlePending (name : jsstring) (s : AppState) : AppState :=
  if strictEq name (usernameRef s) && negb (isEmpty (pendingMessageRef s))
  then set_pendingMessageRef [] (setPendingMessage [] s)
  else s.

(** [handleWebSocketMessage(data)]; [now] is what the clock reads while
    the handler runs.

    [setMessages] and [setUsers] are called with updaters.  React runs
    the updaters of a cell in the order they were queued, each on the
    result of the one before, so a cell here holds the value the next
    updater will see.  What an updater does besides returning the new
    list happens when React runs it, at the next render: the [message]
    case queues that part in [queuedUpdaters]. *)
Definition handleWebSocketMessage (data : Envelope) (now : Z) (s : AppState)
  : AppState :=
  match data with
  | welcome text us =>
      let s1 := setUsers (match us with Some l => l | None => [] end) s in
      setMessages (systemMessage now text (DateNow now) :: messages s1) s1
  | message message_id name content timestamp =>
      let messageId := orFreshId message_id now in
      if hasId messageId (messages s) then s
      else
        let s1 := set_queuedUpdaters (queuedUpdaters s ++ [name]) s in
        setMessages (messages s1 ++ [userMessage messageId name content timestamp]) s1
  | messages_batch (Some batch) =>
      let prev := messages s in
      let newMessages :=
        filter (fun msg => negb (hasId (msg_id msg) prev))
          (map (fun msg => userMessage (orFreshId (wire_message_id msg) now)
                             (wire_username msg) (wire_content msg)
                             (wire_timestamp msg)) batch) in
      setMessages (prev ++ newMessages) s
  | messages_batch None => s
  | user_joined name timestamp =>
      let s1 := setUsers (if includes name (users s) then users s
                          else users s ++ [name]) s in
      setMessages (systemMessage now (name ++ js " joined the group")
                     (DateOf timestamp) :: messages s1) s1
  | user_left name timestamp =>
      let s1 := setUsers (filter (fun u => negb (strictEq u name)) (users s)) s in
      setMessages (systemMessage now (name ++ js " left the group")
                     (DateOf timestamp) :: messages s1) s1
  | rate_limit remaining_seconds =>
      let remaining := match remaining_seconds with
                       | Some r => if r =? 0 then 5 else r
                       | None => 5
                       end in
      let s1 := setIsRateLimited true (setRateLimitSeconds remaining s) in
      let s2 := if startRateLimitCountdownRef s1
                then startRateLimitCountdown remaining s1 else s1 in
      let s3 := setError (rateLimitedText remaining) s2 in
      if negb (isEmpty (pendingMessageRef s3))
      then set_pendingMessageRef []
             (setPendingMessage [] (setMessageInput (pendingMessageRef s3) s3))
      else s3
  | typing (Some typing_users) =>
      let othersTyping :=
        filter (fun u => negb (strictEq u (usernameRef s))) typing_users in
      setTypingUsers othersTyping s
  | typing None => s
  | unknown _ => s
  end.

(** ** Connecting *)

(** Whether [encodeURIComponent(user)] and [encodeURIComponent(group)]
    return; otherwise the first one that meets a lone surrogate throws a
    URIError. *)
Definition urlEncodes (user group : jsstring) : bool :=
  isWellFormed user && isWellFormed group.

(** [connectWebSocket(user, group)], for the closure whose [groupId] is
    [capturedGroupId].  When building the URL throws, the function is
    left there: no socket is made and [wsRef] keeps its value.  No
    caller catches the exception or does anything after the call. *)
Definition connectWebSocket (capturedGroupId user group : jsstring)
  (s : AppState) : AppState :=
  let s1 := if wsIsOpen s
            then match wsRef s with Some i => ws_close i s | None => s end
            else s in
  let s2 := match reconnectTimeoutRef s1 with
            | Some t => set_reconnectTimeoutRef None (clearTimeout t s1)
            | None => s1
            end in
  let s3 := setError [] s2 in
  if urlEncodes user group
  then let ws := mkSocket user group capturedGroupId CONNECTING in
       set_wsRef (Some (length (sockets s3)))
         (set_sockets (sockets s3 ++ [ws]) s3)
  else s3.

(** [ws.onopen]. *)
Definition ws_onopen (s : AppState) : AppState :=
  let s1 := setError [] (setIsConnected true s) in
  match reconnectTimeoutRef s1 with
  | Some t => set_reconnectTimeoutRef None (clearTimeout t s1)
  | None => s1
  end.

(** [ws.onmessage]: [data] is [None] when [JSON.parse] throws. *)
Definition ws_onmessage (data : option Envelope) (now : Z) (s : AppState)
  : AppState :=
  match data with
  | Some d => if handleWebSocketMessageRef s
              then handleWebSocketMessage d now s else s
  | None => s
  end.

(** [ws.onerror] only logs. *)
Definition ws_onerror (s : AppState) : AppState := s.

Definition closeErrorText (code : Z) (reason : jsstring) (s : AppState)
  : AppState :=
  if code =? 1000 then setError [] s
  else if code =? 1006
  then setError (js "Connection lost. Attempting to reconnect...") s
  else if code =? 1008
  then setError (if isEmpty reason
                 then js "Connection rejected. Please check your room name and username."
                 else reason) s
  else if code =? 1011
  then setError (js "Server error occurred. Attempting to reconnect...") s
  else if negb (code =? 1000)
  then setError (js "Connection closed. Attempting to reconnect...") s
  else s.

(** [ws.onclose] of a socket whose closure saw [capturedGroupId]. *)
Definition ws_onclose (capturedGroupId : jsstring) (code : Z)
  (reason : jsstring) (s : AppState) : AppState :=
  let s1 := closeErrorText code reason (setIsConnected false s) in
  if negb (code =? 1000) && negb (isEmpty (usernameRef s1))
     && negb (isEmpty capturedGroupId)
  then match reconnectTimeoutRef s1 with
       | None =>
           let (t, s2) := setTimeout (ReconnectTimer capturedGroupId) 3000 s1 in
           set_reconnectTimeoutRef (Some t) s2
       | Some _ => s1
       end
  else s1.

(** The callback of the reconnect timer. *)
Definition reconnectCallback (capturedGroupId : jsstring) (s : AppState)
  : AppState :=
  let s1 := setError (js "Reconnecting...") s in
  connectWebSocket capturedGroupId (usernameRef s1) capturedGroupId s1.

(** ** Typing indicator and sending *)

(** [sendTypingIndicator(isTyping)], for the closure whose [isConnected]
    is [capturedIsConnected]; [now] is [Date.now()]. *)
Definition sendTypingIndicator (capturedIsConnected isTyping : bool) (now : Z)
  (s : AppState) : AppState :=
  if negb capturedIsConnected || negb (wsIsOpen s) then s
  else if isTyping && (now - lastTypingSentRef s <? 1000) then s
  else
    let s1 := set_lastTypingSentRef now s in
    match ws_send (TypingFrame isTyping) s1 with
    | None => s1
    | Some s2 =>
        let s3 := match typingTimeoutRef s2 with
                  | Some t => clearTimeout t s2
                  | None => s2
                  end in
        if isTyping
        then let (t, s4) := setTimeout (TypingTimer capturedIsConnected) 2000 s3 in
             set_typingTimeoutRef (Some t) s4
        else s3
    end.

Definition pleaseWaitText (seconds : Z) : jsstring :=
  [9201; 65039]%N ++ js " Please wait " ++ numberToString seconds
    ++ js " seconds before sending another message".

(** [handleSendMessage(e)]; the handler is made anew at every render, so
    the state it sees is the current one. *)
Definition handleSendMessage (now : Z) (s : AppState) : AppState :=
  let trimmed := trim (messageInput s) in
  if isEmpty trimmed || negb (isConnected s) || negb (wsIsOpen s) then s
  else if isRateLimited s
  then setError (pleaseWaitText (rateLimitSeconds s)) s
  else
    let s1 := sendTypingIndicator (isConnected s) false now s in
    let s2 := set_pendingMessageRef trimmed (setPendingMessage trimmed s1) in
    match ws_send (MessageFrame trimmed) s2 with
    | Some s3 =>
        let s4 := setError [] (setMessageInput [] s3) in
        if startRateLimitCountdownRef s4
        then startRateLimitCountdown 5 s4 else s4
    | None =>
        let s3 := setError (js "Failed to send message") s2 in
        if negb (isEmpty (pendingMessageRef s3))
        then set_pendingMessageRef []
               (setPendingMessage [] (setMessageInput (pendingMessageRef s3) s3))
        else s3
    end.

(** [handleInputChange(e)] with [e.target.value = value]. *)
Definition handleInputChange (value : jsstring) (now : Z) (s : AppState)
  : AppState :=
  let s1 := setMessageInput value s in
  if negb (isEmpty (trim value)) && negb (isRateLimited s)
  then sendTypingIndicator (isConnected s) true now s1
  else sendTypingIndicator (isConnected s) false now s1.

(** ** Leaving and unmounting *)

(** [handleDisconnect()]. *)
Definition handleDisconnect (s : AppState) : AppState :=
  let s1 := if wsIsOpen s
            then match ws_send (TypingFrame false) s with
                 | Some s' => s'
                 | None => s
                 end
            else s in
  let s2 := match wsRef s1 with
            | Some i => set_wsRef None (ws_close i s1)
            | None => s1
            end in
  let s3 := setError [] (setGroupId [] (setUsername [] (setTypingUsers []
              (setUsers [] (setMessages [] (setIsConnected false s2)))))) in
  let s4 := match reconnectTimeoutRef s3 with
            | Some t => set_reconnectTimeoutRef None (clearTimeout t s3)
            | None => s3
            end in
  match typingTimeoutRef s4 with
  | Some t => set_typingTimeoutRef None (clearTimeout t s4)
  | None => s4
  end.

(** The cleanup of the mount effect, run when the component unmounts. *)
Definition unmountCleanup (s : AppState) : AppState :=
  let s1 := if wsIsOpen s
            then match wsRef s with Some i => ws_close i s | None => s end
            else s in
  let s2 := match reconnectTimeoutRef s1 with
            | Some t => clearTimeout t s1
            | None => s1
            end in
  let s3 := match rateLimitIntervalRef s2 with
            | Some t => clearInterval t s2
            | None => s2
            end in
  let s4 := match typingTimeoutRef s3 with
            | Some t => clearTimeout t s3
            | None => s3
            end in
  if wsIsOpen s4
  then match ws_send (TypingFrame false) s4 with
       | Some s' => s'
       | None => s4
       end
  else s4.

(** ** Joining: the earlier client *)

Module Legacy.

(** What [handleJoin] of [frontend/src/App.js] does with the form:
    [setError(text)] and return, or [setGroupId(group)] followed by
    [connectWebSocket(user, group)]. *)
Inductive JoinOutcome :=
| Refused (text : jsstring)
| Connects (user group : jsstring).

Section Join.

(** [String.prototype.toUpperCase], whose table of case mappings is
    the Unicode standard's. *)
Variable toUpperCase : jsstring -> jsstring.

Definition handleJoin (username groupId : jsstring) : JoinOutcome :=
  let trimmedUsername := trim username in
  let trimmedGroupId := toUpperCase (trim groupId) in
  if isEmpty trimmedUsername
  then Refused (js "Please enter a username")
  else if isEmpty trimmedGroupId
          || (4 <? length trimmedGroupId)%nat
          || negb (isAlnumWord trimmedGroupId)
  then Refused (js "Group ID must be 1-4 alphanumeric characters")
  else Connects trimmedUsername trimmedGroupId.

(** Whether the form passes the validation, so that [handleJoin] goes
    on to [connectWebSocket]. *)
Definition joinConnects (username groupId : jsstring) : bool :=
  match handleJoin username groupId with
  | Connects _ _ => true
  | Refused _ => false
  end.

End Join.

End Legacy.

(** ** Events of the user and of the browser *)

Inductive Event :=
| UsernameInput (value : jsstring)
| GroupIdInput (value : jsstring)
| JoinSubmit
| MessageInputChange (value : jsstring) (now : Z)
| SendSubmit (now : Z)
| LeaveClick
| SocketOpen (i : nat)
| SocketMessage (i : nat) (data : option Envelope) (now : Z)
| SocketError (i : nat)
| SocketClose (i : nat) (code : Z) (reason : jsstring)
| TimerFires (t : positive) (now : Z)
| Unmount.

(** The component once mounted: the initial value of every cell, and the
    two function refs filled by their effects. *)
Definition initialState : AppState :=
  {| isConnected := false;
     username := [];
     groupId := [];
     messages := [];
     users := [];
     messageInput := [];
     error := [];
     rateLimitSeconds := 0;
     isRateLimited := false;
     pendingMessage := [];
     typingUsers := [];
     wsRef := None;
     reconnectTimeoutRef := None;
     rateLimitIntervalRef := None;
     pendingMessageRef := [];
     usernameRef := [];
     startRateLimitCountdownRef := true;
     typingTimeoutRef := None;
     lastTypingSentRef := 0;
     handleWebSocketMessageRef := true;
     sockets := [];
     outbox := [];
     timers := [];
     nextTimerId := 1%positive;
     mounted := true;
     queuedUpdaters := [] |}.

(** A render runs the queued updaters, in order. *)
Definition render (s : AppState) : AppState :=
  set_queuedUpdaters []
    (fold_left (fun s' name => settlePending name s') (queuedUpdaters s) s).

(** The render that follows an event, and after it the effect that
    keeps [usernameRef] equal to [username]; an unmounted component
    renders no more. *)
Definition commit (s : AppState) : AppState :=
  if mounted s
  then let s1 := render s in set_usernameRef (username s1) s1
  else s.

(** A timer that is due: a timeout leaves the pending list, an interval
    stays; then the callback runs. *)
Definition runTimer (tm : Timer) (now : Z) (s : AppState) : AppState :=
  let s1 := if timerRepeats tm then s else clearTimeout (timerId tm) s in
  match timerKind tm with
  | ReconnectTimer g => reconnectCallback g s1
  | RateLimitInterval => rateLimitTick s1
  | TypingTimer c => sendTypingIndicator c false now s1
  end.

Definition setReadyState (i : nat) (r : ReadyState) (s : AppState) : AppState :=
  set_sockets (updateNth i (withReadyState r) (sockets s)) s.

Section Client.

(** [String.prototype.toUpperCase], whose table of case mappings is the
    Unicode standard's. *)
Variable toUpperCase : jsstring -> jsstring.

(** [handleJoin(e)].  The [connectWebSocket] it calls is the one of the
    current render, whose closure holds the current [groupId]. *)
Definition handleJoin (s : AppState) : AppState :=
  let trimmedUsername := trim (username s) in
  let trimmedGroupId :=
    stripNonUpperAlnum (toUpperCase (trim (groupId s))) in
  if isEmpty trimmedUsername
  then setError (js "Please enter a username") s
  else if negb (length trimmedGroupId =? 5)%nat
  then setError (js "Room name must be exactly 5 alphanumeric characters") s
  else connectWebSocket (groupId s) trimmedUsername trimmedGroupId
         (setGroupId trimmedGroupId s).

(** Whether the form's submission opens a connection. *)
Definition joinConnects (s : AppState) : bool :=
  (length (sockets s) <? length (sockets (handleJoin s)))%nat.

(** [onChange] of the room input. *)
Definition handleGroupIdChange (value : jsstring) (s : AppState) : AppState :=
  setGroupId (slice0 5 (stripNonUpperAlnum (toUpperCase value))) s.

(** One event.  The join form is on screen while [isConnected] is false,
    the chat view while it is true; a socket delivers events according
    to its ready state; only a pending timer fires.  An event that
    cannot happen leaves the state as it is. *)
Definition handle (e : Event) (s : AppState) : AppState :=
  match e with
  | UsernameInput v =>
      if mounted s && negb (isConnected s) then setUsername v s else s
  | GroupIdInput v =>
      if mounted s && negb (isConnected s) then handleGroupIdChange v s else s
  | JoinSubmit =>
      if mounted s && negb (isConnected s) then handleJoin s else s
  | MessageInputChange v now =>
      if mounted s && isConnected s then handleInputChange v now s else s
  | SendSubmit now =>
      if mounted s && isConnected s then handleSendMessage now s else s
  | LeaveClick =>
      if mounted s && isConnected s then handleDisconnect s else s
  | SocketOpen i =>
      match nth_error (sockets s) i with
      | Some w =>
          match readyState w with
          | CONNECTING => ws_onopen (setReadyState i OPEN s)
          | _ => s
          end
      | None => s
      end
  | SocketMessage i data now =>
      match nth_error (sockets s) i with
      | Some w =>
          match readyState w with
          | OPEN | CLOSING => ws_onmessage data now s
          | _ => s
          end
      | None => s
      end
  | SocketError i =>
      match nth_error (sockets s) i with
      | Some _ => ws_onerror s
      | None => s
      end
  | SocketClose i code reason =>
      match nth_error (sockets s) i with
      | Some w =>
          match readyState w with
          | CLOSED => s
          | _ => ws_onclose (ws_groupId w) code reason (setReadyState i CLOSED s)
          end
      | None => s
      end
  | TimerFires t now =>
      match find (fun x => Pos.eqb (timerId x) t) (timers s) with
      | Some tm => runTimer tm now s
      | None => s
      end
  | Unmount =>
      if mounted s then set_mounted false (unmountCleanup s) else s
  end.

Definition step (e : Event) (s : AppState) : AppState := commit (handle e s).

(** The states the component goes through. *)
Inductive Reachable : AppState -> Prop :=
| Reachable_mounted : Reachable initialState
| Reachable_step : forall e s, Reachable s -> Reachable (step e s).

Definition run (events : list Event) (s : AppState) : AppState :=
  fold_left (fun s e => step e s) events s.

End Client.

(** [toUpperCase] on strings of ASCII characters, where it only maps the
    letters a-z to A-Z; used to run the client on sample inputs. *)
Definition asciiToUpperCase (s : jsstring) : jsstring :=
  map (fun c => if ((97 <=? c) && (c <=? 122))%N then (c - 32)%N else c) s.

(** ** Observations on the state *)

Definition isReconnect (k : TimerKind) : bool :=
  match k with ReconnectTimer _ => true | _ => false end.

Definition isRateLimit (k : TimerKind) : bool :=
  match k with RateLimitInterval => true | _ => false end.

Definition isTypingStop (k : TimerKind) : bool :=
  match k with TypingTimer _ => true | _ => false end.

(** [n] ticks of the countdown's interval, each with the run of its
    updater. *)
Definition ticks (n : nat) (s : AppState) : AppState :=
  Nat.iter n rateLimitTick s.

Definition jsstring_eq_dec : forall a b : jsstring, {a = b} + {a <> b} :=
  list_eq_dec N.eq_dec.

(** ** The timer discipline *)

Definition ofKind (k : TimerKind -> bool) (t : Timer) : bool :=
  k (timerKind t).

(** The pending timers of one kind. *)
Definition pending (k : TimerKind -> bool) (s : AppState) : list Timer :=
  filter (ofKind k) (timers s).

(** Among the timers [ts], those of kind [k] are none at all, or the
    single one whose id the ref cell [ref] holds. *)
Definition tracked (k : TimerKind -> bool) (ref : option positive)
  (ts : list Timer) : Prop :=
  match filter (ofKind k) ts with
  | [] => True
  | [t] => ref = Some (timerId t)
  | _ :: _ :: _ => False
  end.

(** The delay and repetition each kind of timer is set up with. *)
Definition wellTimed (t : Timer) : Prop :=
  match timerKind t with
  | ReconnectTimer _ => timerDelay t = 3000 /\ timerRepeats t = false
  | RateLimitInterval => timerDelay t = 1000 /\ timerRepeats t = true
  | TypingTimer _ => timerDelay t = 2000 /\ timerRepeats t = false
  end.

(** Every pending timer is the one its ref cell points to. *)
Definition TimersTracked (s : AppState) : Prop :=
  tracked isReconnect (reconnectTimeoutRef s) (timers s)
  /\ tracked isRateLimit (rateLimitIntervalRef s) (timers s)
  /\ tracked isTypingStop (typingTimeoutRef s) (timers s)
  /\ Forall wellTimed (timers s).

(** A session used in the examples: alice joins room ABC12, the socket
    opens, she types "hi" and sends it. *)
Definition aliceJoined : AppState :=
  run asciiToUpperCase
    [UsernameInput (js " alice "); GroupIdInput (js "abc-12x"); JoinSubmit;
     SocketOpen 0]
    initialState.

Definition aliceSent : AppState :=
  run asciiToUpperCase
    [MessageInputChange (js "hi") 5000; SendSubmit 5500]
    aliceJoined.

(** The connection of [aliceSent] is lost. *)
Definition aliceCutOff : AppState :=
  step asciiToUpperCase (SocketClose 0 1006 []) aliceSent.

(** Clearing the reconnect timer and emptying its ref. *)
Definition dropReconnect (s : AppState) : AppState :=
  match reconnectTimeoutRef s with
  | Some t => set_reconnectTimeoutRef None (clearTimeout t s)
  | None => s
  end.

(** Clearing the timer a ref cell names, the cell keeping the stale id. *)
Definition clearNamed (ref : option positive) (s : AppState) : AppState :=
  match ref with
  | Some t => clearTimeout t s
  | None => s
  end.

(** Clearing the typing timer and emptying its ref. *)
Definition dropTyping (s : AppState) : AppState :=
  match typingTimeoutRef s with
  | Some t => set_typingTimeoutRef None (clearTimeout t s)
  | None => s
  end.

(** alice, rate-limited after her first message, has typed again. *)
Definition aliceTypedAgain : AppState :=
  step asciiToUpperCase (MessageInputChange (js "again") 6000) aliceSent.

(** Going from [s] to [s'] schedules no reconnect timer: the reconnect
    timers pending in [s'] were already pending in [s]. *)
Definition Quiet (s s' : AppState) : Prop :=
  incl (pending isReconnect s') (pending isReconnect s).

(** The cells a render leaves alone, [usernameRef] apart: every one but
    the pending text (cell and ref) and the queue of updaters. *)
Definition besidesPending (s : AppState) :=
  (isConnected s, username s, groupId s, messages s, users s,
   messageInput s, error s, rateLimitSeconds s, isRateLimited s,
   typingUsers s, wsRef s, reconnectTimeoutRef s, rateLimitIntervalRef s,
   startRateLimitCountdownRef s, typingTimeoutRef s, lastTypingSentRef s,
   handleWebSocketMessageRef s, sockets s, outbox s, timers s,
   nextTimerId s, mounted s).

(** ** More observations *)

(** The entry a batch element is rendered as. *)
Definition renderWire (now : Z) (msg : WireMessage) : ChatMessage :=
  userMessage (orFreshId (wire_message_id msg) now)
    (wire_username msg) (wire_content msg) (wire_timestamp msg).

(** A batch element that carries a usable id. *)
Definition carriesId (msg : WireMessage) : bool :=
  match wire_message_id msg with
  | Some i => truthyId i
  | None => false
  end.

(** A batch of two messages, the second one sent twice by the server. *)
Definition sampleBatch : list WireMessage :=
  [mkWire (Some (IdStr (js "m1"))) (js "bob") (js "hello") (js "t1");
   mkWire (Some (IdNum 7)) (js "carol") (js "hey") (js "t2");
   mkWire (Some (IdNum 7)) (js "carol") (js "hey") (js "t2")].

(** The frames [handleSendMessage] puts on the wire for the input text
    [text]: nothing, or the typing-stop frame followed by the message. *)
Definition sendFrames (text : jsstring) (s : AppState) : list (nat * Frame) :=
  if negb (isEmpty text) && isConnected s && wsIsOpen s
     && negb (isRateLimited s)
  then match wsRef s with
       | Some i => [(i, TypingFrame false); (i, MessageFrame text)]
       | None => []
       end
  else [].

(** The frame a keystroke puts on the wire: a typing-start frame when the
    new value is not blank, the client is not rate-limited and the last
    typing frame is at least a second old; a typing-stop frame when the
    value is blank or the client is rate-limited; nothing when there is
    no open connection. *)
Definition keystrokeFrames (value : jsstring) (now : Z) (s : AppState)
  : list (nat * Frame) :=
  if isConnected s && wsIsOpen s
  then match wsRef s with
       | Some i =>
           if negb (isEmpty (trim value)) && negb (isRateLimited s)
           then if now - lastTypingSentRef s <? 1000 then []
                else [(i, TypingFrame true)]
           else [(i, TypingFrame false)]
       | None => []
       end
  else [].

(** alice has typed a second message after the countdown of the first
    one ran out. *)
Definition aliceReady : AppState :=
  run asciiToUpperCase
    [TimerFires 2 6500; TimerFires 2 7500; TimerFires 2 8500;
     TimerFires 2 9500; TimerFires 2 10500;
     MessageInputChange (js "  second  ") 11000]
    aliceSent.

(** ** Canonical room ids *)

(** A string made of the characters A-Z and 0-9 only. *)
Definition upperAlnum (x : jsstring) : Prop :=
  Forall (fun c => isUpperAlnum c = true) x.

(** A canonical room id: five characters, each in A-Z or 0-9. *)
Definition canonicalRoom (g : jsstring) : Prop :=
  length g = 5%nat /\ upperAlnum g.

(** A socket made for a canonical room id, which is also the room id its
    handlers remember. *)
Definition canonicalSocket (w : Socket) : Prop :=
  ws_group w = ws_groupId w /\ canonicalRoom (ws_group w).

(** A reconnect timer remembers a canonical room id. *)
Definition canonicalTimer (t : Timer) : Prop :=
  match timerKind t with
  | ReconnectTimer g => canonicalRoom g
  | _ => True
  end.

Definition Canonical (s : AppState) : Prop :=
  upperAlnum (groupId s)
  /\ (length (groupId s) <= 5)%nat
  /\ Forall canonicalSocket (sockets s)
  /\ Forall canonicalTimer (timers s).

(** ** The earlier client's envelope handler *)

Module LegacyView.

(** [handleWebSocketMessage(data)] of [frontend/src/App.js], on the cells
    the two versions share: every [message] and every element of a batch
    is appended; [rate_limit] and [typing] fall to the default case. *)
Definition handleWebSocketMessage (data : Envelope) (now : Z) (s : AppState)
  : AppState :=
  match data with
  | welcome text us =>
      let s1 := setUsers (match us with Some l => l | None => [] end) s in
      setMessages (systemMessage now text (DateNow now) :: messages s1) s1
  | message message_id name content timestamp =>
      setMessages
        (messages s
         ++ [userMessage (orFreshId message_id now) name content timestamp]) s
  | messages_batch (Some batch) =>
      setMessages (messages s ++ map (renderWire now) batch) s
  | messages_batch None => s
  | user_joined name timestamp =>
      let s1 := setUsers (if includes name (users s) then users s
                          else users s ++ [name]) s in
      setMessages (systemMessage now (name ++ js " joined the group")
                     (DateOf timestamp) :: messages s1) s1
  | user_left name timestamp =>
      let s1 := setUsers (filter (fun u => negb (strictEq u name)) (users s)) s in
      setMessages (systemMessage now (name ++ js " left the group")
                     (DateOf timestamp) :: messages s1) s1
  | rate_limit _ => s
  | typing _ => s
  | unknown _ => s
  end.

End LegacyView.

(** The ids an envelope would render are not rendered yet. *)
Definition unrendered (data : Envelope) (now : Z) (s : AppState) : Prop :=
  match data with
  | message message_id _ _ _ =>
      ~ In (orFreshId message_id now) (map msg_id (messages s))
  | messages_batch (Some batch) =>
      forall msg, In msg batch ->
        ~ In (msg_id (renderWire now msg)) (map msg_id (messages s))
  | _ => True
  end.

(** ** Frames on the wire *)

Definition isTypingFrame (f : nat * Frame) : bool :=
  match snd f with
  | TypingFrame _ => true
  | MessageFrame _ => false
  end.

(** Going from [s] to [s'] sends typing frames only, if anything. *)
Definition Chatter (s s' : AppState) : Prop :=
  exists fs, outbox s' = outbox s ++ fs
             /\ Forall (fun f => isTypingFrame f = true) fs.

(** ** The rate-limit lock and its countdown *)

(** A ref cell holds no id, or an id that has been handed out. *)
Definition below (ref : option positive) (next : positive) : Prop :=
  match ref with
  | Some i => (i < next)%positive
  | None => True
  end.

(** Two ref cells do not hold the same id. *)
Definition differ (a b : option positive) : Prop :=
  match a, b with
  | Some i, Some j => i <> j
  | _, _ => True
  end.

(** The three timer refs hold ids that were handed out, and no two of
    them hold the same id. *)
Definition RefsApart (s : AppState) : Prop :=
  below (reconnectTimeoutRef s) (nextTimerId s)
  /\ below (rateLimitIntervalRef s) (nextTimerId s)
  /\ below (typingTimeoutRef s) (nextTimerId s)
  /\ differ (reconnectTimeoutRef s) (rateLimitIntervalRef s)
  /\ differ (typingTimeoutRef s) (rateLimitIntervalRef s)
  /\ differ (reconnectTimeoutRef s) (typingTimeoutRef s).

(** The countdown function is installed, and a mounted component that
    is rate-limited has its countdown interval pending. *)
Definition Unlocks (s : AppState) : Prop :=
  startRateLimitCountdownRef s = true
  /\ (mounted s = true -> isRateLimited s = true ->
      pending isRateLimit s <> []).

Definition Sound (s : AppState) : Prop := RefsApart s /\ Unlocks s.

(** The number of ticks after which a countdown showing [seconds]
    ends. *)
Definition ticksLeft (seconds : Z) : nat := Z.to_nat (Z.max 1 seconds).

(** ** More sessions for the examples *)

(** The join form filled in as alice does, not yet submitted. *)
Definition aliceForm : AppState :=
  run asciiToUpperCase
    [UsernameInput (js " alice "); GroupIdInput (js "abc-12x")]
    initialState.

(** The join form with a username made of one lone surrogate, U+D800,
    and a valid room id. *)
Definition surrogateForm : AppState :=
  run asciiToUpperCase
    [UsernameInput [55296%N]; GroupIdInput (js "abc12")]
    initialState.

(** alice, after her first message, is told to wait 1e21 seconds. *)
Definition aliceFlooded : AppState :=
  step asciiToUpperCase
    (SocketMessage 0 (Some (rate_limit (Some (10 ^ 21)))) 6000) aliceSent.

(** * Properties *)

(** ** Strings, ids and lists *)

Lemma strictEq_spec : forall a b : jsstring, strictEq a b = true <-> a = b.
Proof.
  induction a as [|x a IH]; destruct b as [|y b]; simpl; split;
    try congruence; try reflexivity.
  - intros H. apply andb_true_iff in H as [Hx Hab].
    apply N.eqb_eq in Hx. apply IH in Hab. congruence.
  - intros H. injection H as -> ->. rewrite N.eqb_refl. simpl. now apply IH.
Qed.

Lemma strictEq_refl : forall a : jsstring, strictEq a a = true.
Proof. intros a. now apply strictEq_spec. Qed.

Lemma idEq_spec : forall a b : MsgId, idEq a b = true <-> a = b.
Proof.
  intros [x|x] [y|y]; simpl; split; try congruence.
  - intros H. apply strictEq_spec in H. congruence.
  - intros H. injection H as ->. apply strictEq_refl.
  - intros H. apply Z.eqb_eq in H. congruence.
  - intros H. injection H as ->. apply Z.eqb_refl.
Qed.

Lemma isEmpty_spec : forall a : jsstring, isEmpty a = true <-> a = [].
Proof. intros [|x a]; simpl; split; congruence. Qed.

Lemma hasId_spec : forall i prev,
  hasId i prev = true <-> In i (map msg_id prev).
Proof.
  intros i prev. unfold hasId. rewrite existsb_exists, in_map_iff.
  split; intros [m [H1 H2]]; exists m.
  - apply idEq_spec in H2. now split.
  - split; [assumption|]. now apply idEq_spec.
Qed.

Lemma updateNth_length : forall (A : Type) (f : A -> A) l i,
  length (updateNth i f l) = length l.
Proof.
  intros A f l. induction l as [|x l IH]; intros [|i]; simpl; auto.
Qed.

Lemma stripNonUpperAlnum_class : forall s c,
  In c (stripNonUpperAlnum s) -> isUpperAlnum c = true.
Proof. intros s c H. apply filter_In in H. tauto. Qed.

Lemma stripNonUpperAlnum_length : forall s,
  (length (stripNonUpperAlnum s) <= length s)%nat.
Proof.
  induction s as [|c s IH]; simpl; [lia|].
  destruct (isUpperAlnum c); simpl; lia.
Qed.

(** ** Joining *)

Section JoinProperties.

Variable toUpperCase : jsstring -> jsstring.

Lemma connectWebSocket_sockets : forall g u r s,
  urlEncodes u r = true ->
  length (sockets (connectWebSocket g u r s)) = S (length (sockets s))
  /\ nth_error (sockets (connectWebSocket g u r s)) (length (sockets s))
     = Some (mkSocket u r g CONNECTING)
  /\ wsRef (connectWebSocket g u r s) = Some (length (sockets s)).
Proof.
  intros g u r s He. unfold connectWebSocket. rewrite He.
  set (s1 := if wsIsOpen s then _ else s).
  assert (H1 : length (sockets s1) = length (sockets s)).
  { subst s1. destruct (wsIsOpen s); [|reflexivity].
    destruct (wsRef s); [|reflexivity]. simpl. apply updateNth_length. }
  set (s2 := match reconnectTimeoutRef s1 with Some t => _ | None => s1 end).
  assert (H2 : sockets s2 = sockets s1).
  { subst s2. destruct (reconnectTimeoutRef s1); reflexivity. }
  simpl. rewrite H2, <- H1. repeat split.
  - rewrite length_app. simpl. lia.
  - rewrite nth_error_app2 by apply Nat.le_refl. now rewrite Nat.sub_diag.
Qed.

(** When the URL cannot be built, [connectWebSocket] makes no socket
    and leaves [wsRef] and the wire alone; it has cleared the error. *)
Lemma connectWebSocket_throws : forall g u r s,
  urlEncodes u r = false ->
  length (sockets (connectWebSocket g u r s)) = length (sockets s)
  /\ wsRef (connectWebSocket g u r s) = wsRef s
  /\ outbox (connectWebSocket g u r s) = outbox s
  /\ error (connectWebSocket g u r s) = []
  /\ groupId (connectWebSocket g u r s) = groupId s.
Proof.
  intros g u r s He. unfold connectWebSocket. rewrite He.
  set (s1 := if wsIsOpen s then _ else s).
  assert (H1 : length (sockets s1) = length (sockets s)
               /\ wsRef s1 = wsRef s /\ outbox s1 = outbox s
               /\ groupId s1 = groupId s).
  { subst s1. destruct (wsIsOpen s); [|repeat split].
    destruct (wsRef s) eqn:Hw; [|repeat split; assumption].
    repeat split; try reflexivity; try exact Hw.
    simpl. apply updateNth_length. }
  clearbody s1. destruct H1 as (L & W & O & G).
  destruct (reconnectTimeoutRef s1); simpl; repeat split; assumption.
Qed.

Lemma upperAlnum_wellFormed : forall x : jsstring,
  Forall (fun c => isUpperAlnum c = true) x -> isWellFormed x = true.
Proof.
  induction 1 as [|c x Hc _ IH]; [reflexivity|].
  assert (Hle : (c <= 90)%N).
  { unfold isUpperAlnum in Hc.
    apply orb_true_iff in Hc as [Hc | Hc];
      apply andb_true_iff in Hc as [_ Hc]; apply N.leb_le in Hc; lia. }
  simpl. unfold isHighSurrogate, isLowSurrogate.
  replace (55296 <=? c)%N with false by (symmetry; apply N.leb_gt; lia).
  replace (56320 <=? c)%N with false by (symmetry; apply N.leb_gt; lia).
  exact IH.
Qed.

Lemma stripNonUpperAlnum_wellFormed : forall x : jsstring,
  isWellFormed (stripNonUpperAlnum x) = true.
Proof.
  intros x. apply upperAlnum_wellFormed, Forall_forall.
  intros c Hc. now apply stripNonUpperAlnum_class in Hc.
Qed.

(** What [handleJoin] does, case by case: refused for the username,
    refused for the room id, stopped by the URIError, or connecting. *)
Lemma handleJoin_cases : forall s : AppState,
  let trimmedUsername := trim (username s) in
  let roomId := stripNonUpperAlnum (toUpperCase (trim (groupId s))) in
  let s' := handleJoin toUpperCase s in
  (trimmedUsername = []
   /\ s' = setError (js "Please enter a username") s)
  \/ (trimmedUsername <> [] /\ length roomId <> 5%nat
      /\ s' = setError
                (js "Room name must be exactly 5 alphanumeric characters") s)
  \/ (trimmedUsername <> [] /\ length roomId = 5%nat
      /\ isWellFormed trimmedUsername = false
      /\ length (sockets s') = length (sockets s)
      /\ wsRef s' = wsRef s /\ outbox s' = outbox s
      /\ error s' = [] /\ groupId s' = roomId)
  \/ (trimmedUsername <> [] /\ length roomId = 5%nat
      /\ isWellFormed trimmedUsername = true
      /\ length (sockets s') = S (length (sockets s))
      /\ nth_error (sockets s') (length (sockets s))
         = Some (mkSocket trimmedUsername roomId (groupId s) CONNECTING)
      /\ wsRef s' = Some (length (sockets s))
      /\ groupId s' = roomId).
Proof.
  intros s trimmedUsername roomId s'. subst s'. unfold handleJoin.
  fold trimmedUsername. fold roomId.
  destruct (isEmpty trimmedUsername) eqn:Hu.
  { left. apply isEmpty_spec in Hu. now split. }
  assert (Hne : trimmedUsername <> []).
  { intros E. apply isEmpty_spec in E. congruence. }
  right.
  destruct (length roomId =? 5)%nat eqn:Hr; simpl negb; cbv iota.
  2:{ left. apply Nat.eqb_neq in Hr. repeat split; assumption. }
  apply Nat.eqb_eq in Hr. right.
  assert (Hg : forall u, groupId (connectWebSocket (groupId s) u roomId
                                    (setGroupId roomId s)) = roomId).
  { intros u. unfold connectWebSocket.
    destruct (wsIsOpen (setGroupId roomId s)); simpl;
      destruct (wsRef s); simpl;
      destruct (reconnectTimeoutRef s); simpl;
      destruct (urlEncodes u roomId); reflexivity. }
  destruct (isWellFormed trimmedUsername) eqn:Hw.
  - right.
    assert (He : urlEncodes trimmedUsername roomId = true).
    { unfold urlEncodes, roomId. rewrite Hw.
      now rewrite stripNonUpperAlnum_wellFormed. }
    destruct (connectWebSocket_sockets (groupId s) trimmedUsername roomId
                (setGroupId roomId s) He) as (Hl & Hn & Hwr).
    repeat split; try assumption. apply Hg.
  - left.
    assert (He : urlEncodes trimmedUsername roomId = false).
    { unfold urlEncodes. now rewrite Hw. }
    destruct (connectWebSocket_throws (groupId s) trimmedUsername roomId
                (setGroupId roomId s) He) as (Hl & Hwr & Ho & Herr & _).
    repeat split; try assumption. apply Hg.
Qed.

(** C1.  The handler does not connect for every valid input.  When the
    trimmed username is not empty and the normalized room id has length
    5, but the username holds a lone surrogate, [encodeURIComponent]
    throws inside [connectWebSocket]: no socket is made and [wsRef] is
    as before, yet no error text is shown and [groupId] already holds
    the normalized room id. *)
Theorem handleJoin_unencodable_username : forall s : AppState,
  let trimmedUsername := trim (username s) in
  let roomId := stripNonUpperAlnum (toUpperCase (trim (groupId s))) in
  let s' := handleJoin toUpperCase s in
  trimmedUsername <> [] -> length roomId = 5%nat ->
  isWellFormed trimmedUsername = false ->
  joinConnects toUpperCase s = false
  /\ length (sockets s') = length (sockets s)
  /\ wsRef s' = wsRef s
  /\ outbox s' = outbox s
  /\ error s' = []
  /\ groupId s' = roomId.
Proof.
  intros s trimmedUsername roomId s' Hne Hr Hw.
  subst trimmedUsername roomId s'.
  destruct (handleJoin_cases s)
    as [[E _] | [(_ & E & _) | [(_ & _ & _ & Hl & Hwr & Ho & He & Hg)
                              | (_ & _ & E & _)]]];
    try congruence.
  unfold joinConnects. rewrite Hl.
  split; [apply Nat.ltb_irrefl|]. repeat split; assumption.
Qed.

(** X24.  For a username without lone surrogate the join handler opens
    a connection exactly when the trimmed username is not empty and
    the room id, once trimmed, uppercased and stripped of every
    character outside A-Z and 0-9, has length 5.  When it does, the new
    socket is made for the trimmed username and that normalized room id
    (five characters, each in A-Z or 0-9), [wsRef] points to it and
    [groupId] holds the normalized id.  When it does not, no socket is
    made, nothing is sent, and the error text says which input was
    wrong. *)
Theorem handleJoin_connects_iff_valid : forall s : AppState,
  let trimmedUsername := trim (username s) in
  let roomId := stripNonUpperAlnum (toUpperCase (trim (groupId s))) in
  let s' := handleJoin toUpperCase s in
  isWellFormed trimmedUsername = true ->
  (joinConnects toUpperCase s = true
   <-> trimmedUsername <> [] /\ length roomId = 5%nat)
  /\ (if joinConnects toUpperCase s
      then length (sockets s') = S (length (sockets s))
           /\ nth_error (sockets s') (length (sockets s))
              = Some (mkSocket trimmedUsername roomId (groupId s) CONNECTING)
           /\ wsRef s' = Some (length (sockets s))
           /\ groupId s' = roomId
           /\ length roomId = 5%nat
           /\ Forall (fun c => isUpperAlnum c = true) roomId
      else sockets s' = sockets s
           /\ wsRef s' = wsRef s
           /\ outbox s' = outbox s
           /\ error s' <> []
           /\ error s'
              = if isEmpty trimmedUsername
                then js "Please enter a username"
                else js "Room name must be exactly 5 alphanumeric characters").
Proof.
  intros s trimmedUsername roomId s' Hw.
  subst trimmedUsername roomId s'.
  destruct (handleJoin_cases s)
    as [[E Hs] | [(Hne & E & Hs) | [(_ & _ & E & _)
                                  | (Hne & Hr & _ & Hl & Hn & Hwr & Hg)]]];
    try congruence; unfold joinConnects.
  - rewrite Hs. simpl sockets. rewrite Nat.ltb_irrefl.
    split; [split; [discriminate | tauto]|].
    rewrite E. simpl. repeat split; discriminate.
  - rewrite Hs. simpl sockets. rewrite Nat.ltb_irrefl.
    split; [split; [discriminate | tauto]|].
    destruct (isEmpty (trim (username s))) eqn:Hu;
      [apply isEmpty_spec in Hu; congruence|].
    simpl. repeat split; discriminate.
  - assert (Hlt : (length (sockets s)
                   <? length (sockets (handleJoin toUpperCase s)))%nat = true)
      by (apply Nat.ltb_lt; lia).
    rewrite Hlt. split; [tauto|].
    repeat split; try assumption.
    apply Forall_forall. intros c Hc.
    now apply stripNonUpperAlnum_class in Hc.
Qed.

(** C5.  No room-id input passes both join validations: whenever the
    earlier client's form (one to four alphanumeric characters after
    trimming) opens a connection for an input, the current client's
    form (exactly five characters after uppercasing and stripping)
    opens none for the same input, whatever the usernames. *)
Theorem join_rules_exclusive : forall (legacyUsername : jsstring) (s : AppState),
  Legacy.joinConnects toUpperCase legacyUsername (groupId s)
  && joinConnects toUpperCase s = false.
Proof.
  intros lu s.
  destruct (Legacy.joinConnects toUpperCase lu (groupId s)) eqn:HL;
    [|reflexivity].
  simpl. unfold Legacy.joinConnects, Legacy.handleJoin in HL.
  destruct (isEmpty (trim lu)); [discriminate|].
  destruct (isEmpty (toUpperCase (trim (groupId s)))
            || (4 <? length (toUpperCase (trim (groupId s))))%nat
            || negb (isAlnumWord (toUpperCase (trim (groupId s))))) eqn:HG;
    [discriminate|].
  apply orb_false_iff in HG as [HG _].
  apply orb_false_iff in HG as [_ HG].
  apply Nat.ltb_ge in HG.
  pose proof (stripNonUpperAlnum_length (toUpperCase (trim (groupId s)))) as Hle.
  unfold joinConnects, handleJoin.
  destruct (isEmpty (trim (username s))); simpl sockets;
    [apply Nat.ltb_irrefl|].
  destruct (length (stripNonUpperAlnum (toUpperCase (trim (groupId s)))) =? 5)%nat
    eqn:H5.
  - apply Nat.eqb_eq in H5. lia.
  - simpl. apply Nat.ltb_irrefl.
Qed.

End JoinProperties.

(** ** Envelopes *)

Lemma orFreshId_truthy : forall i now,
  truthyId i = true -> orFreshId (Some i) now = i.
Proof. intros i now H. unfold orFreshId. now rewrite H. Qed.

Lemma handle_message_present : forall s i name content timestamp now,
  truthyId i = true ->
  In i (map msg_id (messages s)) ->
  handleWebSocketMessage (message (Some i) name content timestamp) now s = s.
Proof.
  intros s i name content timestamp now Ht Hin. unfold handleWebSocketMessage.
  rewrite orFreshId_truthy by assumption.
  apply hasId_spec in Hin. now rewrite Hin.
Qed.

Lemma handle_message_records : forall s i name content timestamp now,
  truthyId i = true ->
  In i (map msg_id
          (messages (handleWebSocketMessage
                       (message (Some i) name content timestamp) now s))).
Proof.
  intros s i name content timestamp now Ht. unfold handleWebSocketMessage.
  rewrite orFreshId_truthy by assumption.
  destruct (hasId i (messages s)) eqn:Hh.
  - now apply hasId_spec.
  - simpl. rewrite map_app, in_app_iff. right. simpl. now left.
Qed.

(** C2.  A [message] envelope whose id is the id of an entry of the
    rendered list leaves the list as it is; so the same envelope handled
    a second time, whenever that is, adds nothing to what the first
    handling left. *)
Theorem message_dedup_by_id :
  forall (s : AppState) (i : MsgId) (name content timestamp : jsstring)
         (now now' : Z),
    truthyId i = true ->
    let data := message (Some i) name content timestamp in
    (In i (map msg_id (messages s)) ->
     messages (handleWebSocketMessage data now s) = messages s)
    /\ messages (handleWebSocketMessage data now'
                   (handleWebSocketMessage data now s))
       = messages (handleWebSocketMessage data now s).
Proof.
  intros s i name content timestamp now now' Ht data. split.
  - intros Hin. subst data. now rewrite handle_message_present.
  - subst data. rewrite handle_message_present; auto.
    now apply handle_message_records.
Qed.

Lemma startRateLimitCountdown_cells : forall n s,
  rateLimitSeconds (startRateLimitCountdown n s) = n
  /\ isRateLimited (startRateLimitCountdown n s) = true
  /\ messageInput (startRateLimitCountdown n s) = messageInput s
  /\ pendingMessage (startRateLimitCountdown n s) = pendingMessage s
  /\ pendingMessageRef (startRateLimitCountdown n s) = pendingMessageRef s
  /\ rateLimitIntervalRef (startRateLimitCountdown n s) = Some (nextTimerId s)
  /\ In (mkTimer (nextTimerId s) RateLimitInterval 1000 true)
        (timers (startRateLimitCountdown n s)).
Proof.
  intros n s. unfold startRateLimitCountdown.
  destruct (rateLimitIntervalRef s); simpl; repeat split;
    apply in_or_app; right; now left.
Qed.

(** What a [rate_limit] envelope leaves in the cells, for the number of
    seconds [remaining] the handler settles on. *)
Lemma handle_rate_limit_cells : forall s now r,
  let remaining := match r with
                   | Some x => if x =? 0 then 5 else x
                   | None => 5
                   end in
  let s' := handleWebSocketMessage (rate_limit r) now s in
  rateLimitSeconds s' = remaining
  /\ isRateLimited s' = true
  /\ pendingMessageRef s' = []
  /\ messageInput s'
     = (if isEmpty (pendingMessageRef s)
        then messageInput s else pendingMessageRef s)
  /\ pendingMessage s'
     = (if isEmpty (pendingMessageRef s) then pendingMessage s else [])
  /\ (startRateLimitCountdownRef s = true ->
      exists t, rateLimitIntervalRef s' = Some t
                /\ In (mkTimer t RateLimitInterval 1000 true) (timers s')).
Proof.
  intros s now r remaining s'. subst s'. unfold handleWebSocketMessage.
  fold remaining. unfold startRateLimitCountdown, setInterval, clearInterval.
  destruct (startRateLimitCountdownRef s) eqn:Href;
    destruct (rateLimitIntervalRef s) as [tid|] eqn:Hint;
    destruct (pendingMessageRef s) as [|ch rest] eqn:Hp;
    simpl; rewrite ?Href, ?Hint, ?Hp; simpl; rewrite ?Hp; simpl;
    repeat split; try discriminate; try assumption;
    intros _; eexists; (split; [reflexivity|]);
    apply in_or_app; right; now left.
Qed.

(** C3, as amended.  After a [rate_limit] envelope carrying
    [remaining_seconds = r], the countdown cell holds [r] when [r] is
    not zero and 5 when it is; the client is flagged rate-limited; the
    pending text, when there is one, is back in the message input; and
    the pending text is cleared. *)
Theorem rate_limit_restores_and_resyncs :
  forall (s : AppState) (now r : Z),
    let s' := handleWebSocketMessage (rate_limit (Some r)) now s in
    rateLimitSeconds s' = (if r =? 0 then 5 else r)
    /\ isRateLimited s' = true
    /\ messageInput s'
       = (if isEmpty (pendingMessageRef s)
          then messageInput s else pendingMessageRef s)
    /\ pendingMessageRef s' = []
    /\ pendingMessage s'
       = (if isEmpty (pendingMessageRef s) then pendingMessage s else []).
Proof.
  intros s now r s'.
  destruct (handle_rate_limit_cells s now (Some r)) as (H1 & H2 & H3 & H4 & H5 & _).
  subst s'. repeat split; assumption.
Qed.

(** C3, as stated, fails: with [remaining_seconds = 0] the countdown cell
    holds 5 after the envelope, not the server's 0. *)
Lemma rate_limit_zero_is_not_kept :
  rateLimitSeconds
    (handleWebSocketMessage (rate_limit (Some 0)) 0 initialState) = 5
  /\ ~ (forall (s : AppState) (now r : Z),
          rateLimitSeconds (handleWebSocketMessage (rate_limit (Some r)) now s)
          = r).
Proof.
  split; [reflexivity|].
  intros H. specialize (H initialState 0 0). discriminate H.
Qed.

(** Up to [2^53] every integer is a double, so arithmetic on them is
    exact. *)
Lemma roundDouble_exact : forall z : Z,
  Z.abs z < 2 ^ 53 -> roundDouble z = z.
Proof.
  intros z H. unfold roundDouble.
  destruct (Z.abs z <? 2 ^ 53) eqn:E; [reflexivity|].
  apply Z.ltb_ge in E. lia.
Qed.

Lemma rateLimitTick_above_one : forall s,
  1 < rateLimitSeconds s -> rateLimitSeconds s <= 2 ^ 53 ->
  rateLimitSeconds (rateLimitTick s) = rateLimitSeconds s - 1
  /\ isRateLimited (rateLimitTick s) = isRateLimited s.
Proof.
  intros s H Hb. unfold rateLimitTick.
  destruct (rateLimitSeconds s <=? 1) eqn:E; [apply Z.leb_le in E; lia|].
  split; [|reflexivity].
  change (rateLimitSeconds (setRateLimitSeconds
            (roundDouble (rateLimitSeconds s - 1)) s))
    with (roundDouble (rateLimitSeconds s - 1)).
  apply roundDouble_exact. lia.
Qed.

Lemma rateLimitTick_last : forall s,
  rateLimitSeconds s <= 1 ->
  rateLimitSeconds (rateLimitTick s) = 0
  /\ isRateLimited (rateLimitTick s) = false.
Proof.
  intros s H. unfold rateLimitTick.
  destruct (rateLimitSeconds s <=? 1) eqn:E; [|apply Z.leb_gt in E; lia].
  destruct (rateLimitIntervalRef (setIsRateLimited false s)); split; reflexivity.
Qed.

Lemma ticks_succ : forall n s, ticks (S n) s = rateLimitTick (ticks n s).
Proof. reflexivity. Qed.

Lemma ticks_count_down : forall (k : nat) (n : Z) (s : AppState),
  rateLimitSeconds s = n -> isRateLimited s = true ->
  n <= 2 ^ 53 -> Z.of_nat k < n ->
  rateLimitSeconds (ticks k s) = n - Z.of_nat k
  /\ isRateLimited (ticks k s) = true.
Proof.
  induction k as [|k IH]; intros n s Hn Hr Hb Hk.
  - simpl. split; [lia | assumption].
  - destruct (IH n s Hn Hr Hb ltac:(lia)) as [I1 I2].
    unfold ticks in *. simpl Nat.iter.
    destruct (rateLimitTick_above_one (Nat.iter k rateLimitTick s)) as [T1 T2];
      [lia | lia |].
    rewrite T1, T2, I1, I2. split; [lia | reflexivity].
Qed.

Lemma five_is_exact : 5 <= 2 ^ 53.
Proof. discriminate. Qed.

(** C9.  A [rate_limit] envelope whose [remaining_seconds] is absent or 0
    starts a countdown of 5 seconds: the cell holds 5 and the client is
    flagged rate-limited, the one-second interval is set up (the
    countdown function being installed), and the interval's ticks count
    5, 4, 3, 2, 1 with the flag up and lower it at the fifth. *)
Theorem rate_limit_defaults_to_five :
  forall (s : AppState) (now : Z) (r : option Z),
    r = None \/ r = Some 0 ->
    let s' := handleWebSocketMessage (rate_limit r) now s in
    rateLimitSeconds s' = 5
    /\ isRateLimited s' = true
    /\ (startRateLimitCountdownRef s = true ->
        exists t, rateLimitIntervalRef s' = Some t
                  /\ In (mkTimer t RateLimitInterval 1000 true) (timers s'))
    /\ (forall k : nat, (k < 5)%nat ->
          rateLimitSeconds (ticks k s') = 5 - Z.of_nat k
          /\ isRateLimited (ticks k s') = true)
    /\ rateLimitSeconds (ticks 5 s') = 0
    /\ isRateLimited (ticks 5 s') = false.
Proof.
  intros s now r Hr s'.
  destruct (handle_rate_limit_cells s now r) as (H1 & H2 & _ & _ & _ & H6).
  fold s' in H1, H2, H6.
  assert (E : rateLimitSeconds s' = 5).
  { rewrite H1. destruct Hr as [-> | ->]; reflexivity. }
  clearbody s'.
  assert (T : rateLimitSeconds (ticks 4 s') = 1).
  { now destruct (ticks_count_down 4 5 s' E H2 five_is_exact ltac:(lia))
      as [-> _]. }
  destruct (rateLimitTick_last (ticks 4 s') ltac:(lia)) as [L1 L2].
  rewrite <- (ticks_succ 4 s') in L1, L2.
  split; [assumption|]. split; [assumption|]. split; [assumption|].
  split; [|split; assumption].
  intros k Hk. apply ticks_count_down; auto; [exact five_is_exact | lia].
Qed.

Lemma filter_out_is_remove : forall (own : jsstring) (l : list jsstring),
  filter (fun u => negb (strictEq u own)) l = remove jsstring_eq_dec own l.
Proof.
  intros own l. induction l as [|u l IH]; simpl; [reflexivity|].
  destruct (jsstring_eq_dec own u) as [E|E].
  - subst u. rewrite strictEq_refl. simpl. exact IH.
  - destruct (strictEq u own) eqn:Heq.
    + apply strictEq_spec in Heq. congruence.
    + simpl. now rewrite IH.
Qed.

(** ** Sending *)

Lemma ws_send_open : forall s,
  wsIsOpen s = true ->
  exists i, wsRef s = Some i
            /\ forall f, ws_send f s = Some (set_outbox (outbox s ++ [(i, f)]) s).
Proof.
  intros s H. unfold wsIsOpen, currentSocket in H. unfold ws_send.
  destruct (wsRef s) as [i|]; [|discriminate].
  exists i. split; [reflexivity|]. intros f.
  destruct (nth_error (sockets s) i) as [w|]; [|discriminate].
  destruct (readyState w); try discriminate. reflexivity.
Qed.

(** What a call of [sendTypingIndicator] that gets past its two guards
    does: the frame goes out on the current socket and the time of the
    call is remembered. *)
Lemma sendTypingIndicator_transmits : forall isTyping now s,
  wsIsOpen s = true ->
  (isTyping = true -> 1000 <= now - lastTypingSentRef s) ->
  exists i, wsRef s = Some i
    /\ outbox (sendTypingIndicator true isTyping now s)
       = outbox s ++ [(i, TypingFrame isTyping)]
    /\ lastTypingSentRef (sendTypingIndicator true isTyping now s) = now.
Proof.
  intros b now s Hopen Hgap. unfold sendTypingIndicator.
  rewrite Hopen. simpl negb. cbv iota.
  assert (Hd : b && (now - lastTypingSentRef s <? 1000) = false).
  { destruct b; [|reflexivity]. simpl. apply Z.ltb_ge. auto. }
  rewrite Hd.
  destruct (ws_send_open (set_lastTypingSentRef now s) Hopen) as [i [Hi Hs]].
  exists i. split; [exact Hi|]. rewrite Hs.
  destruct b; destruct (typingTimeoutRef s) eqn:Ht; simpl; rewrite ?Ht;
    split; reflexivity.
Qed.

Lemma sendTypingIndicator_outbox : forall c isTyping now s,
  outbox (sendTypingIndicator c isTyping now s) = outbox s
  \/ lastTypingSentRef (sendTypingIndicator c isTyping now s) = now.
Proof.
  intros c b now s. unfold sendTypingIndicator.
  destruct (negb c || negb (wsIsOpen s)); [now left|].
  destruct (b && (now - lastTypingSentRef s <? 1000)); [now left|].
  right. destruct (ws_send (TypingFrame b) (set_lastTypingSentRef now s)) as [s2|] eqn:Hs;
    [|reflexivity].
  assert (Hl : lastTypingSentRef s2 = now).
  { unfold ws_send in Hs. simpl in Hs.
    destruct (wsRef s); [|discriminate].
    destruct (nth_error (sockets s) n) as [w|]; [|discriminate].
    destruct (readyState w); try discriminate; now inversion Hs. }
  destruct b; destruct (typingTimeoutRef s2); simpl; exact Hl.
Qed.

(** C7.  While the rate-limited flag is up, a send attempt puts no frame
    on any socket and leaves the message input and the rendered list as
    they are. *)
Theorem rate_limited_send_is_silent : forall (now : Z) (s : AppState),
  isRateLimited s = true ->
  outbox (handleSendMessage now s) = outbox s
  /\ sockets (handleSendMessage now s) = sockets s
  /\ messageInput (handleSendMessage now s) = messageInput s
  /\ messages (handleSendMessage now s) = messages s.
Proof.
  intros now s H. unfold handleSendMessage. rewrite H.
  destruct (isEmpty (trim (messageInput s)) || negb (isConnected s)
            || negb (wsIsOpen s)); repeat split.
Qed.

(** C10.  A typing-start call less than 1000 ms after the time kept in
    [lastTypingSentRef] changes nothing, so it sends no frame; a
    typing-stop call on an open connection always sends its frame,
    however short the gap; a call that sends a frame keeps its own time
    in [lastTypingSentRef], so a typing-start call less than 1000 ms
    after a call that sent a frame sends none. *)
Theorem typing_start_debounced :
  forall (s : AppState) (now : Z),
    (forall c, now - lastTypingSentRef s < 1000 ->
               sendTypingIndicator c true now s = s)
    /\ (wsIsOpen s = true ->
        exists i, wsRef s = Some i
          /\ outbox (sendTypingIndicator true false now s)
             = outbox s ++ [(i, TypingFrame false)])
    /\ (forall c c' isTyping later,
          outbox (sendTypingIndicator c isTyping now s) <> outbox s ->
          later - now < 1000 ->
          sendTypingIndicator c' true later
            (sendTypingIndicator c isTyping now s)
          = sendTypingIndicator c isTyping now s).
Proof.
  intros s now. split; [|split].
  - intros c H. unfold sendTypingIndicator.
    destruct (negb c || negb (wsIsOpen s)); [reflexivity|].
    apply Z.ltb_lt in H. rewrite H. reflexivity.
  - intros Hopen.
    destruct (sendTypingIndicator_transmits false now s Hopen) as [i [Hi [Ho _]]];
      [discriminate|].
    exists i. now split.
  - intros c c' b later Hsent Hgap.
    destruct (sendTypingIndicator_outbox c b now s) as [E|E]; [contradiction|].
    set (s1 := sendTypingIndicator c b now s) in *.
    unfold sendTypingIndicator at 1.
    destruct (negb c' || negb (wsIsOpen s1)); [reflexivity|].
    rewrite E. apply Z.ltb_lt in Hgap. rewrite Hgap. reflexivity.
Qed.

(** ** Timers *)

Lemma filter_swap : forall (A : Type) (p q : A -> bool) (l : list A),
  filter p (filter q l) = filter q (filter p l).
Proof.
  intros A p q l. induction l as [|x l IH]; simpl; [reflexivity|].
  destruct (p x) eqn:Hp, (q x) eqn:Hq; simpl; rewrite ?Hp, ?Hq, IH; reflexivity.
Qed.

Lemma tracked_none : forall k ts,
  tracked k None ts -> filter (ofKind k) ts = [].
Proof.
  unfold tracked. intros k ts H.
  destruct (filter (ofKind k) ts) as [|a [|b l]];
    [reflexivity | discriminate | contradiction].
Qed.

Lemma tracked_empty : forall k ref ts,
  filter (ofKind k) ts = [] -> tracked k ref ts.
Proof. unfold tracked. intros k ref ts H. now rewrite H. Qed.

Lemma tracked_clear : forall k ref t ts,
  tracked k ref ts -> tracked k ref (filter (keepsTimer t) ts).
Proof.
  unfold tracked. intros k ref t ts H. rewrite filter_swap.
  destruct (filter (ofKind k) ts) as [|a [|b l]]; simpl; auto.
  - destruct (keepsTimer t a); auto.
  - contradiction.
Qed.

Lemma tracked_clear_own : forall k t ts,
  tracked k (Some t) ts ->
  filter (ofKind k) (filter (keepsTimer t) ts) = [].
Proof.
  unfold tracked. intros k t ts H. rewrite filter_swap.
  destruct (filter (ofKind k) ts) as [|a [|b l]]; simpl; auto.
  - injection H as ->. unfold keepsTimer. now rewrite Pos.eqb_refl.
  - contradiction.
Qed.

Lemma tracked_add_other : forall k ref ts tm,
  k (timerKind tm) = false ->
  tracked k ref ts -> tracked k ref (ts ++ [tm]).
Proof.
  unfold tracked. intros k ref ts tm Hk H. rewrite filter_app. simpl.
  unfold ofKind at 2. rewrite Hk, app_nil_r. exact H.
Qed.

Lemma tracked_add_own : forall k ts tm,
  k (timerKind tm) = true ->
  filter (ofKind k) ts = [] ->
  tracked k (Some (timerId tm)) (ts ++ [tm]).
Proof.
  unfold tracked. intros k ts tm Hk H. rewrite filter_app, H. simpl.
  unfold ofKind. now rewrite Hk.
Qed.

Lemma tracked_at_most_one : forall k ref ts,
  tracked k ref ts -> (length (filter (ofKind k) ts) <= 1)%nat.
Proof.
  unfold tracked. intros k ref ts H.
  destruct (filter (ofKind k) ts) as [|a [|b l]]; simpl; auto. contradiction.
Qed.

Lemma tracked_holds_id : forall k ref ts t,
  tracked k ref ts -> In t (filter (ofKind k) ts) -> ref = Some (timerId t).
Proof.
  unfold tracked. intros k ref ts t H Hin.
  destruct (filter (ofKind k) ts) as [|a [|b l]].
  - destruct Hin.
  - destruct Hin as [<- | []]. exact H.
  - contradiction.
Qed.

Lemma wellTimed_clear : forall t ts,
  Forall wellTimed ts -> Forall wellTimed (filter (keepsTimer t) ts).
Proof.
  intros t ts H. apply Forall_forall. intros x Hx.
  apply filter_In in Hx as [Hx _]. revert x Hx. now apply Forall_forall.
Qed.

Lemma wellTimed_add : forall ts tm,
  wellTimed tm -> Forall wellTimed ts -> Forall wellTimed (ts ++ [tm]).
Proof. intros ts tm H1 H2. apply Forall_app. split; auto. Qed.

Create HintDb timer_db.

#[local] Hint Resolve tracked_clear tracked_empty tracked_clear_own
  tracked_add_other tracked_add_own tracked_none wellTimed_clear
  wellTimed_add : timer_db.

(** A handler that touches neither the timers nor the three timer refs
    keeps the discipline. *)
Lemma TimersTracked_same : forall s s',
  timers s' = timers s ->
  reconnectTimeoutRef s' = reconnectTimeoutRef s ->
  rateLimitIntervalRef s' = rateLimitIntervalRef s ->
  typingTimeoutRef s' = typingTimeoutRef s ->
  TimersTracked s -> TimersTracked s'.
Proof.
  unfold TimersTracked. intros s s' -> -> -> ->. auto.
Qed.

Ltac timers_done :=
  unfold TimersTracked in *; simpl in *;
  repeat match goal with H : _ /\ _ |- _ => destruct H end;
  repeat split; eauto 6 with timer_db.

Lemma TimersTracked_clearTimeout : forall t s,
  TimersTracked s -> TimersTracked (clearTimeout t s).
Proof. intros t s H. timers_done. Qed.

Lemma dropReconnect_spec : forall s,
  TimersTracked s ->
  TimersTracked (dropReconnect s)
  /\ pending isReconnect (dropReconnect s) = []
  /\ reconnectTimeoutRef (dropReconnect s) = None.
Proof.
  intros s H. unfold dropReconnect, pending.
  destruct (reconnectTimeoutRef s) as [t|] eqn:Hr.
  - split; [|split; [|reflexivity]].
    + unfold TimersTracked in H. rewrite Hr in H. timers_done.
    + simpl. destruct H as [H _]. rewrite Hr in H. eauto with timer_db.
  - split; [assumption|]. split; [|assumption].
    destruct H as [H _]. rewrite Hr in H. eauto with timer_db.
Qed.

Lemma clearNamed_tracked : forall ref s,
  TimersTracked s -> TimersTracked (clearNamed ref s).
Proof.
  intros [t|] s H; simpl; [now apply TimersTracked_clearTimeout | assumption].
Qed.

Lemma clearNamed_own : forall k ref s,
  tracked k ref (timers s) -> pending k (clearNamed ref s) = [].
Proof.
  intros k [t|] s H; unfold pending; simpl; eauto with timer_db.
Qed.

Lemma clearNamed_others : forall k ref s,
  pending k s = [] -> pending k (clearNamed ref s) = [].
Proof.
  intros k [t|] s H; unfold pending in *; simpl; [|assumption].
  rewrite filter_swap, H. reflexivity.
Qed.

Lemma schedule_reconnect_tracked : forall g s,
  TimersTracked s -> pending isReconnect s = [] ->
  TimersTracked
    (set_reconnectTimeoutRef (Some (nextTimerId s))
       (snd (setTimeout (ReconnectTimer g) 3000 s))).
Proof.
  intros g s H Hp. unfold pending in Hp. timers_done;
    try (apply wellTimed_add; [split; reflexivity | assumption]);
    try (apply (tracked_add_own isReconnect (timers s)
             (mkTimer (nextTimerId s) (ReconnectTimer g) 3000 false));
         [reflexivity | assumption]).
Qed.

Lemma schedule_typing_tracked : forall c s,
  TimersTracked s -> pending isTypingStop s = [] ->
  TimersTracked
    (set_typingTimeoutRef (Some (nextTimerId s))
       (snd (setTimeout (TypingTimer c) 2000 s))).
Proof.
  intros c s H Hp. unfold pending in Hp. timers_done;
    try (apply wellTimed_add; [split; reflexivity | assumption]);
    try (apply (tracked_add_own isTypingStop (timers s)
             (mkTimer (nextTimerId s) (TypingTimer c) 2000 false));
         [reflexivity | assumption]).
Qed.

Lemma schedule_countdown_tracked : forall s,
  TimersTracked s -> pending isRateLimit s = [] ->
  TimersTracked
    (set_rateLimitIntervalRef (Some (nextTimerId s))
       (snd (setInterval RateLimitInterval 1000 s))).
Proof.
  intros s H Hp. unfold pending in Hp. timers_done;
    try (apply wellTimed_add; [split; reflexivity | assumption]);
    try (apply (tracked_add_own isRateLimit (timers s)
             (mkTimer (nextTimerId s) RateLimitInterval 1000 true));
         [reflexivity | assumption]).
Qed.

Lemma startRateLimitCountdown_tracked : forall n s,
  TimersTracked s -> TimersTracked (startRateLimitCountdown n s).
Proof.
  intros n s H.
  pose proof (clearNamed_tracked (rateLimitIntervalRef s) s H) as H1.
  assert (Hp : pending isRateLimit (clearNamed (rateLimitIntervalRef s) s) = []).
  { apply clearNamed_own. apply H. }
  exact (schedule_countdown_tracked
           (setIsRateLimited true
              (setRateLimitSeconds n (clearNamed (rateLimitIntervalRef s) s)))
           H1 Hp).
Qed.

Lemma rateLimitTick_tracked : forall s,
  TimersTracked s -> TimersTracked (rateLimitTick s).
Proof.
  intros s H. unfold rateLimitTick.
  destruct (rateLimitSeconds s <=? 1); [|exact H].
  change (rateLimitIntervalRef (setIsRateLimited false s))
    with (rateLimitIntervalRef s).
  destruct (rateLimitIntervalRef s) as [t|] eqn:Hr; [|exact H].
  unfold TimersTracked in H. rewrite Hr in H. timers_done.
Qed.

Lemma handleWebSocketMessage_tracked : forall data now s,
  TimersTracked s -> TimersTracked (handleWebSocketMessage data now s).
Proof.
  intros data now s H. destruct data as [t u|i n c t|[b|]|n t|n t|r|[l|]|t];
    unfold handleWebSocketMessage; try exact H.
  - destruct (hasId (orFreshId i now) (messages s)); exact H.
  - set (remaining := match r with Some x => if x =? 0 then 5 else x | None => 5 end).
    set (s1 := setIsRateLimited true (setRateLimitSeconds remaining s)).
    assert (H1 : TimersTracked s1) by exact H.
    clearbody s1.
    set (s2 := if startRateLimitCountdownRef s1
               then startRateLimitCountdown remaining s1 else s1).
    assert (H2 : TimersTracked s2).
    { subst s2. destruct (startRateLimitCountdownRef s1); [|exact H1].
      now apply startRateLimitCountdown_tracked. }
    clearbody s2.
    match goal with |- context [negb (isEmpty ?p)] => destruct (negb (isEmpty p)) end;
      exact H2.
Qed.

Lemma ws_close_tracked : forall i s,
  TimersTracked s -> TimersTracked (ws_close i s).
Proof. intros i s H. exact H. Qed.

Lemma ws_send_tracked : forall f s s',
  ws_send f s = Some s' -> TimersTracked s -> TimersTracked s'.
Proof.
  intros f s s' Hs H. unfold ws_send in Hs.
  destruct (wsRef s); [|discriminate].
  destruct (nth_error (sockets s) n) as [w|]; [|discriminate].
  destruct (readyState w); try discriminate; injection Hs as <-; exact H.
Qed.

Lemma connectWebSocket_tracked : forall g u r s,
  TimersTracked s ->
  TimersTracked (connectWebSocket g u r s)
  /\ pending isReconnect (connectWebSocket g u r s) = []
  /\ reconnectTimeoutRef (connectWebSocket g u r s) = None.
Proof.
  intros g u r s H. unfold connectWebSocket.
  set (s1 := if wsIsOpen s then _ else s).
  assert (H1 : TimersTracked s1).
  { subst s1. destruct (wsIsOpen s); [|exact H]. destruct (wsRef s); exact H. }
  destruct (dropReconnect_spec s1 H1) as (D1 & D2 & D3).
  fold (dropReconnect s1).
  destruct (urlEncodes u r);
    (split; [exact D1|]; split; [exact D2 | exact D3]).
Qed.

Lemma ws_onopen_tracked : forall s,
  TimersTracked s -> TimersTracked (ws_onopen s).
Proof.
  intros s H.
  exact (proj1 (dropReconnect_spec (setError [] (setIsConnected true s)) H)).
Qed.

Lemma closeErrorText_same : forall code reason s,
  timers (closeErrorText code reason s) = timers s
  /\ reconnectTimeoutRef (closeErrorText code reason s) = reconnectTimeoutRef s
  /\ rateLimitIntervalRef (closeErrorText code reason s) = rateLimitIntervalRef s
  /\ typingTimeoutRef (closeErrorText code reason s) = typingTimeoutRef s
  /\ usernameRef (closeErrorText code reason s) = usernameRef s
  /\ nextTimerId (closeErrorText code reason s) = nextTimerId s.
Proof.
  intros code reason s. unfold closeErrorText.
  destruct (code =? 1000); [repeat split|].
  destruct (code =? 1006); [repeat split|].
  destruct (code =? 1008); [repeat split|].
  destruct (code =? 1011); repeat split.
Qed.

Lemma ws_onclose_tracked : forall g code reason s,
  TimersTracked s -> TimersTracked (ws_onclose g code reason s).
Proof.
  intros g code reason s H. unfold ws_onclose.
  set (s1 := closeErrorText code reason (setIsConnected false s)).
  destruct (closeErrorText_same code reason (setIsConnected false s))
    as (E1 & E2 & E3 & E4 & _).
  assert (H1 : TimersTracked s1).
  { apply (TimersTracked_same (setIsConnected false s)); auto. }
  destruct (negb (code =? 1000) && negb (isEmpty (usernameRef s1))
            && negb (isEmpty g)); [|exact H1].
  destruct (reconnectTimeoutRef s1) eqn:Hr; [exact H1|].
  apply (schedule_reconnect_tracked g s1 H1).
  destruct H1 as [H1 _]. rewrite Hr in H1. unfold pending. eauto with timer_db.
Qed.

Lemma reconnectCallback_tracked : forall g s,
  TimersTracked s -> TimersTracked (reconnectCallback g s).
Proof.
  intros g s H. unfold reconnectCallback.
  now apply connectWebSocket_tracked.
Qed.

Lemma sendTypingIndicator_tracked : forall c isTyping now s,
  TimersTracked s -> TimersTracked (sendTypingIndicator c isTyping now s).
Proof.
  intros c b now s H. unfold sendTypingIndicator.
  destruct (negb c || negb (wsIsOpen s)); [exact H|].
  destruct (b && (now - lastTypingSentRef s <? 1000)); [exact H|].
  destruct (ws_send (TypingFrame b) (set_lastTypingSentRef now s)) as [s2|] eqn:Hs;
    [|exact H].
  assert (H2 : TimersTracked s2) by (eapply ws_send_tracked; [exact Hs | exact H]).
  fold (clearNamed (typingTimeoutRef s2) s2).
  pose proof (clearNamed_tracked (typingTimeoutRef s2) s2 H2) as H3.
  destruct b; [|exact H3].
  apply (schedule_typing_tracked c _ H3).
  apply clearNamed_own. apply H2.
Qed.

Lemma handleSendMessage_tracked : forall now s,
  TimersTracked s -> TimersTracked (handleSendMessage now s).
Proof.
  intros now s H. unfold handleSendMessage.
  destruct (isEmpty (trim (messageInput s)) || negb (isConnected s)
            || negb (wsIsOpen s)); [exact H|].
  destruct (isRateLimited s); [exact H|].
  pose proof (sendTypingIndicator_tracked (isConnected s) false now s H) as H1.
  set (s1 := sendTypingIndicator (isConnected s) false now s) in *.
  clearbody s1.
  set (s2 := set_pendingMessageRef _ (setPendingMessage _ s1)).
  assert (H2 : TimersTracked s2) by exact H1.
  clearbody s2.
  destruct (ws_send (MessageFrame (trim (messageInput s))) s2) as [s3|] eqn:Hs.
  - assert (H3 : TimersTracked s3) by (eapply ws_send_tracked; eauto).
    clear Hs.
    change (startRateLimitCountdownRef (setError [] (setMessageInput [] s3)))
      with (startRateLimitCountdownRef s3).
    destruct (startRateLimitCountdownRef s3); [|exact H3].
    apply startRateLimitCountdown_tracked. exact H3.
  - match goal with |- context [negb (isEmpty ?p)] => destruct (negb (isEmpty p)) end;
      exact H2.
Qed.

Lemma handleInputChange_tracked : forall v now s,
  TimersTracked s -> TimersTracked (handleInputChange v now s).
Proof.
  intros v now s H. unfold handleInputChange.
  destruct (negb (isEmpty (trim v)) && negb (isRateLimited s));
    apply sendTypingIndicator_tracked; exact H.
Qed.

Lemma ws_send_timers : forall f s s',
  ws_send f s = Some s' -> timers s' = timers s.
Proof.
  intros f s s' Hs. unfold ws_send in Hs.
  destruct (wsRef s); [|discriminate].
  destruct (nth_error (sockets s) n) as [w|]; [|discriminate].
  destruct (readyState w); try discriminate; injection Hs as <-; reflexivity.
Qed.

(** ** Renders *)

Lemma settlePending_rest : forall name s,
  besidesPending (settlePending name s) = besidesPending s
  /\ usernameRef (settlePending name s) = usernameRef s.
Proof.
  intros name s. unfold settlePending.
  destruct (strictEq name (usernameRef s)
            && negb (isEmpty (pendingMessageRef s))); split; reflexivity.
Qed.

Lemma settle_all_rest : forall names s,
  besidesPending (fold_left (fun s' name => settlePending name s') names s)
  = besidesPending s
  /\ usernameRef (fold_left (fun s' name => settlePending name s') names s)
     = usernameRef s.
Proof.
  induction names as [|name names IH]; intros s; simpl; [now split|].
  destruct (IH (settlePending name s)) as [I1 I2].
  destruct (settlePending_rest name s) as [S1 S2].
  rewrite I1, I2. now split.
Qed.

Lemma render_rest : forall s,
  besidesPending (render s) = besidesPending s
  /\ usernameRef (render s) = usernameRef s
  /\ queuedUpdaters (render s) = [].
Proof.
  intros s. unfold render.
  destruct (settle_all_rest (queuedUpdaters s) s) as [S1 S2].
  set (s1 := fold_left _ _ s) in *. clearbody s1.
  split; [exact S1|]. split; [exact S2 | reflexivity].
Qed.

Lemma commit_rest : forall s, besidesPending (commit s) = besidesPending s.
Proof.
  intros s. unfold commit. destruct (mounted s); [|reflexivity].
  destruct (render_rest s) as [R1 _].
  set (s1 := render s) in *. clearbody s1. exact R1.
Qed.

(** A render changes nothing but the pending text, the queue and, by
    its effect, [usernameRef]. *)
Lemma commit_cells : forall s,
  let s' := commit s in
  isConnected s' = isConnected s /\ username s' = username s
  /\ groupId s' = groupId s /\ messages s' = messages s
  /\ users s' = users s /\ messageInput s' = messageInput s
  /\ error s' = error s /\ rateLimitSeconds s' = rateLimitSeconds s
  /\ isRateLimited s' = isRateLimited s /\ typingUsers s' = typingUsers s
  /\ wsRef s' = wsRef s
  /\ reconnectTimeoutRef s' = reconnectTimeoutRef s
  /\ rateLimitIntervalRef s' = rateLimitIntervalRef s
  /\ startRateLimitCountdownRef s' = startRateLimitCountdownRef s
  /\ typingTimeoutRef s' = typingTimeoutRef s
  /\ lastTypingSentRef s' = lastTypingSentRef s
  /\ handleWebSocketMessageRef s' = handleWebSocketMessageRef s
  /\ sockets s' = sockets s /\ outbox s' = outbox s
  /\ timers s' = timers s /\ nextTimerId s' = nextTimerId s
  /\ mounted s' = mounted s.
Proof.
  intros s s'. pose proof (commit_rest s) as E. fold s' in E. clearbody s'.
  unfold besidesPending in E. injection E as -> -> -> -> -> -> -> -> -> -> ->
    -> -> -> -> -> -> -> -> -> -> ->.
  repeat split.
Qed.

Lemma commit_usernameRef : forall s,
  mounted s = true -> usernameRef (commit s) = username s.
Proof.
  intros s Hm. unfold commit. rewrite Hm.
  destruct (render_rest s) as [R1 _].
  set (s1 := render s) in *. clearbody s1.
  unfold besidesPending in R1. injection R1 as _ E _ _ _ _ _ _ _ _ _ _ _ _ _
    _ _ _ _ _ _ _.
  exact E.
Qed.

(** ** Which events schedule a reconnect timer *)

Lemma Quiet_refl : forall s, Quiet s s.
Proof. intros s. apply incl_refl. Qed.

Lemma Quiet_trans : forall s1 s2 s3, Quiet s1 s2 -> Quiet s2 s3 -> Quiet s1 s3.
Proof. unfold Quiet. intros s1 s2 s3 H1 H2. eapply incl_tran; eauto. Qed.

Lemma Quiet_same : forall s s', timers s' = timers s -> Quiet s s'.
Proof. unfold Quiet, pending. intros s s' ->. apply incl_refl. Qed.

Lemma Quiet_clearTimeout : forall t s, Quiet s (clearTimeout t s).
Proof.
  unfold Quiet, pending. intros t s x Hx. simpl in Hx.
  rewrite filter_swap in Hx. apply filter_In in Hx. tauto.
Qed.

Lemma Quiet_clearNamed : forall ref s, Quiet s (clearNamed ref s).
Proof.
  intros [t|] s; simpl; [apply Quiet_clearTimeout | apply Quiet_refl].
Qed.

Lemma Quiet_dropReconnect : forall s, Quiet s (dropReconnect s).
Proof.
  intros s. unfold dropReconnect.
  destruct (reconnectTimeoutRef s) as [t|]; [|apply Quiet_refl].
  apply (Quiet_trans s (clearTimeout t s)); [apply Quiet_clearTimeout|].
  now apply Quiet_same.
Qed.

Lemma Quiet_dropTyping : forall s, Quiet s (dropTyping s).
Proof.
  intros s. unfold dropTyping.
  destruct (typingTimeoutRef s) as [t|]; [|apply Quiet_refl].
  apply (Quiet_trans s (clearTimeout t s)); [apply Quiet_clearTimeout|].
  now apply Quiet_same.
Qed.

(** A new timer of another kind is no reconnect timer. *)
Lemma Quiet_other_timer : forall s s' tm,
  timers s' = timers s ++ [tm] -> isReconnect (timerKind tm) = false ->
  Quiet s s'.
Proof.
  unfold Quiet, pending. intros s s' tm -> Hk. rewrite filter_app. simpl.
  unfold ofKind at 2. rewrite Hk, app_nil_r. apply incl_refl.
Qed.

Lemma Quiet_ws_send : forall f s s', ws_send f s = Some s' -> Quiet s s'.
Proof.
  intros f s s' Hs. apply Quiet_same. eapply ws_send_timers. exact Hs.
Qed.

Lemma Quiet_startRateLimitCountdown : forall n s,
  Quiet s (startRateLimitCountdown n s).
Proof.
  intros n s. unfold startRateLimitCountdown, clearInterval.
  fold (clearNamed (rateLimitIntervalRef s) s).
  pose proof (Quiet_clearNamed (rateLimitIntervalRef s) s) as Q1.
  set (s1 := clearNamed (rateLimitIntervalRef s) s) in *. clearbody s1.
  apply (Quiet_trans s s1); [exact Q1|].
  apply (Quiet_other_timer s1 _ (mkTimer (nextTimerId s1) RateLimitInterval 1000 true));
    reflexivity.
Qed.

Lemma Quiet_rateLimitTick : forall s, Quiet s (rateLimitTick s).
Proof.
  intros s. unfold rateLimitTick.
  destruct (rateLimitSeconds s <=? 1); [|now apply Quiet_same].
  change (rateLimitIntervalRef (setIsRateLimited false s))
    with (rateLimitIntervalRef s).
  destruct (rateLimitIntervalRef s) as [t|]; [|now apply Quiet_same].
  apply (Quiet_trans s (clearTimeout t s)); [apply Quiet_clearTimeout|].
  now apply Quiet_same.
Qed.

Lemma Quiet_handleWebSocketMessage : forall data now s,
  Quiet s (handleWebSocketMessage data now s).
Proof.
  intros data now s. destruct data as [t u|i n c t|[b|]|n t|n t|r|[l|]|t];
    unfold handleWebSocketMessage; try (now apply Quiet_same).
  - destruct (hasId (orFreshId i now) (messages s));
      [apply Quiet_refl | now apply Quiet_same].
  - set (remaining := match r with Some x => if x =? 0 then 5 else x | None => 5 end).
    set (s1 := setIsRateLimited true (setRateLimitSeconds remaining s)).
    assert (Q1 : Quiet s s1) by now apply Quiet_same.
    clearbody s1.
    set (s2 := if startRateLimitCountdownRef s1
               then startRateLimitCountdown remaining s1 else s1).
    assert (Q2 : Quiet s1 s2).
    { subst s2. destruct (startRateLimitCountdownRef s1); [|apply Quiet_refl].
      apply Quiet_startRateLimitCountdown. }
    clearbody s2.
    apply (Quiet_trans s s1); [exact Q1|].
    apply (Quiet_trans s1 s2); [exact Q2|].
    match goal with |- context [negb (isEmpty ?p)] => destruct (negb (isEmpty p)) end;
      now apply Quiet_same.
Qed.

Lemma Quiet_connectWebSocket : forall g u r s,
  Quiet s (connectWebSocket g u r s).
Proof.
  intros g u r s. unfold connectWebSocket.
  set (s1 := if wsIsOpen s then _ else s).
  assert (Q1 : Quiet s s1).
  { subst s1. destruct (wsIsOpen s); [|apply Quiet_refl].
    destruct (wsRef s); now apply Quiet_same. }
  clearbody s1.
  fold (dropReconnect s1).
  pose proof (Quiet_dropReconnect s1) as Q2.
  set (s2 := dropReconnect s1) in *. clearbody s2.
  apply (Quiet_trans s s1); [exact Q1|].
  apply (Quiet_trans s1 s2); [exact Q2|].
  destruct (urlEncodes u r); now apply Quiet_same.
Qed.

Lemma Quiet_ws_onopen : forall s, Quiet s (ws_onopen s).
Proof.
  intros s. unfold ws_onopen.
  set (s1 := setError [] (setIsConnected true s)).
  assert (Q1 : Quiet s s1) by now apply Quiet_same.
  clearbody s1. fold (dropReconnect s1).
  apply (Quiet_trans s s1); [exact Q1 | apply Quiet_dropReconnect].
Qed.

Lemma Quiet_reconnectCallback : forall g s, Quiet s (reconnectCallback g s).
Proof.
  intros g s. unfold reconnectCallback.
  set (s1 := setError (js "Reconnecting...") s).
  assert (Q1 : Quiet s s1) by now apply Quiet_same.
  clearbody s1.
  apply (Quiet_trans s s1); [exact Q1 | apply Quiet_connectWebSocket].
Qed.

Lemma Quiet_sendTypingIndicator : forall c isTyping now s,
  Quiet s (sendTypingIndicator c isTyping now s).
Proof.
  intros c b now s. unfold sendTypingIndicator.
  destruct (negb c || negb (wsIsOpen s)); [apply Quiet_refl|].
  destruct (b && (now - lastTypingSentRef s <? 1000)); [apply Quiet_refl|].
  set (s1 := set_lastTypingSentRef now s).
  assert (Q1 : Quiet s s1) by now apply Quiet_same.
  clearbody s1.
  destruct (ws_send (TypingFrame b) s1) as [s2|] eqn:Hs; [|exact Q1].
  pose proof (Quiet_ws_send _ _ _ Hs) as Q2. clear Hs.
  fold (clearNamed (typingTimeoutRef s2) s2).
  pose proof (Quiet_clearNamed (typingTimeoutRef s2) s2) as Q3.
  set (s3 := clearNamed (typingTimeoutRef s2) s2) in *. clearbody s3.
  apply (Quiet_trans s s1); [exact Q1|].
  apply (Quiet_trans s1 s2); [exact Q2|].
  apply (Quiet_trans s2 s3); [exact Q3|].
  destruct b; [|apply Quiet_refl].
  apply (Quiet_other_timer s3 _ (mkTimer (nextTimerId s3) (TypingTimer c) 2000 false));
    reflexivity.
Qed.

Lemma Quiet_handleSendMessage : forall now s, Quiet s (handleSendMessage now s).
Proof.
  intros now s. unfold handleSendMessage.
  destruct (isEmpty (trim (messageInput s)) || negb (isConnected s)
            || negb (wsIsOpen s)); [apply Quiet_refl|].
  destruct (isRateLimited s); [now apply Quiet_same|].
  pose proof (Quiet_sendTypingIndicator (isConnected s) false now s) as Q1.
  set (s1 := sendTypingIndicator (isConnected s) false now s) in *.
  clearbody s1.
  set (s2 := set_pendingMessageRef _ (setPendingMessage _ s1)).
  assert (Q2 : Quiet s1 s2) by now apply Quiet_same.
  clearbody s2.
  apply (Quiet_trans s s1); [exact Q1|].
  apply (Quiet_trans s1 s2); [exact Q2|].
  destruct (ws_send (MessageFrame (trim (messageInput s))) s2) as [s3|] eqn:Hs.
  - pose proof (Quiet_ws_send _ _ _ Hs) as Q3. clear Hs.
    apply (Quiet_trans s2 s3); [exact Q3|].
    change (startRateLimitCountdownRef (setError [] (setMessageInput [] s3)))
      with (startRateLimitCountdownRef s3).
    set (s4 := setError [] (setMessageInput [] s3)).
    assert (Q4 : Quiet s3 s4) by now apply Quiet_same.
    clearbody s4.
    apply (Quiet_trans s3 s4); [exact Q4|].
    destruct (startRateLimitCountdownRef s3); [|apply Quiet_refl].
    apply Quiet_startRateLimitCountdown.
  - match goal with |- context [negb (isEmpty ?p)] => destruct (negb (isEmpty p)) end;
      now apply Quiet_same.
Qed.

Lemma Quiet_handleInputChange : forall v now s,
  Quiet s (handleInputChange v now s).
Proof.
  intros v now s. unfold handleInputChange.
  set (s1 := setMessageInput v s).
  assert (Q1 : Quiet s s1) by now apply Quiet_same.
  clearbody s1.
  apply (Quiet_trans s s1); [exact Q1|].
  destruct (negb (isEmpty (trim v)) && negb (isRateLimited s));
    apply Quiet_sendTypingIndicator.
Qed.

Lemma Quiet_handleDisconnect : forall s, Quiet s (handleDisconnect s).
Proof.
  intros s. unfold handleDisconnect.
  set (s1 := if wsIsOpen s then _ else s).
  assert (Q1 : Quiet s s1).
  { subst s1. destruct (wsIsOpen s); [|apply Quiet_refl].
    destruct (ws_send (TypingFrame false) s) eqn:Hs; [|apply Quiet_refl].
    eapply Quiet_ws_send; eauto. }
  clearbody s1.
  set (s2 := match wsRef s1 with Some i => _ | None => s1 end).
  assert (Q2 : Quiet s1 s2).
  { subst s2. destruct (wsRef s1); now apply Quiet_same. }
  clearbody s2.
  set (s3 := setError [] _).
  assert (Q3 : Quiet s2 s3) by now apply Quiet_same.
  clearbody s3.
  fold (dropReconnect s3).
  pose proof (Quiet_dropReconnect s3) as Q4.
  set (s4 := dropReconnect s3) in *. clearbody s4.
  fold (dropTyping s4).
  apply (Quiet_trans s s1); [exact Q1|].
  apply (Quiet_trans s1 s2); [exact Q2|].
  apply (Quiet_trans s2 s3); [exact Q3|].
  apply (Quiet_trans s3 s4); [exact Q4|].
  apply Quiet_dropTyping.
Qed.

Lemma Quiet_unmountCleanup : forall s, Quiet s (unmountCleanup s).
Proof.
  intros s. unfold unmountCleanup, clearInterval.
  set (s1 := if wsIsOpen s then _ else s).
  assert (Q1 : Quiet s s1).
  { subst s1. destruct (wsIsOpen s); [|apply Quiet_refl].
    destruct (wsRef s); now apply Quiet_same. }
  clearbody s1.
  fold (clearNamed (reconnectTimeoutRef s1) s1).
  pose proof (Quiet_clearNamed (reconnectTimeoutRef s1) s1) as Q2.
  set (s2 := clearNamed (reconnectTimeoutRef s1) s1) in *. clearbody s2.
  fold (clearNamed (rateLimitIntervalRef s2) s2).
  pose proof (Quiet_clearNamed (rateLimitIntervalRef s2) s2) as Q3.
  set (s3 := clearNamed (rateLimitIntervalRef s2) s2) in *. clearbody s3.
  fold (clearNamed (typingTimeoutRef s3) s3).
  pose proof (Quiet_clearNamed (typingTimeoutRef s3) s3) as Q4.
  set (s4 := clearNamed (typingTimeoutRef s3) s3) in *. clearbody s4.
  apply (Quiet_trans s s1); [exact Q1|].
  apply (Quiet_trans s1 s2); [exact Q2|].
  apply (Quiet_trans s2 s3); [exact Q3|].
  apply (Quiet_trans s3 s4); [exact Q4|].
  destruct (wsIsOpen s4); [|apply Quiet_refl].
  destruct (ws_send (TypingFrame false) s4) as [s5|] eqn:Hs; [|apply Quiet_refl].
  eapply Quiet_ws_send; eauto.
Qed.

Lemma Quiet_runTimer : forall tm now s, Quiet s (runTimer tm now s).
Proof.
  intros tm now s. unfold runTimer.
  set (s1 := if timerRepeats tm then s else clearTimeout (timerId tm) s).
  assert (Q1 : Quiet s s1).
  { subst s1. destruct (timerRepeats tm);
      [apply Quiet_refl | apply Quiet_clearTimeout]. }
  clearbody s1.
  apply (Quiet_trans s s1); [exact Q1|].
  destruct (timerKind tm).
  - apply Quiet_reconnectCallback.
  - apply Quiet_rateLimitTick.
  - apply Quiet_sendTypingIndicator.
Qed.

Lemma Quiet_commit : forall s, Quiet s (commit s).
Proof.
  intros s. apply Quiet_same. apply (commit_cells s).
Qed.

Lemma dropTyping_spec : forall s,
  TimersTracked s ->
  TimersTracked (dropTyping s)
  /\ pending isTypingStop (dropTyping s) = []
  /\ typingTimeoutRef (dropTyping s) = None
  /\ reconnectTimeoutRef (dropTyping s) = reconnectTimeoutRef s
  /\ (pending isReconnect s = [] -> pending isReconnect (dropTyping s) = []).
Proof.
  intros s H. unfold dropTyping, pending.
  destruct (typingTimeoutRef s) as [t|] eqn:Hr.
  - unfold TimersTracked in H. rewrite Hr in H.
    split; [timers_done|]. simpl.
    split; [destruct H as (_ & _ & H & _); eauto with timer_db|].
    split; [reflexivity|]. split; [reflexivity|].
    intros Hp. rewrite filter_swap, Hp. reflexivity.
  - split; [assumption|]. split; [|auto].
    destruct H as (_ & _ & H & _). rewrite Hr in H. eauto with timer_db.
Qed.

Lemma handleDisconnect_spec : forall s,
  TimersTracked s ->
  TimersTracked (handleDisconnect s)
  /\ pending isReconnect (handleDisconnect s) = []
  /\ reconnectTimeoutRef (handleDisconnect s) = None
  /\ pending isTypingStop (handleDisconnect s) = []
  /\ typingTimeoutRef (handleDisconnect s) = None.
Proof.
  intros s H. unfold handleDisconnect.
  set (s1 := if wsIsOpen s then _ else s).
  assert (H1 : TimersTracked s1).
  { subst s1. destruct (wsIsOpen s); [|exact H].
    destruct (ws_send (TypingFrame false) s) eqn:Hs; [|exact H].
    eapply ws_send_tracked; eauto. }
  clearbody s1.
  set (s2 := match wsRef s1 with Some i => _ | None => s1 end).
  assert (H2 : TimersTracked s2).
  { subst s2. destruct (wsRef s1); exact H1. }
  clearbody s2.
  set (s3 := setError [] _).
  assert (H3 : TimersTracked s3) by exact H2.
  clearbody s3.
  fold (dropReconnect s3).
  destruct (dropReconnect_spec s3 H3) as (D1 & D2 & D3).
  set (s4 := dropReconnect s3) in *. clearbody s4.
  fold (dropTyping s4).
  destruct (dropTyping_spec s4 D1) as (T1 & T2 & T3 & T4 & T5).
  split; [exact T1|]. split; [now apply T5|]. split; [congruence|].
  split; assumption.
Qed.

Lemma only_countdown_left : forall ts : list Timer,
  filter (ofKind isReconnect) ts = [] ->
  filter (ofKind isTypingStop) ts = [] ->
  forall t, In t ts -> timerKind t = RateLimitInterval.
Proof.
  intros ts H1 H2 t Hin.
  destruct (timerKind t) eqn:Hk; [| reflexivity |].
  - assert (Hf : In t (filter (ofKind isReconnect) ts)).
    { apply filter_In. split; [assumption|]. unfold ofKind. now rewrite Hk. }
    rewrite H1 in Hf. destruct Hf.
  - assert (Hf : In t (filter (ofKind isTypingStop) ts)).
    { apply filter_In. split; [assumption|]. unfold ofKind. now rewrite Hk. }
    rewrite H2 in Hf. destruct Hf.
Qed.

Lemma handleDisconnect_leftover : forall s,
  TimersTracked s ->
  forall t, In t (timers (handleDisconnect s)) ->
            timerKind t = RateLimitInterval.
Proof.
  intros s H.
  destruct (handleDisconnect_spec s H) as (_ & D1 & _ & D3 & _).
  revert D1 D3. generalize (handleDisconnect s). intros left D1 D3 t Hin.
  exact (only_countdown_left (timers left) D1 D3 t Hin).
Qed.

Lemma kinds_exhaust : forall ts : list Timer,
  filter (ofKind isReconnect) ts = [] ->
  filter (ofKind isRateLimit) ts = [] ->
  filter (ofKind isTypingStop) ts = [] ->
  ts = [].
Proof.
  intros [|t ts]; [reflexivity|]. unfold ofKind. simpl.
  destruct (timerKind t); simpl; discriminate.
Qed.

Lemma clearNamed_refs : forall ref s,
  reconnectTimeoutRef (clearNamed ref s) = reconnectTimeoutRef s
  /\ rateLimitIntervalRef (clearNamed ref s) = rateLimitIntervalRef s
  /\ typingTimeoutRef (clearNamed ref s) = typingTimeoutRef s.
Proof. intros [t|] s; repeat split. Qed.

Lemma unmountCleanup_spec : forall s,
  TimersTracked s ->
  TimersTracked (unmountCleanup s) /\ timers (unmountCleanup s) = [].
Proof.
  intros s H. unfold unmountCleanup, clearInterval.
  set (s1 := if wsIsOpen s then _ else s).
  assert (H1 : TimersTracked s1).
  { subst s1. destruct (wsIsOpen s); [|exact H]. destruct (wsRef s); exact H. }
  clearbody s1.
  fold (clearNamed (reconnectTimeoutRef s1) s1).
  set (s2 := clearNamed (reconnectTimeoutRef s1) s1).
  assert (H2 : TimersTracked s2) by now apply clearNamed_tracked.
  assert (P2 : pending isReconnect s2 = []).
  { apply clearNamed_own. apply H1. }
  clearbody s2.
  fold (clearNamed (rateLimitIntervalRef s2) s2).
  set (s3 := clearNamed (rateLimitIntervalRef s2) s2).
  assert (H3 : TimersTracked s3) by now apply clearNamed_tracked.
  assert (P3 : pending isRateLimit s3 = []).
  { apply clearNamed_own. apply H2. }
  assert (P3' : pending isReconnect s3 = []) by now apply clearNamed_others.
  clearbody s3.
  fold (clearNamed (typingTimeoutRef s3) s3).
  set (s4 := clearNamed (typingTimeoutRef s3) s3).
  assert (H4 : TimersTracked s4) by now apply clearNamed_tracked.
  assert (P4 : pending isTypingStop s4 = []).
  { apply clearNamed_own. apply H3. }
  assert (P4' : pending isReconnect s4 = []) by now apply clearNamed_others.
  assert (P4'' : pending isRateLimit s4 = []) by now apply clearNamed_others.
  assert (E : timers s4 = []) by now apply kinds_exhaust.
  clearbody s4.
  destruct (wsIsOpen s4); [|now split].
  destruct (ws_send (TypingFrame false) s4) as [s5|] eqn:Hs; [|now split].
  split; [eapply ws_send_tracked; eauto|].
  rewrite (ws_send_timers _ _ _ Hs). exact E.
Qed.

Lemma runTimer_tracked : forall tm now s,
  TimersTracked s -> TimersTracked (runTimer tm now s).
Proof.
  intros tm now s H. unfold runTimer.
  set (s1 := if timerRepeats tm then s else clearTimeout (timerId tm) s).
  assert (H1 : TimersTracked s1).
  { subst s1. destruct (timerRepeats tm);
      [exact H | now apply TimersTracked_clearTimeout]. }
  clearbody s1.
  destruct (timerKind tm).
  - now apply reconnectCallback_tracked.
  - now apply rateLimitTick_tracked.
  - now apply sendTypingIndicator_tracked.
Qed.

Lemma commit_tracked : forall s, TimersTracked s -> TimersTracked (commit s).
Proof.
  intros s H.
  destruct (commit_cells s)
    as (_ & _ & _ & _ & _ & _ & _ & _ & _ & _ & _ & C1 & C2 & _ & C3 & _ & _
        & _ & _ & C4 & _).
  now apply (TimersTracked_same s).
Qed.

Lemma initialState_tracked : TimersTracked initialState.
Proof. repeat split; constructor. Qed.

(** What [ws.onclose] does to the pending reconnect timers. *)
Lemma ws_onclose_schedules : forall g code reason s,
  TimersTracked s ->
  pending isReconnect (ws_onclose g code reason s) <> pending isReconnect s ->
  code <> 1000 /\ usernameRef s <> [] /\ g <> []
  /\ pending isReconnect s = []
  /\ pending isReconnect (ws_onclose g code reason s)
     = [mkTimer (nextTimerId s) (ReconnectTimer g) 3000 false].
Proof.
  intros g code reason s H. unfold ws_onclose.
  set (s1 := closeErrorText code reason (setIsConnected false s)).
  destruct (closeErrorText_same code reason (setIsConnected false s))
    as (E1 & E2 & E3 & E4 & E5 & E6).
  fold s1 in E1, E2, E3, E4, E5, E6.
  change (timers (setIsConnected false s)) with (timers s) in E1.
  change (reconnectTimeoutRef (setIsConnected false s))
    with (reconnectTimeoutRef s) in E2.
  change (usernameRef (setIsConnected false s)) with (usernameRef s) in E5.
  change (nextTimerId (setIsConnected false s)) with (nextTimerId s) in E6.
  assert (P1 : pending isReconnect s1 = pending isReconnect s).
  { unfold pending. now rewrite E1. }
  clearbody s1.
  destruct (negb (code =? 1000)) eqn:Hc; simpl andb; cbv iota;
    [|rewrite P1; intros N; now elim N].
  destruct (isEmpty (usernameRef s1)) eqn:Hu; simpl negb; simpl andb; cbv iota;
    [rewrite P1; intros N; now elim N|].
  destruct (isEmpty g) eqn:Hg; simpl negb; cbv iota;
    [rewrite P1; intros N; now elim N|].
  destruct (reconnectTimeoutRef s1) eqn:Hr;
    [rewrite P1; intros N; now elim N|].
  intros _.
  assert (P0 : pending isReconnect s = []).
  { destruct H as [H _]. rewrite <- E2 in H. unfold pending.
    eauto with timer_db. }
  split. { apply negb_true_iff, Z.eqb_neq in Hc. exact Hc. }
  split. { rewrite <- E5. intros E. apply isEmpty_spec in E. congruence. }
  split. { intros E. apply isEmpty_spec in E. congruence. }
  split; [exact P0|].
  unfold pending in *. simpl. rewrite filter_app, P1, P0, E6. reflexivity.
Qed.

Section Discipline.

Variable toUpperCase : jsstring -> jsstring.

Lemma handleJoin_tracked : forall s,
  TimersTracked s -> TimersTracked (handleJoin toUpperCase s).
Proof.
  intros s H. unfold handleJoin.
  destruct (isEmpty (trim (username s))); [exact H|].
  match goal with |- context [negb ?b] => destruct (negb b) end; [exact H|].
  apply connectWebSocket_tracked. exact H.
Qed.

Lemma handle_tracked : forall e s,
  TimersTracked s -> TimersTracked (handle toUpperCase e s).
Proof.
  intros e s H. destruct e; unfold handle.
  - destruct (mounted s && negb (isConnected s)); exact H.
  - destruct (mounted s && negb (isConnected s)); exact H.
  - destruct (mounted s && negb (isConnected s));
      [now apply handleJoin_tracked | exact H].
  - destruct (mounted s && isConnected s);
      [now apply handleInputChange_tracked | exact H].
  - destruct (mounted s && isConnected s);
      [now apply handleSendMessage_tracked | exact H].
  - destruct (mounted s && isConnected s);
      [now apply handleDisconnect_spec | exact H].
  - destruct (nth_error (sockets s) i) as [w|]; [|exact H].
    destruct (readyState w); try exact H.
    apply ws_onopen_tracked. exact H.
  - destruct (nth_error (sockets s) i) as [w|]; [|exact H].
    destruct (readyState w); try exact H;
      (destruct data as [d|]; [|exact H]; unfold ws_onmessage;
       destruct (handleWebSocketMessageRef s); [|exact H];
       now apply handleWebSocketMessage_tracked).
  - destruct (nth_error (sockets s) i); exact H.
  - destruct (nth_error (sockets s) i) as [w|]; [|exact H].
    destruct (readyState w); try exact H;
      (apply ws_onclose_tracked; exact H).
  - destruct (find (fun x => Pos.eqb (timerId x) t) (timers s)); [|exact H].
    now apply runTimer_tracked.
  - destruct (mounted s); [|exact H].
    pose proof (proj1 (unmountCleanup_spec s H)) as H1.
    set (s1 := unmountCleanup s) in *. clearbody s1. exact H1.
Qed.

(** In every state the component goes through, each pending timer is
    the one its ref cell points to. *)
Lemma Reachable_tracked : forall s,
  Reachable toUpperCase s -> TimersTracked s.
Proof.
  intros s R. induction R as [|e s R IH].
  - exact initialState_tracked.
  - unfold step. apply commit_tracked. now apply handle_tracked.
Qed.

Lemma Reachable_run : forall events s,
  Reachable toUpperCase s -> Reachable toUpperCase (run toUpperCase events s).
Proof.
  induction events as [|e events IH]; intros s R; simpl; [exact R|].
  apply IH. now constructor.
Qed.

(** While the component is mounted, [usernameRef] mirrors the
    [username] cell. *)
Lemma usernameRef_mirrors_username : forall s,
  Reachable toUpperCase s -> mounted s = true -> usernameRef s = username s.
Proof.
  intros s R. induction R as [|e s R IH]; [reflexivity|].
  unfold step. intros Hm.
  destruct (commit_cells (handle toUpperCase e s))
    as (_ & C1 & _ & _ & _ & _ & _ & _ & _ & _ & _ & _ & _ & _ & _ & _ & _
        & _ & _ & _ & _ & C2).
  rewrite C2 in Hm. rewrite C1. now apply commit_usernameRef.
Qed.

Lemma Quiet_handleJoin : forall s, Quiet s (handleJoin toUpperCase s).
Proof.
  intros s. unfold handleJoin.
  destruct (isEmpty (trim (username s))); [now apply Quiet_same|].
  match goal with |- context [negb ?b] => destruct (negb b) end;
    [now apply Quiet_same|].
  match goal with |- Quiet s (connectWebSocket ?g ?u ?r ?x) =>
    set (s1 := x); assert (Q1 : Quiet s s1) by (now apply Quiet_same);
    clearbody s1; apply (Quiet_trans s s1);
    [exact Q1 | apply Quiet_connectWebSocket]
  end.
Qed.

(** Only a close event can schedule a reconnect timer. *)
Lemma Quiet_handle : forall e s,
  (forall i code reason, e <> SocketClose i code reason) ->
  Quiet s (handle toUpperCase e s).
Proof.
  intros e s Hne. destruct e; unfold handle.
  - destruct (mounted s && negb (isConnected s));
      [now apply Quiet_same | apply Quiet_refl].
  - destruct (mounted s && negb (isConnected s));
      [now apply Quiet_same | apply Quiet_refl].
  - destruct (mounted s && negb (isConnected s));
      [apply Quiet_handleJoin | apply Quiet_refl].
  - destruct (mounted s && isConnected s);
      [apply Quiet_handleInputChange | apply Quiet_refl].
  - destruct (mounted s && isConnected s);
      [apply Quiet_handleSendMessage | apply Quiet_refl].
  - destruct (mounted s && isConnected s);
      [apply Quiet_handleDisconnect | apply Quiet_refl].
  - destruct (nth_error (sockets s) i) as [w|]; [|apply Quiet_refl].
    destruct (readyState w); try apply Quiet_refl.
    set (s1 := setReadyState i OPEN s).
    assert (Q1 : Quiet s s1) by now apply Quiet_same.
    clearbody s1.
    apply (Quiet_trans s s1); [exact Q1 | apply Quiet_ws_onopen].
  - destruct (nth_error (sockets s) i) as [w|]; [|apply Quiet_refl].
    destruct (readyState w); try apply Quiet_refl;
      (destruct data as [d|]; [|apply Quiet_refl]; unfold ws_onmessage;
       destruct (handleWebSocketMessageRef s); [|apply Quiet_refl];
       apply Quiet_handleWebSocketMessage).
  - destruct (nth_error (sockets s) i); apply Quiet_refl.
  - elim (Hne i code reason). reflexivity.
  - destruct (find (fun x => Pos.eqb (timerId x) t) (timers s));
      [apply Quiet_runTimer | apply Quiet_refl].
  - destruct (mounted s); [|apply Quiet_refl].
    pose proof (Quiet_unmountCleanup s) as Q1.
    set (s1 := unmountCleanup s) in *. clearbody s1.
    apply (Quiet_trans s s1); [exact Q1 | now apply Quiet_same].
Qed.

(** A step after which a reconnect timer is pending that was not pending
    before is a close event, with a code other than 1000, on a socket
    whose closure remembers a non-empty room id, while the remembered
    username is non-empty and no reconnect timer is pending. *)
Lemma step_schedules_reconnect : forall e s t,
  TimersTracked s ->
  In t (pending isReconnect (step toUpperCase e s)) ->
  ~ In t (pending isReconnect s) ->
  exists i code reason w,
    e = SocketClose i code reason
    /\ nth_error (sockets s) i = Some w
    /\ code <> 1000
    /\ usernameRef s <> []
    /\ ws_groupId w <> []
    /\ pending isReconnect s = []
    /\ t = mkTimer (nextTimerId s) (ReconnectTimer (ws_groupId w)) 3000 false.
Proof.
  intros e s t H Hnew Hold. unfold step in Hnew.
  apply (Quiet_commit (handle toUpperCase e s)) in Hnew.
  destruct e;
    try (elim Hold; revert Hnew; apply Quiet_handle; discriminate).
  unfold handle in Hnew.
  destruct (nth_error (sockets s) i) as [w|] eqn:Hw; [|contradiction].
  exists i, code, reason, w.
  set (s1 := setReadyState i CLOSED s) in Hnew.
  assert (H1 : TimersTracked s1) by exact H.
  assert (Eu : usernameRef s1 = usernameRef s) by reflexivity.
  assert (En : nextTimerId s1 = nextTimerId s) by reflexivity.
  assert (Ep : pending isReconnect s1 = pending isReconnect s) by reflexivity.
  clearbody s1.
  assert (Hclose : In t (pending isReconnect
                           (ws_onclose (ws_groupId w) code reason s1))).
  { destruct (readyState w); try exact Hnew. contradiction. }
  clear Hnew.
  destruct (ws_onclose_schedules (ws_groupId w) code reason s1 H1)
    as (C1 & C2 & C3 & C4 & C5).
  { intros E. rewrite E, Ep in Hclose. contradiction. }
  rewrite C5 in Hclose. destruct Hclose as [<- | []].
  rewrite <- Eu, <- En, <- Ep. repeat split; assumption.
Qed.

(** C4.  In every state the component goes through: at most one
    reconnect timer is pending, it is a timeout of 3000 ms and
    [reconnectTimeoutRef] holds its id; an event after which a reconnect
    timer is pending that was not pending before is a close event whose
    code is not 1000, handled while the remembered username and the room
    id remembered by the socket's closure are both non-empty and no
    reconnect timer is pending, and the timer it schedules is a timeout
    of 3000 ms; and [connectWebSocket] leaves no reconnect timer pending
    when it makes the new socket. *)
Theorem reconnect_timer_discipline : forall s : AppState,
  Reachable toUpperCase s ->
  (length (pending isReconnect s) <= 1)%nat
  /\ (forall t, In t (pending isReconnect s) ->
        timerDelay t = 3000 /\ timerRepeats t = false
        /\ reconnectTimeoutRef s = Some (timerId t))
  /\ (forall e t,
        In t (pending isReconnect (step toUpperCase e s)) ->
        ~ In t (pending isReconnect s) ->
        exists i code reason w,
          e = SocketClose i code reason
          /\ nth_error (sockets s) i = Some w
          /\ code <> 1000
          /\ usernameRef s <> []
          /\ ws_groupId w <> []
          /\ pending isReconnect s = []
          /\ t = mkTimer (nextTimerId s) (ReconnectTimer (ws_groupId w))
                  3000 false)
  /\ (forall rememberedGroupId user group,
        pending isReconnect (connectWebSocket rememberedGroupId user group s)
        = []
        /\ reconnectTimeoutRef
             (connectWebSocket rememberedGroupId user group s) = None).
Proof.
  intros s R. pose proof (Reachable_tracked s R) as H.
  split; [|split; [|split]].
  - apply (tracked_at_most_one isReconnect (reconnectTimeoutRef s)). apply H.
  - intros t Hin. destruct H as (H1 & _ & _ & H4).
    pose proof (tracked_holds_id _ _ _ _ H1 Hin) as Hid.
    unfold pending in Hin. apply filter_In in Hin as [Hin Hk].
    pose proof (proj1 (Forall_forall _ _) H4 t Hin) as Hw.
    unfold wellTimed in Hw. unfold ofKind in Hk.
    destruct (timerKind t); try discriminate. tauto.
  - intros e t. now apply step_schedules_reconnect.
  - intros g u r. now apply connectWebSocket_tracked.
Qed.

(** C8, as amended.  The component keeps three kinds of timers: the
    reconnect timeout, the typing timeout and the interval of the
    rate-limit countdown.  In every state it goes through,
    [handleDisconnect] leaves no reconnect timer and no typing timer
    pending (a timer still pending after it can only be the countdown's
    interval) and empties their two ref cells, and the cleanup run at
    unmount leaves no timer pending at all. *)
Theorem disconnect_and_unmount_cancel_timers : forall s : AppState,
  Reachable toUpperCase s ->
  (forall t, In t (timers (handleDisconnect s)) ->
     timerKind t = RateLimitInterval)
  /\ pending isReconnect (handleDisconnect s) = []
  /\ reconnectTimeoutRef (handleDisconnect s) = None
  /\ pending isTypingStop (handleDisconnect s) = []
  /\ typingTimeoutRef (handleDisconnect s) = None
  /\ timers (unmountCleanup s) = [].
Proof.
  intros s R. pose proof (Reachable_tracked s R) as H.
  destruct (handleDisconnect_spec s H) as (_ & D1 & D2 & D3 & D4).
  destruct (unmountCleanup_spec s H) as [_ U].
  split; [exact (handleDisconnect_leftover s H) | tauto].
Qed.

End Discipline.

(** ** The properties on sample sessions *)

Example join_normalizes_room :
  let s := run asciiToUpperCase
             [UsernameInput (js " alice "); GroupIdInput (js "abc-12x"); JoinSubmit]
             initialState in
  sockets s = [mkSocket (js "alice") (js "ABC12") (js "ABC12") CONNECTING]
  /\ groupId s = js "ABC12" /\ error s = [].
Proof. vm_compute. repeat split. Qed.

Example join_refuses_short_room :
  let s := run asciiToUpperCase
             [UsernameInput (js "bob"); GroupIdInput (js "ab1"); JoinSubmit]
             initialState in
  sockets s = []
  /\ error s = js "Room name must be exactly 5 alphanumeric characters"
  /\ Legacy.handleJoin asciiToUpperCase (js "bob") (js "ab1")
     = Legacy.Connects (js "bob") (js "AB1").
Proof. vm_compute. repeat split. Qed.

Example alice_sent_state :
  outbox aliceSent
  = [(0%nat, TypingFrame true); (0%nat, TypingFrame false);
     (0%nat, MessageFrame (js "hi"))]
  /\ timers aliceSent = [mkTimer 2 RateLimitInterval 1000 true]
  /\ messageInput aliceSent = []
  /\ pendingMessageRef aliceSent = js "hi"
  /\ rateLimitSeconds aliceSent = 5.
Proof. vm_compute. repeat split. Qed.

Lemma aliceSent_reachable : Reachable asciiToUpperCase aliceSent.
Proof.
  unfold aliceSent, aliceJoined.
  apply Reachable_run. apply Reachable_run. apply Reachable_mounted.
Defined.

Lemma message_dedup_by_id_witness :
  truthyId (IdStr (js "m1")) = true
  /\ messages
       (handleWebSocketMessage
          (message (Some (IdStr (js "m1"))) (js "alice") (js "hi") (js "t")) 7100
          (handleWebSocketMessage
             (message (Some (IdStr (js "m1"))) (js "alice") (js "hi") (js "t"))
             7000 aliceSent))
     = [userMessage (IdStr (js "m1")) (js "alice") (js "hi") (js "t")].
Proof.
  split; [vm_compute; reflexivity|].
  rewrite (proj2 (message_dedup_by_id aliceSent (IdStr (js "m1")) (js "alice")
                    (js "hi") (js "t") 7000 7100 eq_refl)).
  vm_compute. reflexivity.
Defined.

Lemma rate_limited_send_is_silent_witness :
  isRateLimited aliceTypedAgain = true
  /\ messageInput aliceTypedAgain = js "again"
  /\ outbox (handleSendMessage 6100 aliceTypedAgain) = outbox aliceTypedAgain
  /\ messageInput (handleSendMessage 6100 aliceTypedAgain) = js "again".
Proof.
  assert (H : isRateLimited aliceTypedAgain = true) by (vm_compute; reflexivity).
  split; [exact H|]. split; [vm_compute; reflexivity|].
  destruct (rate_limited_send_is_silent 6100 aliceTypedAgain H)
    as (H1 & _ & H3 & _).
  split; [exact H1|]. rewrite H3. vm_compute. reflexivity.
Defined.

Lemma rate_limit_defaults_to_five_witness :
  (Some 0 = None \/ Some 0 = Some 0)
  /\ rateLimitSeconds (handleWebSocketMessage (rate_limit (Some 0)) 5600 aliceSent)
     = 5
  /\ rateLimitSeconds (handleWebSocketMessage (rate_limit None) 5600 aliceSent)
     = 5.
Proof.
  split; [right; reflexivity|]. split.
  - exact (proj1 (rate_limit_defaults_to_five aliceSent 5600 (Some 0)
                    (or_intror eq_refl))).
  - exact (proj1 (rate_limit_defaults_to_five aliceSent 5600 None
                    (or_introl eq_refl))).
Defined.

Lemma typing_start_debounced_witness :
  5400 - lastTypingSentRef aliceJoined >= 1000
  /\ outbox (sendTypingIndicator true true 5000 aliceJoined)
     = [(0%nat, TypingFrame true)]
  /\ sendTypingIndicator true true 5400
       (sendTypingIndicator true true 5000 aliceJoined)
     = sendTypingIndicator true true 5000 aliceJoined.
Proof.
  split; [vm_compute; discriminate|]. split; [vm_compute; reflexivity|].
  apply (proj2 (proj2 (typing_start_debounced aliceJoined 5000))).
  - vm_compute. discriminate.
  - vm_compute. reflexivity.
Defined.

Lemma reconnect_timer_discipline_witness :
  Reachable asciiToUpperCase aliceCutOff
  /\ pending isReconnect aliceCutOff
     = [mkTimer 3 (ReconnectTimer (js "ABC12")) 3000 false]
  /\ (length (pending isReconnect aliceCutOff) <= 1)%nat
  /\ pending isReconnect
       (step asciiToUpperCase (SocketClose 0 1006 []) aliceCutOff)
     = pending isReconnect aliceCutOff.
Proof.
  assert (R : Reachable asciiToUpperCase aliceCutOff).
  { unfold aliceCutOff. apply Reachable_step. exact aliceSent_reachable. }
  split; [exact R|]. split; [vm_compute; reflexivity|].
  split; [|vm_compute; reflexivity].
  exact (proj1 (reconnect_timer_discipline asciiToUpperCase aliceCutOff R)).
Defined.

Lemma disconnect_and_unmount_cancel_timers_witness :
  Reachable asciiToUpperCase aliceCutOff
  /\ timers aliceCutOff
     = [mkTimer 2 RateLimitInterval 1000 true;
        mkTimer 3 (ReconnectTimer (js "ABC12")) 3000 false]
  /\ pending isReconnect (handleDisconnect aliceCutOff) = []
  /\ timers (unmountCleanup aliceCutOff) = [].
Proof.
  assert (R : Reachable asciiToUpperCase aliceCutOff).
  { unfold aliceCutOff. apply Reachable_step. exact aliceSent_reachable. }
  split; [exact R|]. split; [vm_compute; reflexivity|].
  destruct (disconnect_and_unmount_cancel_timers asciiToUpperCase aliceCutOff R)
    as (_ & D1 & _ & _ & _ & U).
  split; assumption.
Defined.

(** C8, as stated, fails: besides the reconnect and the typing timers the
    component keeps the interval of the rate-limit countdown, and
    [handleDisconnect] does not cancel it.  After alice has sent a
    message and leaves, the interval is still pending, and its next tick
    runs. *)
Lemma disconnect_leaves_countdown_interval :
  Reachable asciiToUpperCase aliceSent
  /\ timers (step asciiToUpperCase LeaveClick aliceSent)
     = [mkTimer 2 RateLimitInterval 1000 true]
  /\ timers (handleDisconnect aliceSent)
     = [mkTimer 2 RateLimitInterval 1000 true]
  /\ rateLimitSeconds (step asciiToUpperCase LeaveClick aliceSent) = 5
  /\ rateLimitSeconds
       (step asciiToUpperCase (TimerFires 2 6500)
          (step asciiToUpperCase LeaveClick aliceSent)) = 4
  /\ ~ (forall s, Reachable asciiToUpperCase s ->
          timers (handleDisconnect s) = []).
Proof.
  split; [exact aliceSent_reachable|].
  split; [vm_compute; reflexivity|]. split; [vm_compute; reflexivity|].
  split; [vm_compute; reflexivity|]. split; [vm_compute; reflexivity|].
  intros H. specialize (H aliceSent aliceSent_reachable). vm_compute in H. discriminate H.
Qed.

(** * Further properties of the client *)

(** ** Envelopes: the rendered list and the user list *)

Lemma includes_spec : forall u l, includes u l = true <-> In u l.
Proof.
  intros u l. unfold includes. rewrite existsb_exists. split.
  - intros [x [Hx E]]. apply strictEq_spec in E. now subst.
  - intros H. exists u. split; [assumption | apply strictEq_refl].
Qed.

Lemma filter_none : forall (A : Type) (f : A -> bool) (l : list A),
  (forall x, In x l -> f x = false) -> filter f l = [].
Proof.
  intros A f l. induction l as [|x l IH]; intros H; simpl; [reflexivity|].
  rewrite (H x (or_introl eq_refl)). apply IH. intros y Hy. apply H. now right.
Qed.

Lemma renderWire_carried : forall now now' msg,
  carriesId msg = true -> renderWire now msg = renderWire now' msg.
Proof.
  intros now now' [[i|] u c t]; unfold carriesId, renderWire; simpl;
    [|discriminate].
  intros H. now rewrite H.
Qed.

Lemma handle_batch_messages : forall s batch now,
  messages (handleWebSocketMessage (messages_batch (Some batch)) now s)
  = messages s
    ++ filter (fun msg => negb (hasId (msg_id msg) (messages s)))
         (map (renderWire now) batch).
Proof. reflexivity. Qed.

(** X1.  A [messages] batch keeps the rendered list and appends to it
    only entries of user type whose id was not rendered before, each one
    the rendering of a batch element; and when every element carries an
    id, handling the same batch again, whenever that is, adds nothing. *)
Theorem batch_appends_unrendered_only :
  forall (s : AppState) (batch : list WireMessage) (now now' : Z),
    let s' := handleWebSocketMessage (messages_batch (Some batch)) now s in
    (exists fresh,
        messages s' = messages s ++ fresh
        /\ (forall m, In m fresh ->
              ~ In (msg_id m) (map msg_id (messages s))
              /\ msg_type m = user
              /\ In m (map (renderWire now) batch)))
    /\ (forallb carriesId batch = true ->
        messages (handleWebSocketMessage (messages_batch (Some batch)) now' s')
        = messages s').
Proof.
  intros s batch now now' s'. split.
  - eexists. split; [apply handle_batch_messages|].
    intros m Hm. apply filter_In in Hm as [Hin Hf]. split; [|split].
    + intros Hc. apply hasId_spec in Hc. rewrite Hc in Hf. discriminate.
    + apply in_map_iff in Hin as [w [<- _]]. reflexivity.
    + exact Hin.
  - intros Hall. rewrite handle_batch_messages.
    assert (Hm : messages s' = messages s
                 ++ filter (fun msg => negb (hasId (msg_id msg) (messages s)))
                      (map (renderWire now) batch))
      by apply handle_batch_messages.
    clearbody s'. rewrite filter_none; [apply app_nil_r|].
    intros m Hin. apply negb_false_iff.
    apply in_map_iff in Hin as [w [<- Hw]].
    rewrite (renderWire_carried now' now w)
      by (now apply (proj1 (forallb_forall _ _) Hall)).
    rewrite Hm. unfold hasId. rewrite existsb_app.
    destruct (existsb (fun msg => idEq (msg_id msg) (msg_id (renderWire now w)))
                (messages s)) eqn:Hold; [reflexivity|].
    simpl. apply existsb_exists. exists (renderWire now w). split.
    + apply filter_In. split; [now apply in_map|].
      unfold hasId. now rewrite Hold.
    + now apply idEq_spec.
Qed.

Lemma NoDup_snoc : forall (A : Type) (x : A) (l : list A),
  NoDup l -> ~ In x l -> NoDup (l ++ [x]).
Proof.
  intros A x l H Hx. induction H as [|y l Hy H IH]; simpl.
  - constructor; [intros [] | constructor].
  - constructor.
    + rewrite in_app_iff. intros [Hin | [E | []]]; [contradiction|].
      subst. apply Hx. now left.
    + apply IH. intros Hin. apply Hx. now right.
Qed.

(** X2.  On the user list: [user_joined] adds a name at most once, so a
    list without duplicates stays without duplicates and a second
    [user_joined] for the same name changes nothing; [user_left] takes
    out every occurrence of the name; and a join followed by the leave
    of a name that was not listed gives the list back. *)
Theorem user_list_join_leave :
  forall (s : AppState) (name t t' : jsstring) (now now' : Z),
    let joined := handleWebSocketMessage (user_joined name t) now s in
    let left := handleWebSocketMessage (user_left name t) now s in
    In name (users joined)
    /\ (NoDup (users s) -> NoDup (users joined))
    /\ users (handleWebSocketMessage (user_joined name t') now' joined)
       = users joined
    /\ ~ In name (users left)
    /\ (forall u, u <> name -> (In u (users left) <-> In u (users s)))
    /\ (NoDup (users s) -> NoDup (users left))
    /\ (~ In name (users s) ->
        users (handleWebSocketMessage (user_left name t') now' joined)
        = users s).
Proof.
  intros s name t t' now now' joined left.
  assert (Hj : users joined
               = if includes name (users s) then users s else users s ++ [name])
    by reflexivity.
  assert (Hl : users left = remove jsstring_eq_dec name (users s)).
  { subst left. simpl. apply filter_out_is_remove. }
  assert (Hjj : users (handleWebSocketMessage (user_joined name t') now' joined)
                = if includes name (users joined) then users joined
                  else users joined ++ [name]) by reflexivity.
  assert (Hjl : users (handleWebSocketMessage (user_left name t') now' joined)
                = remove jsstring_eq_dec name (users joined)).
  { simpl. apply filter_out_is_remove. }
  clearbody joined left.
  assert (Hin : In name (users joined)).
  { rewrite Hj. destruct (includes name (users s)) eqn:E.
    - now apply includes_spec.
    - apply in_or_app. right. now left. }
  split; [exact Hin|]. split; [|split; [|split; [|split; [|split]]]].
  - intros Hn. rewrite Hj. destruct (includes name (users s)) eqn:E;
      [assumption|].
    apply NoDup_snoc; [assumption|]. intros Hc.
    apply includes_spec in Hc. congruence.
  - rewrite Hjj. apply includes_spec in Hin. now rewrite Hin.
  - rewrite Hl. apply remove_In.
  - intros u Hu. rewrite Hl. split.
    + intros H. now apply in_remove in H.
    + intros H. apply in_in_remove; auto.
  - intros Hn. rewrite Hl. clear - Hn.
    induction Hn as [|x l Hx Hn IH]; simpl; [constructor|].
    destruct (jsstring_eq_dec name x); [assumption|].
    constructor; [|assumption]. intros Hc. now apply in_remove in Hc.
  - intros Hnot. rewrite Hjl, Hj.
    destruct (includes name (users s)) eqn:E.
    + apply includes_spec in E. contradiction.
    + rewrite remove_app. simpl.
      destruct (jsstring_eq_dec name name); [|congruence].
      rewrite app_nil_r. now apply notin_remove.
Qed.

(** X3.  No envelope takes a rendered entry away or changes the order
    of the rendered entries: after any envelope the list is the old
    list with entries put before it or after it. *)
Theorem envelopes_keep_rendered_messages :
  forall (data : Envelope) (now : Z) (s : AppState),
    exists before after,
      messages (handleWebSocketMessage data now s)
      = before ++ messages s ++ after.
Proof.
  intros data now s.
  destruct data as [t u|i n c t|[b|]|n t|n t|r|[l|]|t].
  - exists [systemMessage now t (DateNow now)], []. simpl.
    now rewrite app_nil_r.
  - unfold handleWebSocketMessage.
    destruct (hasId (orFreshId i now) (messages s)).
    + exists [], []. now rewrite app_nil_r.
    + exists [], [userMessage (orFreshId i now) n c t]. reflexivity.
  - eexists [], _. rewrite handle_batch_messages. reflexivity.
  - exists [], []. now rewrite app_nil_r.
  - eexists [_], []. simpl. now rewrite app_nil_r.
  - eexists [_], []. simpl. now rewrite app_nil_r.
  - exists [], [].
    unfold handleWebSocketMessage.
    set (remaining := match r with Some x => if x =? 0 then 5 else x | None => 5 end).
    set (s1 := setIsRateLimited true (setRateLimitSeconds remaining s)).
    assert (E1 : messages s1 = messages s) by reflexivity.
    clearbody s1.
    set (s2 := if startRateLimitCountdownRef s1
               then startRateLimitCountdown remaining s1 else s1).
    assert (E2 : messages s2 = messages s).
    { subst s2. destruct (startRateLimitCountdownRef s1); [|exact E1].
      unfold startRateLimitCountdown.
      destruct (rateLimitIntervalRef s1); exact E1. }
    clearbody s2.
    match goal with |- context [negb (isEmpty ?p)] => destruct (negb (isEmpty p)) end;
      simpl; rewrite E2, app_nil_r; reflexivity.
  - exists [], []. now rewrite app_nil_r.
  - exists [], []. now rewrite app_nil_r.
  - exists [], []. now rewrite app_nil_r.
Qed.

(** The cells [handleWebSocketMessage] does not touch. *)
Lemma handleWebSocketMessage_cells :
  forall (data : Envelope) (now : Z) (s : AppState),
    let s' := handleWebSocketMessage data now s in
    outbox s' = outbox s
    /\ sockets s' = sockets s
    /\ wsRef s' = wsRef s
    /\ isConnected s' = isConnected s
    /\ username s' = username s
    /\ usernameRef s' = usernameRef s
    /\ groupId s' = groupId s
    /\ reconnectTimeoutRef s' = reconnectTimeoutRef s
    /\ typingTimeoutRef s' = typingTimeoutRef s
    /\ lastTypingSentRef s' = lastTypingSentRef s.
Proof.
  intros data now s s'. subst s'.
  destruct data as [t u|i n c t|[b|]|n t|n t|r|[l|]|t];
    try (repeat split; reflexivity).
  - unfold handleWebSocketMessage.
    destruct (hasId (orFreshId i now) (messages s)); repeat split.
  - unfold handleWebSocketMessage, startRateLimitCountdown.
    set (remaining := match r with Some x => if x =? 0 then 5 else x | None => 5 end).
    change (startRateLimitCountdownRef
              (setIsRateLimited true (setRateLimitSeconds remaining s)))
      with (startRateLimitCountdownRef s).
    change (rateLimitIntervalRef
              (setIsRateLimited true (setRateLimitSeconds remaining s)))
      with (rateLimitIntervalRef s).
    destruct (startRateLimitCountdownRef s);
      [destruct (rateLimitIntervalRef s)|];
      match goal with |- context [negb (isEmpty ?p)] => destruct (negb (isEmpty p)) end;
      repeat split.
Qed.

(** X4.  Handling an envelope is local to the view: it sends no frame,
    makes or closes no socket, and leaves the connection flag, the
    username, the room id, their refs and the reconnect and typing
    timers' refs as they are. *)
Theorem envelopes_leave_connection_alone :
  forall (data : Envelope) (now : Z) (s : AppState),
    let s' := handleWebSocketMessage data now s in
    outbox s' = outbox s
    /\ sockets s' = sockets s
    /\ wsRef s' = wsRef s
    /\ isConnected s' = isConnected s
    /\ username s' = username s
    /\ usernameRef s' = usernameRef s
    /\ groupId s' = groupId s
    /\ reconnectTimeoutRef s' = reconnectTimeoutRef s
    /\ typingTimeoutRef s' = typingTimeoutRef s
    /\ lastTypingSentRef s' = lastTypingSentRef s.
Proof. exact handleWebSocketMessage_cells. Qed.

(** ** Typing and sending: what goes on the wire *)

Lemma wsIsOpen_same : forall s s',
  sockets s' = sockets s -> wsRef s' = wsRef s -> wsIsOpen s' = wsIsOpen s.
Proof.
  intros s s' Hs Hw. unfold wsIsOpen, currentSocket. now rewrite Hs, Hw.
Qed.

(** The cells [sendTypingIndicator] does not touch. *)
Lemma sendTypingIndicator_cells : forall c isTyping now s,
  let s' := sendTypingIndicator c isTyping now s in
  sockets s' = sockets s /\ wsRef s' = wsRef s
  /\ messageInput s' = messageInput s /\ messages s' = messages s
  /\ pendingMessage s' = pendingMessage s
  /\ pendingMessageRef s' = pendingMessageRef s
  /\ isRateLimited s' = isRateLimited s
  /\ rateLimitSeconds s' = rateLimitSeconds s
  /\ error s' = error s
  /\ isConnected s' = isConnected s
  /\ startRateLimitCountdownRef s' = startRateLimitCountdownRef s
  /\ rateLimitIntervalRef s' = rateLimitIntervalRef s
  /\ reconnectTimeoutRef s' = reconnectTimeoutRef s.
Proof.
  intros c b now s s'. subst s'. unfold sendTypingIndicator.
  destruct (negb c || negb (wsIsOpen s)); [repeat split|].
  destruct (b && (now - lastTypingSentRef s <? 1000)); [repeat split|].
  unfold ws_send.
  change (wsRef (set_lastTypingSentRef now s)) with (wsRef s).
  change (sockets (set_lastTypingSentRef now s)) with (sockets s).
  destruct (wsRef s) as [i|] eqn:Hw; [|repeat split; exact Hw].
  destruct (nth_error (sockets s) i) as [w|]; [|repeat split; exact Hw].
  destruct (readyState w); try (repeat split; exact Hw);
    cbn [typingTimeoutRef set_outbox set_lastTypingSentRef];
    destruct b, (typingTimeoutRef s); repeat split; exact Hw.
Qed.

(** The frames [sendTypingIndicator] sends. *)
Lemma sendTypingIndicator_frames : forall c isTyping now s,
  outbox (sendTypingIndicator c isTyping now s)
  = outbox s
    ++ (if c && wsIsOpen s
        then if isTyping && (now - lastTypingSentRef s <? 1000) then []
             else match wsRef s with
                  | Some i => [(i, TypingFrame isTyping)]
                  | None => []
                  end
        else []).
Proof.
  intros c b now s. unfold sendTypingIndicator.
  destruct c; simpl negb; simpl orb; simpl andb; cbv iota;
    [|now rewrite app_nil_r].
  destruct (wsIsOpen s) eqn:Hopen; simpl negb; cbv iota;
    [|now rewrite app_nil_r].
  destruct (b && (now - lastTypingSentRef s <? 1000));
    [now rewrite app_nil_r|].
  destruct (ws_send_open (set_lastTypingSentRef now s) Hopen) as [i [Hi Hs]].
  rewrite Hs. change (wsRef (set_lastTypingSentRef now s)) with (wsRef s) in Hi.
  rewrite Hi.
  destruct b, (typingTimeoutRef s) eqn:Ht; simpl; rewrite ?Ht; reflexivity.
Qed.

Lemma startRateLimitCountdown_keeps : forall n s,
  outbox (startRateLimitCountdown n s) = outbox s
  /\ error (startRateLimitCountdown n s) = error s
  /\ messages (startRateLimitCountdown n s) = messages s
  /\ sockets (startRateLimitCountdown n s) = sockets s
  /\ wsRef (startRateLimitCountdown n s) = wsRef s.
Proof.
  intros n s. unfold startRateLimitCountdown.
  destruct (rateLimitIntervalRef s); repeat split.
Qed.

(** The frames [handleSendMessage] sends. *)
Lemma handleSendMessage_outbox : forall (now : Z) (s : AppState),
  outbox (handleSendMessage now s)
  = outbox s ++ sendFrames (trim (messageInput s)) s.
Proof.
  intros now s.
  unfold handleSendMessage, sendFrames.
  destruct (isEmpty (trim (messageInput s))) eqn:Ht; simpl negb; simpl orb;
    simpl andb; cbv iota; [now rewrite app_nil_r|].
  destruct (isConnected s) eqn:Hc; simpl negb; simpl orb; simpl andb;
    cbv iota; [|now rewrite app_nil_r].
  destruct (wsIsOpen s) eqn:Ho; simpl negb; simpl andb; cbv iota;
    [|now rewrite app_nil_r].
  destruct (isRateLimited s) eqn:Hr; simpl negb; cbv iota;
    [simpl; now rewrite app_nil_r|].
  pose proof (sendTypingIndicator_frames true false now s) as F1.
  rewrite Ho in F1. simpl andb in F1. cbv iota in F1.
  destruct (sendTypingIndicator_cells true false now s)
    as (C1 & C2 & _ & _ & _ & _ & _ & _ & _ & _ & C11 & _).
  set (s1 := sendTypingIndicator true false now s) in *. clearbody s1.
  set (s2 := set_pendingMessageRef _ (setPendingMessage _ s1)).
  assert (O2 : wsIsOpen s2 = true).
  { rewrite <- Ho. apply wsIsOpen_same; assumption. }
  assert (E2 : outbox s2 = outbox s1) by reflexivity.
  assert (W2 : wsRef s2 = wsRef s) by exact C2.
  assert (R2 : startRateLimitCountdownRef s2 = startRateLimitCountdownRef s)
    by exact C11.
  clearbody s2.
  destruct (ws_send_open s2 O2) as [i [Hi Hs]]. rewrite Hs.
  rewrite W2 in Hi. rewrite Hi in *.
  set (s4 := setError [] (setMessageInput [] _)).
  assert (E4 : outbox s4
               = outbox s2 ++ [(i, MessageFrame (trim (messageInput s)))])
    by reflexivity.
  clearbody s4.
  assert (E5 : outbox (if startRateLimitCountdownRef s4
                       then startRateLimitCountdown 5 s4 else s4)
               = outbox s4).
  { destruct (startRateLimitCountdownRef s4); [|reflexivity].
    apply startRateLimitCountdown_keeps. }
  rewrite E5, E4, E2, F1, <- app_assoc. reflexivity.
Qed.

(** X5.  [handleSendMessage] puts on the wire exactly this: when the
    trimmed input is not empty, the client is connected, its socket is
    open and it is not rate-limited, the typing-stop frame followed by
    one message frame carrying the trimmed input; otherwise nothing.  So
    it never sends a blank or an untrimmed text, and never sends while
    rate-limited or without an open connection; and when the text is
    blank or there is no open connection it changes nothing at all. *)
Theorem handleSendMessage_frames : forall (now : Z) (s : AppState),
  outbox (handleSendMessage now s)
  = outbox s ++ sendFrames (trim (messageInput s)) s
  /\ (isEmpty (trim (messageInput s)) || negb (isConnected s)
      || negb (wsIsOpen s) = true ->
      handleSendMessage now s = s).
Proof.
  intros now s. split; [apply handleSendMessage_outbox|].
  intros H. unfold handleSendMessage. now rewrite H.
Qed.

(** X6.  Sending and being refused: when the send goes out, the input
    is emptied, the trimmed text is kept as the pending message and the
    error text is cleared; a [rate_limit] envelope handled after that
    puts the trimmed text back in the input, forgets the pending
    message and sends nothing. *)
Theorem send_then_rate_limit_restores_text :
  forall (s : AppState) (now now' : Z) (r : option Z),
    isConnected s = true -> wsIsOpen s = true -> isRateLimited s = false ->
    trim (messageInput s) <> [] ->
    let text := trim (messageInput s) in
    let sent := handleSendMessage now s in
    let back := handleWebSocketMessage (rate_limit r) now' sent in
    messageInput sent = []
    /\ pendingMessageRef sent = text
    /\ pendingMessage sent = text
    /\ error sent = []
    /\ messages sent = messages s
    /\ (startRateLimitCountdownRef s = true ->
        isRateLimited sent = true /\ rateLimitSeconds sent = 5)
    /\ messageInput back = text
    /\ pendingMessageRef back = []
    /\ pendingMessage back = []
    /\ outbox back = outbox sent.
Proof.
  intros s now now' r Hc Ho Hr Ht text sent back.
  assert (Hne : isEmpty text = false).
  { subst text. destruct (trim (messageInput s)); [now elim Ht | reflexivity]. }
  assert (Hsent : messageInput sent = [] /\ pendingMessageRef sent = text
                  /\ pendingMessage sent = text /\ error sent = []
                  /\ messages sent = messages s
                  /\ (startRateLimitCountdownRef s = true ->
                      isRateLimited sent = true /\ rateLimitSeconds sent = 5)).
  { subst sent. unfold handleSendMessage. fold text.
    rewrite Hne, Hc, Ho, Hr. simpl negb. simpl orb. cbv iota.
    destruct (sendTypingIndicator_cells true false now s)
      as (C1 & C2 & _ & C4 & _ & _ & _ & _ & _ & _ & C11 & _).
    set (s1 := sendTypingIndicator true false now s) in *. clearbody s1.
    set (s2 := set_pendingMessageRef text (setPendingMessage text s1)).
    assert (O2 : wsIsOpen s2 = true).
    { rewrite <- Ho. apply wsIsOpen_same; assumption. }
    assert (M2 : messages s2 = messages s) by exact C4.
    assert (P2 : pendingMessageRef s2 = text /\ pendingMessage s2 = text)
      by (split; reflexivity).
    assert (R2 : startRateLimitCountdownRef s2 = startRateLimitCountdownRef s)
      by exact C11.
    clearbody s2.
    destruct (ws_send_open s2 O2) as [i [_ Hs]]. rewrite Hs.
    set (s4 := setError [] (setMessageInput [] _)).
    assert (F4 : messageInput s4 = [] /\ pendingMessageRef s4 = text
                 /\ pendingMessage s4 = text /\ error s4 = []
                 /\ messages s4 = messages s
                 /\ startRateLimitCountdownRef s4
                    = startRateLimitCountdownRef s).
    { destruct P2. repeat split; assumption. }
    clearbody s4. destruct F4 as (F1 & F2 & F3 & F4 & F5 & F6).
    rewrite F6.
    destruct (startRateLimitCountdownRef s) eqn:Href.
    - destruct (startRateLimitCountdown_cells 5 s4)
        as (K1 & K2 & K3 & K4 & K5 & _).
      destruct (startRateLimitCountdown_keeps 5 s4) as (_ & L2 & L3 & _).
      rewrite K3, K4, K5, L2, L3. repeat split; assumption.
    - repeat split; try assumption; discriminate. }
  clearbody sent. destruct Hsent as (S1 & S2 & S3 & S4 & S5 & S6).
  destruct (handle_rate_limit_cells sent now' r) as (_ & _ & B3 & B4 & B5 & _).
  destruct (handleWebSocketMessage_cells (rate_limit r) now' sent)
    as (B1 & _).
  fold back in B1, B3, B4, B5. clearbody back.
  rewrite S2, Hne in B4, B5.
  repeat split; try assumption; now apply S6.
Qed.

(** X7.  A keystroke stores the new value as it is and puts at most one
    frame on the wire: a typing-start frame when the value is not blank,
    the client is not rate-limited and the last typing frame is at least
    1000 ms old; a typing-stop frame, at every keystroke, when the value
    is blank or the client is rate-limited; nothing without an open
    connection. *)
Theorem handleInputChange_frames :
  forall (value : jsstring) (now : Z) (s : AppState),
    messageInput (handleInputChange value now s) = value
    /\ outbox (handleInputChange value now s)
       = outbox s ++ keystrokeFrames value now s.
Proof.
  intros v now s. unfold handleInputChange, keystrokeFrames.
  set (s1 := setMessageInput v s).
  assert (M1 : messageInput s1 = v) by reflexivity.
  assert (O1 : outbox s1 = outbox s) by reflexivity.
  assert (W1 : wsIsOpen s1 = wsIsOpen s) by reflexivity.
  assert (R1 : wsRef s1 = wsRef s) by reflexivity.
  assert (L1 : lastTypingSentRef s1 = lastTypingSentRef s) by reflexivity.
  clearbody s1.
  split.
  - destruct (negb (isEmpty (trim v)) && negb (isRateLimited s));
      match goal with |- messageInput (sendTypingIndicator ?c ?b now s1) = v =>
        destruct (sendTypingIndicator_cells c b now s1) as (_ & _ & E & _);
        rewrite E; exact M1
      end.
  - destruct (negb (isEmpty (trim v)) && negb (isRateLimited s));
      rewrite sendTypingIndicator_frames, O1, W1, R1, L1;
      destruct (isConnected s), (wsIsOpen s); simpl andb; cbv iota;
      try reflexivity.
    destruct (wsRef s); [|destruct (now - lastTypingSentRef s <? 1000)];
      reflexivity.
Qed.

(** ** The countdown and the typing timer *)




Section Sessions.

Variable toUpperCase : jsstring -> jsstring.

(** Every render empties the queue of updaters. *)
Lemma Reachable_queue_empty : forall s,
  Reachable toUpperCase s -> mounted s = true -> queuedUpdaters s = [].
Proof.
  intros s R. destruct R as [|e s R]; [reflexivity|].
  unfold step. intros Hm.
  destruct (commit_cells (handle toUpperCase e s))
    as (_ & _ & _ & _ & _ & _ & _ & _ & _ & _ & _ & _ & _ & _ & _ & _ & _
        & _ & _ & _ & _ & C).
  rewrite C in Hm. unfold commit. rewrite Hm.
  apply (render_rest (handle toUpperCase e s)).
Qed.

(** What one queued [message] updater leaves after the render. *)
Lemma commit_one_updater : forall (name : jsstring) (h : AppState),
  mounted h = true -> queuedUpdaters h = [name] ->
  messageInput (commit h) = messageInput h
  /\ pendingMessageRef (commit h)
     = (if strictEq name (usernameRef h) then [] else pendingMessageRef h)
  /\ (strictEq name (usernameRef h) = false ->
      pendingMessage (commit h) = pendingMessage h).
Proof.
  intros name h Hm Hq. unfold commit, render. rewrite Hm, Hq. simpl fold_left.
  unfold settlePending.
  destruct (strictEq name (usernameRef h)); simpl andb; cbv iota.
  - destruct (pendingMessageRef h) eqn:Hp; simpl;
      (split; [reflexivity|]); (split; [try reflexivity; exact Hp|]);
      intros E; discriminate E.
  - repeat split.
Qed.

(** X8.  The echo of a message.  In a state the mounted component goes
    through, a [message] envelope whose id is not rendered yet never
    touches the input, neither when it is handled nor at the render
    that follows.  After that render, when the envelope's username is
    the one [usernameRef] holds the pending message is forgotten, so
    that a [rate_limit] envelope arriving then puts nothing back into
    the input; when the username is another one the pending message is
    kept. *)
Theorem own_echo_settles_pending :
  forall (s : AppState) (message_id : option MsgId)
         (name content timestamp : jsstring) (now now' : Z) (r : option Z),
    Reachable toUpperCase s -> mounted s = true ->
    ~ In (orFreshId message_id now) (map msg_id (messages s)) ->
    let handled :=
      handleWebSocketMessage (message message_id name content timestamp) now s in
    let s' := commit handled in
    messageInput handled = messageInput s
    /\ messageInput s' = messageInput s
    /\ (name = usernameRef s ->
        pendingMessageRef s' = []
        /\ messageInput (handleWebSocketMessage (rate_limit r) now' s')
           = messageInput s)
    /\ (name <> usernameRef s ->
        pendingMessageRef s' = pendingMessageRef s
        /\ pendingMessage s' = pendingMessage s).
Proof.
  intros s mid name content timestamp now now' r R Hm Hfresh handled s'.
  pose proof (Reachable_queue_empty s R Hm) as Hq.
  assert (Hh : hasId (orFreshId mid now) (messages s) = false).
  { destruct (hasId (orFreshId mid now) (messages s)) eqn:E; [|reflexivity].
    apply hasId_spec in E. contradiction. }
  assert (F : mounted handled = true /\ queuedUpdaters handled = [name]
              /\ usernameRef handled = usernameRef s
              /\ pendingMessageRef handled = pendingMessageRef s
              /\ pendingMessage handled = pendingMessage s
              /\ messageInput handled = messageInput s).
  { subst handled. unfold handleWebSocketMessage. rewrite Hh. simpl.
    rewrite Hq. repeat split. exact Hm. }
  clearbody handled. destruct F as (F1 & F2 & F3 & F4 & F5 & F6).
  destruct (commit_one_updater name handled F1 F2) as (C1 & C2 & C3).
  fold s' in C1, C2, C3. clearbody s'.
  rewrite F3, F4 in C2. rewrite F3, F5 in C3. rewrite F6 in C1.
  split; [exact F6|]. split; [exact C1|]. split.
  - intros Hown. rewrite Hown, strictEq_refl in C2. split; [exact C2|].
    destruct (handle_rate_limit_cells s' now' r) as (_ & _ & _ & B4 & _).
    rewrite B4, C2. simpl. exact C1.
  - intros Hother.
    assert (En : strictEq name (usernameRef s) = false).
    { destruct (strictEq name (usernameRef s)) eqn:En; [|reflexivity].
      apply strictEq_spec in En. contradiction. }
    rewrite En in C2. split; [exact C2 | now apply C3].
Qed.


(** X10.  A typing-start frame arms the automatic stop: in any state the
    component goes through, a typing-start call that sends its frame
    leaves exactly one typing timer pending, a timeout of 2000 ms named
    by [typingTimeoutRef]; when that timer is due, its callback sends
    the typing-stop frame on the same socket and no typing timer is left
    pending. *)
Theorem typing_start_arms_auto_stop :
  forall (s : AppState) (now later : Z),
    Reachable toUpperCase s -> wsIsOpen s = true ->
    1000 <= now - lastTypingSentRef s ->
    let started := sendTypingIndicator true true now s in
    let stop := mkTimer (nextTimerId s) (TypingTimer true) 2000 false in
    pending isTypingStop started = [stop]
    /\ typingTimeoutRef started = Some (nextTimerId s)
    /\ exists i, wsRef s = Some i
         /\ outbox started = outbox s ++ [(i, TypingFrame true)]
         /\ outbox (runTimer stop later started)
            = outbox s ++ [(i, TypingFrame true); (i, TypingFrame false)]
         /\ pending isTypingStop (runTimer stop later started) = [].
Proof.
  intros s now later R Hopen Hgap started stop.
  pose proof (Reachable_tracked toUpperCase s R) as H.
  assert (Hd : (now - lastTypingSentRef s <? 1000) = false)
    by (apply Z.ltb_ge; exact Hgap).
  destruct (ws_send_open (set_lastTypingSentRef now s) Hopen) as [i [Hi Hs]].
  change (wsRef (set_lastTypingSentRef now s)) with (wsRef s) in Hi.
  assert (Hst : started
                = set_typingTimeoutRef (Some (nextTimerId s))
                    (snd (setTimeout (TypingTimer true) 2000
                            (clearNamed (typingTimeoutRef s)
                               (set_outbox (outbox s ++ [(i, TypingFrame true)])
                                  (set_lastTypingSentRef now s)))))).
  { subst started. unfold sendTypingIndicator.
    rewrite Hopen, Hd, Hs. simpl. destruct (typingTimeoutRef s); reflexivity. }
  set (s2 := set_outbox (outbox s ++ [(i, TypingFrame true)])
               (set_lastTypingSentRef now s)) in Hst.
  assert (H2 : TimersTracked s2) by exact H.
  assert (O2 : outbox s2 = outbox s ++ [(i, TypingFrame true)]) by reflexivity.
  assert (W2 : wsIsOpen s2 = true) by exact Hopen.
  assert (R2 : wsRef s2 = Some i) by exact Hi.
  assert (T2 : typingTimeoutRef s2 = typingTimeoutRef s) by reflexivity.
  assert (N2 : nextTimerId s2 = nextTimerId s) by reflexivity.
  clearbody s2. rewrite <- T2 in Hst.
  pose proof (clearNamed_tracked (typingTimeoutRef s2) s2 H2) as H3.
  pose proof (clearNamed_own isTypingStop (typingTimeoutRef s2) s2
                (proj1 (proj2 (proj2 H2)))) as P3.
  assert (O3 : outbox (clearNamed (typingTimeoutRef s2) s2) = outbox s2)
    by (destruct (typingTimeoutRef s2); reflexivity).
  assert (W3 : wsIsOpen (clearNamed (typingTimeoutRef s2) s2) = true)
    by (destruct (typingTimeoutRef s2); exact W2).
  assert (R3 : wsRef (clearNamed (typingTimeoutRef s2) s2) = Some i)
    by (destruct (typingTimeoutRef s2); exact R2).
  assert (N3 : nextTimerId (clearNamed (typingTimeoutRef s2) s2)
               = nextTimerId s)
    by (destruct (typingTimeoutRef s2); exact N2).
  set (s3 := clearNamed (typingTimeoutRef s2) s2) in *. clearbody s3.
  assert (Pst : pending isTypingStop started = [stop]).
  { rewrite Hst. unfold pending in *. simpl. rewrite filter_app, P3, N3.
    reflexivity. }
  assert (Tst : typingTimeoutRef started = Some (nextTimerId s))
    by (rewrite Hst; reflexivity).
  assert (Ost : outbox started = outbox s ++ [(i, TypingFrame true)])
    by (rewrite Hst; simpl; congruence).
  assert (Wst : wsIsOpen started = true) by (rewrite Hst; exact W3).
  assert (Rst : wsRef started = Some i) by (rewrite Hst; exact R3).
  clear Hst. clearbody started.
  split; [exact Pst|]. split; [exact Tst|].
  exists i. split; [exact Hi|]. split; [exact Ost|].
  unfold runTimer. subst stop. simpl timerRepeats. cbv iota.
  simpl timerKind. cbv iota. simpl timerId.
  set (s4 := clearTimeout (nextTimerId s) started).
  assert (P4 : pending isTypingStop s4 = []).
  { unfold pending in *. subst s4. simpl. rewrite filter_swap, Pst. simpl.
    unfold keepsTimer. simpl. now rewrite Pos.eqb_refl. }
  assert (O4 : outbox s4 = outbox started) by reflexivity.
  assert (W4 : wsIsOpen s4 = true) by exact Wst.
  assert (R4 : wsRef s4 = Some i) by exact Rst.
  clearbody s4.
  split.
  - rewrite sendTypingIndicator_frames, W4, R4, O4, Ost, <- app_assoc.
    reflexivity.
  - unfold sendTypingIndicator. rewrite W4. simpl.
    destruct (ws_send_open (set_lastTypingSentRef later s4) W4) as [j [_ Hs4]].
    rewrite Hs4.
    match goal with |- pending _ (match ?r with _ => _ end) = [] =>
      change r with (typingTimeoutRef s4)
    end.
    destruct (typingTimeoutRef s4) as [t|].
    + unfold pending in *. simpl. rewrite filter_swap, P4. reflexivity.
    + exact P4.
Qed.

End Sessions.

(** ** Closing, leaving, unmounting and retrying *)

Lemma nth_error_updateNth : forall (A : Type) (f : A -> A) (l : list A) i,
  nth_error (updateNth i f l) i = option_map f (nth_error l i).
Proof.
  intros A f l. induction l as [|x l IH]; intros [|i]; simpl; auto.
Qed.

Lemma nth_error_updateNth_other : forall (A : Type) (f : A -> A) (l : list A) i j,
  i <> j -> nth_error (updateNth i f l) j = nth_error l j.
Proof.
  intros A f l. induction l as [|x l IH]; intros [|i] [|j] H; simpl; auto.
  congruence.
Qed.

(** After [close()] on the socket [wsRef] points to, that socket is not
    open any more. *)
Lemma ws_close_not_open : forall i s,
  wsRef s = Some i -> wsIsOpen (ws_close i s) = false.
Proof.
  intros i s Hw. unfold wsIsOpen, currentSocket, ws_close.
  change (wsRef (set_sockets (updateNth i closing (sockets s)) s))
    with (wsRef s).
  rewrite Hw. simpl sockets. rewrite nth_error_updateNth.
  destruct (nth_error (sockets s) i) as [w|]; [|reflexivity].
  cbn [option_map]. unfold closing.
  destruct (readyState w) eqn:Hr; cbn; rewrite ?Hr; reflexivity.
Qed.

Lemma clearNamed_session : forall ref s,
  sockets (clearNamed ref s) = sockets s /\ wsRef (clearNamed ref s) = wsRef s
  /\ outbox (clearNamed ref s) = outbox s.
Proof. intros [t|] s; repeat split. Qed.

(** The cleanup at unmount and the wire. *)
Lemma unmountCleanup_outbox : forall s : AppState,
  outbox (unmountCleanup s) = outbox s
  /\ wsIsOpen (unmountCleanup s) = false.
Proof.
  intros s. unfold unmountCleanup, clearInterval.
  set (s1 := if wsIsOpen s then _ else s).
  assert (H1 : outbox s1 = outbox s /\ wsIsOpen s1 = false).
  { subst s1. destruct (wsIsOpen s) eqn:Ho; [|now split].
    destruct (wsRef s) as [i|] eqn:Hw.
    - split; [reflexivity | now apply ws_close_not_open].
    - unfold wsIsOpen, currentSocket in Ho. rewrite Hw in Ho. discriminate. }
  clearbody s1. destruct H1 as [O1 W1].
  fold (clearNamed (reconnectTimeoutRef s1) s1).
  destruct (clearNamed_session (reconnectTimeoutRef s1) s1) as (A1 & A2 & A3).
  set (s2 := clearNamed (reconnectTimeoutRef s1) s1) in *. clearbody s2.
  fold (clearNamed (rateLimitIntervalRef s2) s2).
  destruct (clearNamed_session (rateLimitIntervalRef s2) s2) as (B1 & B2 & B3).
  set (s3 := clearNamed (rateLimitIntervalRef s2) s2) in *. clearbody s3.
  fold (clearNamed (typingTimeoutRef s3) s3).
  destruct (clearNamed_session (typingTimeoutRef s3) s3) as (C1 & C2 & C3).
  set (s4 := clearNamed (typingTimeoutRef s3) s3) in *. clearbody s4.
  assert (W4 : wsIsOpen s4 = false).
  { rewrite (wsIsOpen_same s3 s4 C1 C2), (wsIsOpen_same s2 s3 B1 B2),
      (wsIsOpen_same s1 s2 A1 A2). exact W1. }
  rewrite W4. split; [congruence | exact W4].
Qed.

(** X11.  The cleanup run at unmount never puts a frame on the wire: it
    asks an open socket to close first, so the stop-typing frame it
    means to send afterwards finds no open socket.  After it the
    current socket is not open. *)
Theorem unmount_sends_nothing : forall s : AppState,
  outbox (unmountCleanup s) = outbox s
  /\ wsIsOpen (unmountCleanup s) = false.
Proof. exact unmountCleanup_outbox. Qed.

(** Dropping the reconnect and the typing timers touches nothing but
    the timers and their two refs. *)
Lemma drops_session : forall s,
  let s' := dropTyping (dropReconnect s) in
  isConnected s' = isConnected s /\ messages s' = messages s
  /\ users s' = users s /\ typingUsers s' = typingUsers s
  /\ username s' = username s /\ groupId s' = groupId s
  /\ error s' = error s /\ wsRef s' = wsRef s
  /\ mounted s' = mounted s /\ messageInput s' = messageInput s
  /\ pendingMessageRef s' = pendingMessageRef s
  /\ isRateLimited s' = isRateLimited s
  /\ rateLimitSeconds s' = rateLimitSeconds s
  /\ outbox s' = outbox s /\ sockets s' = sockets s.
Proof.
  intros s s'. subst s'. unfold dropReconnect.
  destruct (reconnectTimeoutRef s) as [t|]; unfold dropTyping.
  - change (typingTimeoutRef (set_reconnectTimeoutRef None (clearTimeout t s)))
      with (typingTimeoutRef s).
    destruct (typingTimeoutRef s); repeat split.
  - destruct (typingTimeoutRef s); repeat split.
Qed.

(** What [handleDisconnect] leaves in the cells. *)
Lemma handleDisconnect_cells : forall s,
  let s' := handleDisconnect s in
  isConnected s' = false /\ messages s' = [] /\ users s' = []
  /\ typingUsers s' = [] /\ username s' = [] /\ groupId s' = []
  /\ error s' = [] /\ wsRef s' = None
  /\ mounted s' = mounted s
  /\ messageInput s' = messageInput s
  /\ pendingMessageRef s' = pendingMessageRef s
  /\ isRateLimited s' = isRateLimited s
  /\ rateLimitSeconds s' = rateLimitSeconds s
  /\ outbox s'
     = outbox s ++ (if wsIsOpen s
                    then match wsRef s with
                         | Some i => [(i, TypingFrame false)]
                         | None => []
                         end
                    else [])
  /\ (forall i, wsRef s = Some i ->
        nth_error (sockets s') i = option_map closing (nth_error (sockets s) i))
  /\ length (sockets s') = length (sockets s).
Proof.
  intros s s'. subst s'. unfold handleDisconnect.
  set (s1 := if wsIsOpen s then _ else s).
  assert (H1 : s1 = set_outbox
                      (outbox s ++ (if wsIsOpen s
                                    then match wsRef s with
                                         | Some i => [(i, TypingFrame false)]
                                         | None => []
                                         end
                                    else [])) s).
  { subst s1. destruct (wsIsOpen s) eqn:Ho.
    - destruct (ws_send_open s Ho) as [i [Hi Hs]]. now rewrite Hs, Hi.
    - rewrite app_nil_r. now destruct s. }
  clearbody s1. subst s1.
  set (o := outbox s ++ _).
  change (wsRef (set_outbox o s)) with (wsRef s).
  destruct (wsRef s) as [i|] eqn:Hw.
  - set (s2 := set_wsRef None (ws_close i (set_outbox o s))).
    assert (F2 : mounted s2 = mounted s /\ messageInput s2 = messageInput s
                 /\ pendingMessageRef s2 = pendingMessageRef s
                 /\ isRateLimited s2 = isRateLimited s
                 /\ rateLimitSeconds s2 = rateLimitSeconds s
                 /\ outbox s2 = o /\ wsRef s2 = None
                 /\ sockets s2 = updateNth i closing (sockets s))
      by (repeat split).
    clearbody s2. destruct F2 as (F1 & F2 & F3 & F4 & F5 & F6 & F7 & F8).
    set (s3 := setError [] _).
    assert (G : isConnected s3 = false /\ messages s3 = [] /\ users s3 = []
                /\ typingUsers s3 = [] /\ username s3 = [] /\ groupId s3 = []
                /\ error s3 = [] /\ wsRef s3 = None
                /\ mounted s3 = mounted s /\ messageInput s3 = messageInput s
                /\ pendingMessageRef s3 = pendingMessageRef s
                /\ isRateLimited s3 = isRateLimited s
                /\ rateLimitSeconds s3 = rateLimitSeconds s
                /\ outbox s3 = o
                /\ sockets s3 = updateNth i closing (sockets s))
      by (repeat split; assumption).
    clearbody s3.
    fold (dropReconnect s3). fold (dropTyping (dropReconnect s3)).
    destruct (drops_session s3)
      as (D1&D2&D3&D4&D5&D6&D7&D8&D9&D10&D11&D12&D13&D14&D15).
    destruct G as (G1&G2&G3&G4&G5&G6&G7&G8&G9&G10&G11&G12&G13&G14&G15).
    rewrite D1, D2, D3, D4, D5, D6, D7, D8, D9, D10, D11, D12, D13, D14, D15.
    rewrite G15. repeat split; auto.
    + intros j Hj. injection Hj as <-. apply nth_error_updateNth.
    + apply updateNth_length.
  - set (s3 := setError [] _).
    assert (G : isConnected s3 = false /\ messages s3 = [] /\ users s3 = []
                /\ typingUsers s3 = [] /\ username s3 = [] /\ groupId s3 = []
                /\ error s3 = [] /\ wsRef s3 = None
                /\ mounted s3 = mounted s /\ messageInput s3 = messageInput s
                /\ pendingMessageRef s3 = pendingMessageRef s
                /\ isRateLimited s3 = isRateLimited s
                /\ rateLimitSeconds s3 = rateLimitSeconds s
                /\ outbox s3 = o
                /\ sockets s3 = sockets s)
      by (repeat split; assumption).
    clearbody s3.
    fold (dropReconnect s3). fold (dropTyping (dropReconnect s3)).
    destruct (drops_session s3)
      as (D1&D2&D3&D4&D5&D6&D7&D8&D9&D10&D11&D12&D13&D14&D15).
    destruct G as (G1&G2&G3&G4&G5&G6&G7&G8&G9&G10&G11&G12&G13&G14&G15).
    rewrite D1, D2, D3, D4, D5, D6, D7, D8, D9, D10, D11, D12, D13, D14, D15.
    rewrite G15. repeat split; auto. discriminate.
Qed.

(** X12.  Leaving resets the session and only the session: the
    connection flag, the rendered messages, the user and typing lists,
    the username, the room id and the error text are emptied and
    [wsRef] is cleared; on an open connection exactly one frame, the
    typing-stop frame, goes out before the socket is asked to close;
    no socket is added; and the text in the message input, the pending
    message and the rate-limit state are left as they were. *)
Theorem handleDisconnect_resets_session : forall s : AppState,
  let s' := handleDisconnect s in
  isConnected s' = false /\ messages s' = [] /\ users s' = []
  /\ typingUsers s' = [] /\ username s' = [] /\ groupId s' = []
  /\ error s' = [] /\ wsRef s' = None
  /\ mounted s' = mounted s
  /\ messageInput s' = messageInput s
  /\ pendingMessageRef s' = pendingMessageRef s
  /\ isRateLimited s' = isRateLimited s
  /\ rateLimitSeconds s' = rateLimitSeconds s
  /\ outbox s'
     = outbox s ++ (if wsIsOpen s
                    then match wsRef s with
                         | Some i => [(i, TypingFrame false)]
                         | None => []
                         end
                    else [])
  /\ (forall i, wsRef s = Some i ->
        nth_error (sockets s') i = option_map closing (nth_error (sockets s) i))
  /\ length (sockets s') = length (sockets s).
Proof. exact handleDisconnect_cells. Qed.

Lemma closeErrorText_cells : forall code reason s,
  let s' := closeErrorText code reason s in
  isConnected s' = isConnected s /\ messages s' = messages s
  /\ users s' = users s /\ wsRef s' = wsRef s /\ username s' = username s
  /\ groupId s' = groupId s /\ outbox s' = outbox s /\ sockets s' = sockets s
  /\ mounted s' = mounted s
  /\ (code = 1000 -> error s' = [])
  /\ (code <> 1000 -> error s' <> [])
  /\ (code = 1008 -> reason <> [] -> error s' = reason).
Proof.
  intros code reason s s'. subst s'. unfold closeErrorText.
  destruct (code =? 1000) eqn:E0.
  { apply Z.eqb_eq in E0. repeat split; try congruence; lia. }
  apply Z.eqb_neq in E0.
  destruct (code =? 1006) eqn:E6.
  { apply Z.eqb_eq in E6. repeat split; try discriminate; lia. }
  destruct (code =? 1008) eqn:E8.
  { repeat split; try lia.
    - intros _. destruct reason; discriminate.
    - intros _ Hr. destruct reason; [congruence | reflexivity]. }
  apply Z.eqb_neq in E8.
  destruct (code =? 1011);
    [|destruct (negb (code =? 1000))]; repeat split;
    try discriminate; try lia; try congruence.
Qed.

(** What [ws.onclose] leaves in the cells. *)
Lemma ws_onclose_cells :
  forall (capturedGroupId : jsstring) (code : Z) (reason : jsstring)
         (s : AppState),
    let s' := ws_onclose capturedGroupId code reason s in
    isConnected s' = false
    /\ (code = 1000 <-> error s' = [])
    /\ (code = 1000 -> timers s' = timers s)
    /\ (code = 1008 -> reason <> [] -> error s' = reason)
    /\ messages s' = messages s /\ users s' = users s
    /\ wsRef s' = wsRef s /\ username s' = username s
    /\ groupId s' = groupId s /\ outbox s' = outbox s
    /\ sockets s' = sockets s.
Proof.
  intros g code reason s s'. subst s'. unfold ws_onclose.
  destruct (closeErrorText_cells code reason (setIsConnected false s))
    as (C1&C2&C3&C4&C5&C6&C7&C8&C9&C10&C11&C12).
  destruct (closeErrorText_same code reason (setIsConnected false s))
    as (T1 & _).
  set (s1 := closeErrorText code reason (setIsConnected false s)) in *.
  change (isConnected (setIsConnected false s)) with false in C1.
  change (messages (setIsConnected false s)) with (messages s) in C2.
  change (users (setIsConnected false s)) with (users s) in C3.
  change (wsRef (setIsConnected false s)) with (wsRef s) in C4.
  change (username (setIsConnected false s)) with (username s) in C5.
  change (groupId (setIsConnected false s)) with (groupId s) in C6.
  change (outbox (setIsConnected false s)) with (outbox s) in C7.
  change (sockets (setIsConnected false s)) with (sockets s) in C8.
  change (timers (setIsConnected false s)) with (timers s) in T1.
  clearbody s1.
  assert (Hiff : code = 1000 <-> error s1 = []).
  { split; [exact C10|]. intros E. destruct (Z.eq_dec code 1000); [assumption|].
    elim (C11 n E). }
  destruct (code =? 1000) eqn:E0; simpl negb; simpl andb; cbv iota.
  - repeat split; try assumption; tauto.
  - apply Z.eqb_neq in E0.
    destruct (negb (isEmpty (usernameRef s1)) && negb (isEmpty g));
      [destruct (reconnectTimeoutRef s1)|]; simpl;
      repeat split; try assumption; try tauto; try contradiction.
Qed.

(** X13.  A close event always lowers the connection flag and shows an
    error text exactly when the close code is not 1000 (for code 1008
    the server's reason, when it gives one); with code 1000 it schedules
    nothing.  Whatever the code, it keeps the rendered messages, the
    user list, [wsRef], the username and the room id, sends nothing and
    touches no socket: the session's view is only reset by leaving. *)
Theorem close_event_outcome :
  forall (capturedGroupId : jsstring) (code : Z) (reason : jsstring)
         (s : AppState),
    let s' := ws_onclose capturedGroupId code reason s in
    isConnected s' = false
    /\ (code = 1000 <-> error s' = [])
    /\ (code = 1000 -> timers s' = timers s)
    /\ (code = 1008 -> reason <> [] -> error s' = reason)
    /\ messages s' = messages s /\ users s' = users s
    /\ wsRef s' = wsRef s /\ username s' = username s
    /\ groupId s' = groupId s /\ outbox s' = outbox s
    /\ sockets s' = sockets s.
Proof. exact ws_onclose_cells. Qed.

Lemma connectWebSocket_cells : forall g u r s,
  let s' := connectWebSocket g u r s in
  error s' = [] /\ usernameRef s' = usernameRef s
  /\ nextTimerId s' = nextTimerId s /\ username s' = username s
  /\ mounted s' = mounted s /\ outbox s' = outbox s
  /\ isConnected s' = isConnected s.
Proof.
  intros g u r s s'. subst s'. unfold connectWebSocket.
  set (s1 := if wsIsOpen s then _ else s).
  assert (H1 : usernameRef s1 = usernameRef s /\ nextTimerId s1 = nextTimerId s
               /\ username s1 = username s /\ mounted s1 = mounted s
               /\ outbox s1 = outbox s /\ isConnected s1 = isConnected s).
  { subst s1. destruct (wsIsOpen s); [|repeat split].
    destruct (wsRef s); repeat split. }
  clearbody s1.
  destruct (reconnectTimeoutRef s1), (urlEncodes u r); simpl; tauto.
Qed.

Section Lifecycle.

Variable toUpperCase : jsstring -> jsstring.

Lemma pending_commit : forall k s, pending k (commit s) = pending k s.
Proof.
  intros k s. unfold pending.
  destruct (commit_cells s)
    as (_ & _ & _ & _ & _ & _ & _ & _ & _ & _ & _ & _ & _ & _ & _ & _ & _
        & _ & _ & C & _).
  now rewrite C.
Qed.

Lemma step_leave : forall s,
  mounted s = true -> isConnected s = true ->
  step toUpperCase LeaveClick s = commit (handleDisconnect s).
Proof.
  intros s Hm Hc. unfold step. f_equal.
  change (handle toUpperCase LeaveClick s)
    with (if mounted s && isConnected s then handleDisconnect s else s).
  now rewrite Hm, Hc.
Qed.

Lemma leave_outcome : forall s,
  TimersTracked s -> mounted s = true ->
  username (commit (handleDisconnect s)) = []
  /\ usernameRef (commit (handleDisconnect s)) = []
  /\ pending isReconnect (commit (handleDisconnect s)) = [].
Proof.
  intros s H Hm.
  destruct (handleDisconnect_cells s) as (_&_&_&_&D5&_&_&_&D9&_).
  destruct (handleDisconnect_spec s H) as (_ & P & _).
  revert D5 D9 P. generalize (handleDisconnect s). intros left D5 D9 P.
  rewrite pending_commit.
  destruct (commit_cells left) as (_ & C & _).
  rewrite commit_usernameRef by congruence. rewrite C.
  repeat split; assumption.
Qed.

(** X14.  Leaving ends the retry loop: after the Leave button is
    handled in a connected, mounted component, the username is empty,
    no reconnect timer is pending, and whatever event comes next (a
    close of any socket with any code included) leaves no reconnect
    timer pending. *)
Theorem leave_ends_retry_loop : forall s : AppState,
  Reachable toUpperCase s -> mounted s = true -> isConnected s = true ->
  let gone := step toUpperCase LeaveClick s in
  username gone = [] /\ usernameRef gone = []
  /\ pending isReconnect gone = []
  /\ forall e, pending isReconnect (step toUpperCase e gone) = [].
Proof.
  intros s R Hm Hc gone.
  assert (Rg : Reachable toUpperCase gone) by (now constructor).
  pose proof (Reachable_tracked toUpperCase gone Rg) as Tg.
  assert (Hg : username gone = [] /\ usernameRef gone = []
               /\ pending isReconnect gone = []).
  { subst gone. rewrite (step_leave s Hm Hc).
    apply leave_outcome; [exact (Reachable_tracked toUpperCase s R) | exact Hm]. }
  clearbody gone. destruct Hg as (G1 & G2 & G3).
  repeat split; try assumption.
  intros e.
  destruct (pending isReconnect (step toUpperCase e gone)) as [|t l] eqn:E;
    [reflexivity|].
  destruct (step_schedules_reconnect toUpperCase e gone t Tg)
    as (i & code & reason & w & _ & _ & _ & Hu & _).
  - rewrite E. now left.
  - rewrite G3. intros [].
  - contradiction.
Qed.

(** X15.  The retry loop: when a pending reconnect timer that remembers
    the room id [g] is due, its callback leaves no reconnect timer
    pending.  When the URL can be built from the remembered username
    and [g], it makes a new connecting socket for them, points [wsRef]
    to it and leaves the error text empty; and if that socket closes
    with a code other than 1000 while the username and [g] are
    non-empty, one reconnect timer of 3000 ms for the same [g] is
    pending again.  When the URL cannot be built (a lone surrogate in
    the remembered username), no socket is made, [wsRef] is as before
    and the error text is empty: the loop ends without a word. *)
Theorem reconnect_retries_same_room :
  forall (s : AppState) (t : Timer) (g : jsstring) (later : Z),
    Reachable toUpperCase s ->
    In t (timers s) -> timerKind t = ReconnectTimer g ->
    let retried := runTimer t later s in
    let i := length (sockets s) in
    pending isReconnect retried = []
    /\ reconnectTimeoutRef retried = None
    /\ error retried = []
    /\ (urlEncodes (usernameRef s) g = true ->
        nth_error (sockets retried) i
        = Some (mkSocket (usernameRef s) g g CONNECTING)
        /\ wsRef retried = Some i
        /\ forall code reason,
             code <> 1000 -> usernameRef s <> [] -> g <> [] ->
             pending isReconnect
               (step toUpperCase (SocketClose i code reason) retried)
             = [mkTimer (nextTimerId s) (ReconnectTimer g) 3000 false])
    /\ (urlEncodes (usernameRef s) g = false ->
        length (sockets retried) = length (sockets s)
        /\ wsRef retried = wsRef s).
Proof.
  intros s t g later R Hin Hk retried i.
  pose proof (Reachable_tracked toUpperCase s R) as H.
  assert (F : error retried = []
              /\ pending isReconnect retried = []
              /\ reconnectTimeoutRef retried = None
              /\ usernameRef retried = usernameRef s
              /\ nextTimerId retried = nextTimerId s
              /\ (urlEncodes (usernameRef s) g = true ->
                  nth_error (sockets retried) i
                  = Some (mkSocket (usernameRef s) g g CONNECTING)
                  /\ wsRef retried = Some i)
              /\ (urlEncodes (usernameRef s) g = false ->
                  length (sockets retried) = length (sockets s)
                  /\ wsRef retried = wsRef s)).
  { subst retried i. unfold runTimer. rewrite Hk.
    set (s1 := if timerRepeats t then s else clearTimeout (timerId t) s).
    assert (H1 : TimersTracked s1).
    { subst s1. destruct (timerRepeats t);
        [exact H | now apply TimersTracked_clearTimeout]. }
    assert (E1 : sockets s1 = sockets s /\ usernameRef s1 = usernameRef s
                 /\ nextTimerId s1 = nextTimerId s /\ wsRef s1 = wsRef s).
    { subst s1. destruct (timerRepeats t); repeat split. }
    clearbody s1. destruct E1 as (E1 & E2 & E3 & E4).
    unfold reconnectCallback.
    set (s2 := setError (js "Reconnecting...") s1).
    assert (H2 : TimersTracked s2) by exact H1.
    assert (F2 : sockets s2 = sockets s /\ usernameRef s2 = usernameRef s
                 /\ nextTimerId s2 = nextTimerId s /\ wsRef s2 = wsRef s)
      by (repeat split; assumption).
    clearbody s2. destruct F2 as (F1 & F2 & F3 & F4).
    destruct (connectWebSocket_tracked g (usernameRef s2) g s2 H2)
      as (_ & P2 & P3).
    destruct (connectWebSocket_cells g (usernameRef s2) g s2)
      as (C1 & C2 & C3 & _).
    pose proof (connectWebSocket_sockets g (usernameRef s2) g s2) as S.
    pose proof (connectWebSocket_throws g (usernameRef s2) g s2) as T.
    revert P2 P3 C1 C2 C3 S T.
    generalize (connectWebSocket g (usernameRef s2) g s2).
    intros s3 P2 P3 C1 C2 C3 S T.
    rewrite F1, F2, F4 in *.
    repeat split; try congruence.
    - now apply S.
    - now apply S.
    - now apply T.
    - now apply T. }
  clearbody retried. destruct F as (F3 & F4 & F5 & F6 & F7 & FS & FT).
  split; [exact F4|]. split; [exact F5|]. split; [exact F3|].
  split; [|exact FT].
  intros He. destruct (FS He) as [F1 F2].
  split; [exact F1|]. split; [exact F2|].
  intros code reason Hcode Hu Hg.
  unfold step. rewrite pending_commit. unfold handle. rewrite F1.
  simpl readyState. cbv iota. simpl ws_groupId.
  set (s3 := setReadyState i CLOSED retried).
  assert (G : usernameRef s3 = usernameRef s /\ nextTimerId s3 = nextTimerId s
              /\ pending isReconnect s3 = []
              /\ reconnectTimeoutRef s3 = None)
    by (repeat split; assumption).
  clearbody s3. destruct G as (G1 & G2 & G3 & G4).
  unfold ws_onclose.
  destruct (closeErrorText_same code reason (setIsConnected false s3))
    as (E1 & E2 & _ & _ & E5 & E6).
  set (s4 := closeErrorText code reason (setIsConnected false s3)) in *.
  change (timers (setIsConnected false s3)) with (timers s3) in E1.
  change (reconnectTimeoutRef (setIsConnected false s3))
    with (reconnectTimeoutRef s3) in E2.
  change (usernameRef (setIsConnected false s3)) with (usernameRef s3) in E5.
  change (nextTimerId (setIsConnected false s3)) with (nextTimerId s3) in E6.
  clearbody s4.
  assert (B1 : negb (code =? 1000) = true)
    by (apply negb_true_iff, Z.eqb_neq; exact Hcode).
  assert (B2 : negb (isEmpty (usernameRef s4)) = true).
  { rewrite E5, G1. destruct (usernameRef s); [congruence | reflexivity]. }
  assert (B3 : negb (isEmpty g) = true).
  { destruct g; [congruence | reflexivity]. }
  rewrite B1, B2, B3, E2, G4. simpl.
  unfold pending in *. simpl. rewrite filter_app, E1, G3, E6, G2. reflexivity.
Qed.

End Lifecycle.

(** ** The two versions on the same envelopes *)

Lemma filter_all : forall (A : Type) (f : A -> bool) (l : list A),
  (forall x, In x l -> f x = true) -> filter f l = l.
Proof.
  intros A f l. induction l as [|x l IH]; intros H; simpl; [reflexivity|].
  rewrite (H x (or_introl eq_refl)). f_equal. apply IH.
  intros y Hy. apply H. now right.
Qed.

Lemma filter_shorter : forall (A : Type) (f : A -> bool) (l : list A),
  (length (filter f l) <= length l)%nat.
Proof.
  intros A f l. induction l as [|x l IH]; simpl; [lia|].
  destruct (f x); simpl; lia.
Qed.

Lemma handle_rate_limit_view : forall r now s,
  messages (handleWebSocketMessage (rate_limit r) now s) = messages s
  /\ users (handleWebSocketMessage (rate_limit r) now s) = users s.
Proof.
  intros r now s. unfold handleWebSocketMessage.
  set (remaining := match r with Some x => if x =? 0 then 5 else x | None => 5 end).
  set (s1 := setIsRateLimited true (setRateLimitSeconds remaining s)).
  assert (E1 : messages s1 = messages s /\ users s1 = users s) by (now split).
  clearbody s1.
  set (s2 := if startRateLimitCountdownRef s1
             then startRateLimitCountdown remaining s1 else s1).
  assert (E2 : messages s2 = messages s /\ users s2 = users s).
  { subst s2. destruct (startRateLimitCountdownRef s1); [|exact E1].
    unfold startRateLimitCountdown. destruct (rateLimitIntervalRef s1); exact E1. }
  clearbody s2.
  match goal with |- context [negb (isEmpty ?p)] => destruct (negb (isEmpty p)) end;
    exact E2.
Qed.

(** X16.  The current handler against the earlier one, on the cells
    they share: after any envelope the two user lists are equal and the
    current rendered list is never longer than the earlier one's; and
    when the ids the envelope would render are not rendered yet, the two
    rendered lists are equal.  The versions differ only in what the
    current one leaves out as already rendered. *)
Theorem current_handler_agrees_with_earlier :
  forall (data : Envelope) (now : Z) (s : AppState),
    users (handleWebSocketMessage data now s)
    = users (LegacyView.handleWebSocketMessage data now s)
    /\ (length (messages (handleWebSocketMessage data now s))
        <= length (messages (LegacyView.handleWebSocketMessage data now s)))%nat
    /\ (unrendered data now s ->
        messages (handleWebSocketMessage data now s)
        = messages (LegacyView.handleWebSocketMessage data now s)).
Proof.
  intros data now s.
  destruct data as [t u|i n c t|[b|]|n t|n t|r|[l|]|t];
    try (repeat split; auto; fail).
  - unfold handleWebSocketMessage, LegacyView.handleWebSocketMessage, unrendered.
    destruct (hasId (orFreshId i now) (messages s)) eqn:Hh.
    + split; [reflexivity|]. split.
      * simpl. rewrite length_app. lia.
      * intros Hn. apply hasId_spec in Hh. contradiction.
    + repeat split; auto.
  - rewrite handle_batch_messages. split; [reflexivity|]. split.
    + simpl. rewrite !length_app.
      pose proof (filter_shorter _
                    (fun msg => negb (hasId (msg_id msg) (messages s)))
                    (map (renderWire now) b)). lia.
    + intros Hn. simpl. f_equal. apply filter_all.
      intros m Hm. apply in_map_iff in Hm as [w [<- Hw]].
      apply negb_true_iff.
      destruct (hasId (msg_id (renderWire now w)) (messages s)) eqn:Hh;
        [|reflexivity].
      apply hasId_spec in Hh. elim (Hn w Hw Hh).
  - destruct (handle_rate_limit_view r now s) as [M U].
    rewrite M, U. repeat split; auto.
Qed.

(** ** Canonical room ids *)

Lemma Forall_updateNth : forall (A : Type) (P : A -> Prop) (f : A -> A) l i,
  (forall x, P x -> P (f x)) -> Forall P l -> Forall P (updateNth i f l).
Proof.
  intros A P f l i Hf H. revert i.
  induction H as [|x l Hx H IH]; intros [|i]; simpl; constructor; auto.
Qed.

Lemma Forall_filter : forall (A : Type) (P : A -> Prop) (f : A -> bool) l,
  Forall P l -> Forall P (filter f l).
Proof.
  intros A P f l H. apply Forall_forall. intros x Hx.
  apply filter_In in Hx as [Hx _]. revert x Hx. now apply Forall_forall.
Qed.

Lemma Forall_firstn : forall (A : Type) (P : A -> Prop) n (l : list A),
  Forall P l -> Forall P (firstn n l).
Proof.
  intros A P n l H. revert n.
  induction H as [|x l Hx H IH]; intros [|n]; simpl; constructor; auto.
Qed.

Lemma canonicalSocket_closing : forall w,
  canonicalSocket w -> canonicalSocket (closing w).
Proof.
  intros w H. unfold closing. destruct (readyState w); exact H.
Qed.

Lemma Canonical_same : forall s s',
  groupId s' = groupId s -> sockets s' = sockets s -> timers s' = timers s ->
  Canonical s -> Canonical s'.
Proof. unfold Canonical. intros s s' -> -> ->. auto. Qed.

Lemma Canonical_clearTimeout : forall t s,
  Canonical s -> Canonical (clearTimeout t s).
Proof.
  intros t s (H1 & H2 & H3 & H4). repeat split; auto.
  simpl. now apply Forall_filter.
Qed.

Lemma Canonical_clearNamed : forall ref s,
  Canonical s -> Canonical (clearNamed ref s).
Proof.
  intros [t|] s H; simpl; [now apply Canonical_clearTimeout | assumption].
Qed.

Lemma Canonical_dropReconnect : forall s,
  Canonical s -> Canonical (dropReconnect s).
Proof.
  intros s H. unfold dropReconnect.
  destruct (reconnectTimeoutRef s) as [t|]; [|exact H].
  exact (Canonical_clearTimeout t s H).
Qed.

Lemma Canonical_dropTyping : forall s,
  Canonical s -> Canonical (dropTyping s).
Proof.
  intros s H. unfold dropTyping.
  destruct (typingTimeoutRef s) as [t|]; [|exact H].
  exact (Canonical_clearTimeout t s H).
Qed.

Lemma Canonical_ws_close : forall i s,
  Canonical s -> Canonical (ws_close i s).
Proof.
  intros i s (H1 & H2 & H3 & H4). repeat split; auto.
  simpl. apply Forall_updateNth; [apply canonicalSocket_closing | exact H3].
Qed.

Lemma Canonical_setReadyState : forall i r s,
  Canonical s -> Canonical (setReadyState i r s).
Proof.
  intros i r s (H1 & H2 & H3 & H4). repeat split; auto.
  simpl. apply Forall_updateNth; [|exact H3]. intros w Hw. exact Hw.
Qed.

Lemma Canonical_ws_send : forall f s s',
  ws_send f s = Some s' -> Canonical s -> Canonical s'.
Proof.
  intros f s s' Hs H. unfold ws_send in Hs.
  destruct (wsRef s); [|discriminate].
  destruct (nth_error (sockets s) n) as [w|]; [|discriminate].
  destruct (readyState w); try discriminate; injection Hs as <-; exact H.
Qed.

(** A new timer that is no reconnect timer. *)
Lemma Canonical_other_timer : forall s s' tm,
  groupId s' = groupId s -> sockets s' = sockets s ->
  timers s' = timers s ++ [tm] -> isReconnect (timerKind tm) = false ->
  Canonical s -> Canonical s'.
Proof.
  unfold Canonical. intros s s' tm -> -> -> Hk (H1 & H2 & H3 & H4).
  repeat split; auto. apply Forall_app. split; [assumption|].
  constructor; [|constructor]. unfold canonicalTimer.
  destruct (timerKind tm); [discriminate | exact I | exact I].
Qed.

Lemma Canonical_startRateLimitCountdown : forall n s,
  Canonical s -> Canonical (startRateLimitCountdown n s).
Proof.
  intros n s H. unfold startRateLimitCountdown, clearInterval.
  fold (clearNamed (rateLimitIntervalRef s) s).
  pose proof (Canonical_clearNamed (rateLimitIntervalRef s) s H) as H1.
  set (s1 := clearNamed (rateLimitIntervalRef s) s) in *. clearbody s1.
  apply (Canonical_other_timer s1 _
           (mkTimer (nextTimerId s1) RateLimitInterval 1000 true));
    auto.
Qed.

Lemma Canonical_rateLimitTick : forall s,
  Canonical s -> Canonical (rateLimitTick s).
Proof.
  intros s H. unfold rateLimitTick.
  destruct (rateLimitSeconds s <=? 1); [|exact H].
  change (rateLimitIntervalRef (setIsRateLimited false s))
    with (rateLimitIntervalRef s).
  destruct (rateLimitIntervalRef s) as [t|]; [|exact H].
  exact (Canonical_clearTimeout t s H).
Qed.

Lemma Canonical_handleWebSocketMessage : forall data now s,
  Canonical s -> Canonical (handleWebSocketMessage data now s).
Proof.
  intros data now s H. destruct data as [t u|i n c t|[b|]|n t|n t|r|[l|]|t];
    unfold handleWebSocketMessage; try exact H.
  - destruct (hasId (orFreshId i now) (messages s)); exact H.
  - set (remaining := match r with Some x => if x =? 0 then 5 else x | None => 5 end).
    set (s1 := setIsRateLimited true (setRateLimitSeconds remaining s)).
    assert (H1 : Canonical s1) by exact H.
    clearbody s1.
    set (s2 := if startRateLimitCountdownRef s1
               then startRateLimitCountdown remaining s1 else s1).
    assert (H2 : Canonical s2).
    { subst s2. destruct (startRateLimitCountdownRef s1); [|exact H1].
      now apply Canonical_startRateLimitCountdown. }
    clearbody s2.
    match goal with |- context [negb (isEmpty ?p)] => destruct (negb (isEmpty p)) end;
      exact H2.
Qed.

Lemma Canonical_connectWebSocket : forall g u s,
  canonicalRoom g -> Canonical s -> Canonical (connectWebSocket g u g s).
Proof.
  intros g u s Hg H. unfold connectWebSocket.
  set (s1 := if wsIsOpen s then _ else s).
  assert (H1 : Canonical s1).
  { subst s1. destruct (wsIsOpen s); [|exact H].
    destruct (wsRef s); [now apply Canonical_ws_close | exact H]. }
  clearbody s1. fold (dropReconnect s1).
  pose proof (Canonical_dropReconnect s1 H1) as H2.
  set (s2 := dropReconnect s1) in *. clearbody s2.
  destruct (urlEncodes u g); [|exact H2].
  destruct H2 as (A1 & A2 & A3 & A4). repeat split; auto.
  simpl. apply Forall_app. split; [assumption|].
  constructor; [|constructor]. split; [reflexivity | exact Hg].
Qed.

Lemma Canonical_ws_onopen : forall s, Canonical s -> Canonical (ws_onopen s).
Proof.
  intros s H. exact (Canonical_dropReconnect (setError [] (setIsConnected true s)) H).
Qed.

Lemma Canonical_ws_onclose : forall g code reason s,
  canonicalRoom g -> Canonical s -> Canonical (ws_onclose g code reason s).
Proof.
  intros g code reason s Hg H. unfold ws_onclose.
  destruct (closeErrorText_cells code reason (setIsConnected false s))
    as (_&_&_&_&_&C6&_&C8&_).
  destruct (closeErrorText_same code reason (setIsConnected false s))
    as (T1 & _).
  set (s1 := closeErrorText code reason (setIsConnected false s)) in *.
  assert (H1 : Canonical s1).
  { apply (Canonical_same (setIsConnected false s)); auto. }
  clearbody s1.
  destruct (negb (code =? 1000) && negb (isEmpty (usernameRef s1))
            && negb (isEmpty g)); [|exact H1].
  destruct (reconnectTimeoutRef s1); [exact H1|].
  destruct H1 as (A1 & A2 & A3 & A4). repeat split; auto.
  simpl. apply Forall_app. split; [assumption|].
  constructor; [exact Hg | constructor].
Qed.

Lemma Canonical_reconnectCallback : forall g s,
  canonicalRoom g -> Canonical s -> Canonical (reconnectCallback g s).
Proof.
  intros g s Hg H. unfold reconnectCallback.
  now apply Canonical_connectWebSocket.
Qed.

Lemma Canonical_sendTypingIndicator : forall c isTyping now s,
  Canonical s -> Canonical (sendTypingIndicator c isTyping now s).
Proof.
  intros c b now s H. unfold sendTypingIndicator.
  destruct (negb c || negb (wsIsOpen s)); [exact H|].
  destruct (b && (now - lastTypingSentRef s <? 1000)); [exact H|].
  destruct (ws_send (TypingFrame b) (set_lastTypingSentRef now s)) as [s2|] eqn:Hs;
    [|exact H].
  assert (H2 : Canonical s2) by (eapply Canonical_ws_send; [exact Hs | exact H]).
  clear Hs. fold (clearNamed (typingTimeoutRef s2) s2).
  pose proof (Canonical_clearNamed (typingTimeoutRef s2) s2 H2) as H3.
  set (s3 := clearNamed (typingTimeoutRef s2) s2) in *. clearbody s3.
  destruct b; [|exact H3].
  apply (Canonical_other_timer s3 _
           (mkTimer (nextTimerId s3) (TypingTimer c) 2000 false)); auto.
Qed.

Lemma Canonical_handleSendMessage : forall now s,
  Canonical s -> Canonical (handleSendMessage now s).
Proof.
  intros now s H. unfold handleSendMessage.
  destruct (isEmpty (trim (messageInput s)) || negb (isConnected s)
            || negb (wsIsOpen s)); [exact H|].
  destruct (isRateLimited s); [exact H|].
  pose proof (Canonical_sendTypingIndicator (isConnected s) false now s H) as H1.
  set (s1 := sendTypingIndicator (isConnected s) false now s) in *.
  clearbody s1.
  set (s2 := set_pendingMessageRef _ (setPendingMessage _ s1)).
  assert (H2 : Canonical s2) by exact H1.
  clearbody s2.
  destruct (ws_send (MessageFrame (trim (messageInput s))) s2) as [s3|] eqn:Hs.
  - assert (H3 : Canonical s3) by (eapply Canonical_ws_send; eauto).
    clear Hs.
    change (startRateLimitCountdownRef (setError [] (setMessageInput [] s3)))
      with (startRateLimitCountdownRef s3).
    destruct (startRateLimitCountdownRef s3); [|exact H3].
    apply Canonical_startRateLimitCountdown. exact H3.
  - match goal with |- context [negb (isEmpty ?p)] => destruct (negb (isEmpty p)) end;
      exact H2.
Qed.

Lemma Canonical_handleInputChange : forall v now s,
  Canonical s -> Canonical (handleInputChange v now s).
Proof.
  intros v now s H. unfold handleInputChange.
  destruct (negb (isEmpty (trim v)) && negb (isRateLimited s));
    apply Canonical_sendTypingIndicator; exact H.
Qed.

Lemma Canonical_handleDisconnect : forall s,
  Canonical s -> Canonical (handleDisconnect s).
Proof.
  intros s H. unfold handleDisconnect.
  set (s1 := if wsIsOpen s then _ else s).
  assert (H1 : Canonical s1).
  { subst s1. destruct (wsIsOpen s); [|exact H].
    destruct (ws_send (TypingFrame false) s) eqn:Hs; [|exact H].
    eapply Canonical_ws_send; eauto. }
  clearbody s1.
  set (s2 := match wsRef s1 with Some i => _ | None => s1 end).
  assert (H2 : Canonical s2).
  { subst s2. destruct (wsRef s1); [|exact H1].
    exact (Canonical_ws_close n s1 H1). }
  clearbody s2.
  set (s3 := setError [] _).
  assert (H3 : Canonical s3).
  { destruct H2 as (A1 & A2 & A3 & A4). repeat split; auto.
    - constructor.
    - simpl. lia. }
  clearbody s3.
  fold (dropReconnect s3). fold (dropTyping (dropReconnect s3)).
  apply Canonical_dropTyping, Canonical_dropReconnect. exact H3.
Qed.

Lemma Canonical_unmountCleanup : forall s,
  Canonical s -> Canonical (unmountCleanup s).
Proof.
  intros s H. unfold unmountCleanup, clearInterval.
  set (s1 := if wsIsOpen s then _ else s).
  assert (H1 : Canonical s1).
  { subst s1. destruct (wsIsOpen s); [|exact H].
    destruct (wsRef s); [now apply Canonical_ws_close | exact H]. }
  clearbody s1.
  fold (clearNamed (reconnectTimeoutRef s1) s1).
  pose proof (Canonical_clearNamed (reconnectTimeoutRef s1) s1 H1) as H2.
  set (s2 := clearNamed (reconnectTimeoutRef s1) s1) in *. clearbody s2.
  fold (clearNamed (rateLimitIntervalRef s2) s2).
  pose proof (Canonical_clearNamed (rateLimitIntervalRef s2) s2 H2) as H3.
  set (s3 := clearNamed (rateLimitIntervalRef s2) s2) in *. clearbody s3.
  fold (clearNamed (typingTimeoutRef s3) s3).
  pose proof (Canonical_clearNamed (typingTimeoutRef s3) s3 H3) as H4.
  set (s4 := clearNamed (typingTimeoutRef s3) s3) in *. clearbody s4.
  destruct (wsIsOpen s4); [|exact H4].
  destruct (ws_send (TypingFrame false) s4) as [s5|] eqn:Hs; [|exact H4].
  eapply Canonical_ws_send; eauto.
Qed.

Lemma Canonical_runTimer : forall tm now s,
  In tm (timers s) -> Canonical s -> Canonical (runTimer tm now s).
Proof.
  intros tm now s Hin H. unfold runTimer.
  assert (Htm : canonicalTimer tm).
  { destruct H as (_ & _ & _ & H4).
    exact (proj1 (Forall_forall _ _) H4 tm Hin). }
  set (s1 := if timerRepeats tm then s else clearTimeout (timerId tm) s).
  assert (H1 : Canonical s1).
  { subst s1. destruct (timerRepeats tm);
      [exact H | now apply Canonical_clearTimeout]. }
  clearbody s1. unfold canonicalTimer in Htm.
  destruct (timerKind tm).
  - now apply Canonical_reconnectCallback.
  - now apply Canonical_rateLimitTick.
  - now apply Canonical_sendTypingIndicator.
Qed.

Lemma Canonical_commit : forall s, Canonical s -> Canonical (commit s).
Proof.
  intros s H.
  destruct (commit_cells s)
    as (_ & _ & C1 & _ & _ & _ & _ & _ & _ & _ & _ & _ & _ & _ & _ & _ & _
        & C2 & _ & C3 & _).
  now apply (Canonical_same s).
Qed.

Lemma Canonical_initialState : Canonical initialState.
Proof. repeat split; simpl; try constructor. lia. Qed.

Lemma trimStart_fixed : forall x,
  (forall c, In c x -> isWhiteSpace c = false) -> trimStart x = x.
Proof.
  intros [|c x] H; [reflexivity|]. simpl.
  now rewrite (H c (or_introl eq_refl)).
Qed.

Lemma upperAlnum_not_space : forall c,
  isUpperAlnum c = true -> isWhiteSpace c = false.
Proof.
  intros c H. unfold isUpperAlnum in H. unfold isWhiteSpace.
  apply orb_true_iff in H.
  repeat rewrite orb_false_iff.
  destruct H as [H | H]; apply andb_true_iff in H as [H1 H2];
    apply N.leb_le in H1, H2;
    repeat split; try (apply N.eqb_neq; lia);
    apply andb_false_iff; left; apply N.leb_gt; lia.
Qed.

Lemma trim_upperAlnum : forall x, upperAlnum x -> trim x = x.
Proof.
  intros x H. unfold trim, trimEnd.
  assert (Hs : forall c, In c x -> isWhiteSpace c = false).
  { intros c Hc. apply upperAlnum_not_space.
    exact (proj1 (Forall_forall _ _) H c Hc). }
  rewrite (trimStart_fixed x Hs).
  rewrite trimStart_fixed; [apply rev_involutive|].
  intros c Hc. apply Hs. now apply in_rev.
Qed.

Lemma strip_upperAlnum : forall x, upperAlnum x -> stripNonUpperAlnum x = x.
Proof.
  intros x H. apply filter_all. intros c Hc.
  exact (proj1 (Forall_forall _ _) H c Hc).
Qed.

Lemma asciiToUpperCase_fixes : forall x,
  upperAlnum x -> asciiToUpperCase x = x.
Proof.
  intros x H. induction H as [|c x Hc H IH]; [reflexivity|].
  unfold asciiToUpperCase in *. simpl. rewrite IH. f_equal.
  unfold isUpperAlnum in Hc.
  destruct ((97 <=? c) && (c <=? 122))%N eqn:E; [|reflexivity].
  apply andb_true_iff in E as [E1 E2]. apply N.leb_le in E1, E2.
  apply orb_true_iff in Hc.
  destruct Hc as [Hc | Hc]; apply andb_true_iff in Hc as [H1 H2];
    apply N.leb_le in H1, H2; lia.
Qed.

Section CanonicalRooms.

Variable toUpperCase : jsstring -> jsstring.

(** JavaScript's [toUpperCase] leaves the characters A-Z and 0-9 as
    they are. *)
Hypothesis toUpperCase_fixes : forall x, upperAlnum x -> toUpperCase x = x.

Lemma Canonical_handleGroupIdChange : forall v s,
  Canonical s -> Canonical (handleGroupIdChange toUpperCase v s).
Proof.
  intros v s (H1 & H2 & H3 & H4). unfold handleGroupIdChange.
  split; [|split; [|split; assumption]].
  - change (upperAlnum (slice0 5 (stripNonUpperAlnum (toUpperCase v)))).
    unfold slice0, upperAlnum. apply Forall_firstn.
    apply Forall_forall. intros c Hc.
    now apply stripNonUpperAlnum_class in Hc.
  - change (length (slice0 5 (stripNonUpperAlnum (toUpperCase v))) <= 5)%nat.
    unfold slice0. rewrite length_firstn. lia.
Qed.

Lemma Canonical_handleJoin : forall s,
  Canonical s -> Canonical (handleJoin toUpperCase s).
Proof.
  intros s H. unfold handleJoin.
  destruct (isEmpty (trim (username s))); [exact H|].
  destruct H as (H1 & H2 & H3 & H4).
  rewrite (trim_upperAlnum _ H1), (toUpperCase_fixes _ H1),
    (strip_upperAlnum _ H1).
  destruct (length (groupId s) =? 5)%nat eqn:E; simpl negb; cbv iota.
  - apply Nat.eqb_eq in E.
    set (s1 := setGroupId (groupId s) s).
    assert (C1 : Canonical s1) by (repeat split; assumption).
    clearbody s1.
    apply Canonical_connectWebSocket; [|exact C1]. now split.
  - repeat split; assumption.
Qed.

Lemma Canonical_handle : forall e s,
  Canonical s -> Canonical (handle toUpperCase e s).
Proof.
  intros e s H. destruct e; unfold handle.
  - destruct (mounted s && negb (isConnected s)); exact H.
  - destruct (mounted s && negb (isConnected s));
      [now apply Canonical_handleGroupIdChange | exact H].
  - destruct (mounted s && negb (isConnected s));
      [now apply Canonical_handleJoin | exact H].
  - destruct (mounted s && isConnected s);
      [now apply Canonical_handleInputChange | exact H].
  - destruct (mounted s && isConnected s);
      [now apply Canonical_handleSendMessage | exact H].
  - destruct (mounted s && isConnected s);
      [now apply Canonical_handleDisconnect | exact H].
  - destruct (nth_error (sockets s) i) as [w|]; [|exact H].
    destruct (readyState w); try exact H.
    apply Canonical_ws_onopen. now apply Canonical_setReadyState.
  - destruct (nth_error (sockets s) i) as [w|]; [|exact H].
    destruct (readyState w); try exact H;
      (destruct data as [d|]; [|exact H]; unfold ws_onmessage;
       destruct (handleWebSocketMessageRef s); [|exact H];
       now apply Canonical_handleWebSocketMessage).
  - destruct (nth_error (sockets s) i); exact H.
  - destruct (nth_error (sockets s) i) as [w|] eqn:Hw; [|exact H].
    assert (Hg : canonicalRoom (ws_groupId w)).
    { destruct H as (_ & _ & H3 & _).
      destruct (proj1 (Forall_forall _ _) H3 w (nth_error_In _ _ Hw))
        as [E C]. now rewrite <- E. }
    destruct (readyState w); try exact H;
      (apply Canonical_ws_onclose; [exact Hg|];
       now apply Canonical_setReadyState).
  - destruct (find (fun x => Pos.eqb (timerId x) t) (timers s)) as [tm|] eqn:Hf;
      [|exact H].
    apply Canonical_runTimer; [|exact H].
    apply find_some in Hf. tauto.
  - destruct (mounted s); [|exact H].
    pose proof (Canonical_unmountCleanup s H) as H1.
    set (s1 := unmountCleanup s) in *. clearbody s1. exact H1.
Qed.

Lemma Reachable_canonical : forall s,
  Reachable toUpperCase s -> Canonical s.
Proof.
  intros s R. induction R as [|e s R IH].
  - exact Canonical_initialState.
  - unfold step. apply Canonical_commit. now apply Canonical_handle.
Qed.

(** X17.  Room ids stay canonical.  With a [toUpperCase] that leaves the
    characters A-Z and 0-9 as they are, in every state the component
    goes through: the room id cell holds at most five characters, all
    in A-Z or 0-9; every socket ever made, by joining or by
    reconnecting, addresses a room id of exactly five characters in A-Z
    or 0-9, the one its handlers remember; and every pending reconnect
    timer remembers such a room id. *)
Theorem rooms_stay_canonical : forall s : AppState,
  Reachable toUpperCase s ->
  upperAlnum (groupId s)
  /\ (length (groupId s) <= 5)%nat
  /\ (forall w, In w (sockets s) ->
        ws_group w = ws_groupId w
        /\ length (ws_group w) = 5%nat /\ upperAlnum (ws_group w))
  /\ (forall t g, In t (timers s) -> timerKind t = ReconnectTimer g ->
        length g = 5%nat /\ upperAlnum g).
Proof.
  intros s R. destruct (Reachable_canonical s R) as (H1 & H2 & H3 & H4).
  split; [exact H1|]. split; [exact H2|]. split.
  - intros w Hw.
    destruct (proj1 (Forall_forall _ _) H3 w Hw) as [E [L U]]. auto.
  - intros t g Ht Hk.
    pose proof (proj1 (Forall_forall _ _) H4 t Ht) as C.
    unfold canonicalTimer in C. rewrite Hk in C. exact C.
Qed.

End CanonicalRooms.

(** ** Which events put a message on the wire *)

Lemma Chatter_refl : forall s, Chatter s s.
Proof. intros s. exists []. split; [now rewrite app_nil_r | constructor]. Qed.

Lemma Chatter_same : forall s s', outbox s' = outbox s -> Chatter s s'.
Proof.
  intros s s' H. exists []. split; [now rewrite app_nil_r | constructor].
Qed.

Lemma Chatter_trans : forall s1 s2 s3,
  Chatter s1 s2 -> Chatter s2 s3 -> Chatter s1 s3.
Proof.
  intros s1 s2 s3 [f1 [E1 T1]] [f2 [E2 T2]]. exists (f1 ++ f2). split.
  - now rewrite E2, E1, app_assoc.
  - apply Forall_app. now split.
Qed.

Lemma Chatter_sendTypingIndicator : forall c isTyping now s,
  Chatter s (sendTypingIndicator c isTyping now s).
Proof.
  intros c b now s. eexists. split; [apply sendTypingIndicator_frames|].
  destruct (c && wsIsOpen s); [|constructor].
  destruct (b && (now - lastTypingSentRef s <? 1000)); [constructor|].
  destruct (wsRef s); repeat constructor.
Qed.

Lemma Chatter_handleWebSocketMessage : forall data now s,
  Chatter s (handleWebSocketMessage data now s).
Proof.
  intros data now s. apply Chatter_same.
  apply (handleWebSocketMessage_cells data now s).
Qed.

Lemma Chatter_connectWebSocket : forall g u r s,
  Chatter s (connectWebSocket g u r s).
Proof.
  intros g u r s. apply Chatter_same.
  apply (connectWebSocket_cells g u r s).
Qed.

Lemma Chatter_ws_onopen : forall s, Chatter s (ws_onopen s).
Proof.
  intros s. apply Chatter_same. unfold ws_onopen.
  set (s1 := setError [] (setIsConnected true s)).
  assert (E : outbox s1 = outbox s) by reflexivity. clearbody s1.
  destruct (reconnectTimeoutRef s1); exact E.
Qed.

Lemma Chatter_ws_onclose : forall g code reason s,
  Chatter s (ws_onclose g code reason s).
Proof.
  intros g code reason s. apply Chatter_same.
  apply (ws_onclose_cells g code reason s).
Qed.

Lemma Chatter_rateLimitTick : forall s, Chatter s (rateLimitTick s).
Proof.
  intros s. apply Chatter_same. unfold rateLimitTick.
  destruct (rateLimitSeconds s <=? 1); [|reflexivity].
  change (rateLimitIntervalRef (setIsRateLimited false s))
    with (rateLimitIntervalRef s).
  destruct (rateLimitIntervalRef s); reflexivity.
Qed.

Lemma Chatter_runTimer : forall tm now s, Chatter s (runTimer tm now s).
Proof.
  intros tm now s. unfold runTimer.
  set (s1 := if timerRepeats tm then s else clearTimeout (timerId tm) s).
  assert (C1 : Chatter s s1).
  { apply Chatter_same. subst s1. destruct (timerRepeats tm); reflexivity. }
  clearbody s1. apply (Chatter_trans s s1); [exact C1|].
  destruct (timerKind tm).
  - unfold reconnectCallback.
    set (s2 := setError (js "Reconnecting...") s1).
    assert (C2 : Chatter s1 s2) by now apply Chatter_same.
    clearbody s2.
    apply (Chatter_trans s1 s2); [exact C2 | apply Chatter_connectWebSocket].
  - apply Chatter_rateLimitTick.
  - apply Chatter_sendTypingIndicator.
Qed.

Lemma Chatter_handleInputChange : forall v now s,
  Chatter s (handleInputChange v now s).
Proof.
  intros v now s. unfold handleInputChange.
  set (s1 := setMessageInput v s).
  assert (C1 : Chatter s s1) by now apply Chatter_same.
  clearbody s1. apply (Chatter_trans s s1); [exact C1|].
  destruct (negb (isEmpty (trim v)) && negb (isRateLimited s));
    apply Chatter_sendTypingIndicator.
Qed.

Lemma Chatter_handleDisconnect : forall s, Chatter s (handleDisconnect s).
Proof.
  intros s. eexists. split.
  - apply (handleDisconnect_cells s).
  - destruct (wsIsOpen s); [|constructor].
    destruct (wsRef s); repeat constructor.
Qed.

Lemma Chatter_unmountCleanup : forall s, Chatter s (unmountCleanup s).
Proof. intros s. apply Chatter_same. apply unmountCleanup_outbox. Qed.

Lemma Chatter_commit : forall s, Chatter s (commit s).
Proof.
  intros s. apply Chatter_same. apply (commit_cells s).
Qed.

Section Wire.

Variable toUpperCase : jsstring -> jsstring.

Lemma Chatter_handleJoin : forall s, Chatter s (handleJoin toUpperCase s).
Proof.
  intros s. unfold handleJoin.
  destruct (isEmpty (trim (username s))); [now apply Chatter_same|].
  match goal with |- context [negb ?b] => destruct (negb b) end;
    [now apply Chatter_same|].
  match goal with |- Chatter s (connectWebSocket ?g ?u ?r ?x) =>
    set (s1 := x); assert (C1 : Chatter s s1) by (now apply Chatter_same);
    clearbody s1; apply (Chatter_trans s s1);
    [exact C1 | apply Chatter_connectWebSocket]
  end.
Qed.

Lemma Chatter_handle : forall e s,
  (forall now, e <> SendSubmit now) -> Chatter s (handle toUpperCase e s).
Proof.
  intros e s Hne. destruct e; unfold handle.
  - destruct (mounted s && negb (isConnected s));
      [now apply Chatter_same | apply Chatter_refl].
  - destruct (mounted s && negb (isConnected s));
      [now apply Chatter_same | apply Chatter_refl].
  - destruct (mounted s && negb (isConnected s));
      [apply Chatter_handleJoin | apply Chatter_refl].
  - destruct (mounted s && isConnected s);
      [apply Chatter_handleInputChange | apply Chatter_refl].
  - elim (Hne now). reflexivity.
  - destruct (mounted s && isConnected s);
      [apply Chatter_handleDisconnect | apply Chatter_refl].
  - destruct (nth_error (sockets s) i) as [w|]; [|apply Chatter_refl].
    destruct (readyState w); try apply Chatter_refl.
    set (s1 := setReadyState i OPEN s).
    assert (C1 : Chatter s s1) by now apply Chatter_same.
    clearbody s1.
    apply (Chatter_trans s s1); [exact C1 | apply Chatter_ws_onopen].
  - destruct (nth_error (sockets s) i) as [w|]; [|apply Chatter_refl].
    destruct (readyState w); try apply Chatter_refl;
      (destruct data as [d|]; [|apply Chatter_refl]; unfold ws_onmessage;
       destruct (handleWebSocketMessageRef s); [|apply Chatter_refl];
       apply Chatter_handleWebSocketMessage).
  - destruct (nth_error (sockets s) i); apply Chatter_refl.
  - destruct (nth_error (sockets s) i) as [w|]; [|apply Chatter_refl].
    destruct (readyState w); try apply Chatter_refl;
      (match goal with |- Chatter s (ws_onclose ?g ?c ?r ?x) =>
         set (s1 := x); assert (C1 : Chatter s s1) by (now apply Chatter_same);
         clearbody s1; apply (Chatter_trans s s1);
         [exact C1 | apply Chatter_ws_onclose]
       end).
  - destruct (find (fun x => Pos.eqb (timerId x) t) (timers s));
      [apply Chatter_runTimer | apply Chatter_refl].
  - destruct (mounted s); [|apply Chatter_refl].
    pose proof (Chatter_unmountCleanup s) as C1.
    set (s1 := unmountCleanup s) in *. clearbody s1.
    apply (Chatter_trans s s1); [exact C1 | now apply Chatter_same].
Qed.

Lemma outbox_commit : forall s, outbox (commit s) = outbox s.
Proof. intros s. apply (commit_cells s). Qed.

(** X18.  What an event puts on the wire.  Every event only adds frames
    to the ones already sent.  A message frame is added by the
    submission of the message form only, and then: the component is
    mounted and connected, its socket is open, it is not rate-limited,
    the text is the trimmed input and is not empty, and the frames added
    are the typing-stop frame and that one message frame.  No envelope,
    timer, socket event, keystroke, join, leave or unmount ever sends a
    message: the client never sends a message again on its own. *)
Theorem message_frames_only_from_send : forall (e : Event) (s : AppState),
  exists fs,
    outbox (step toUpperCase e s) = outbox s ++ fs
    /\ forall i text,
         In (i, MessageFrame text) fs ->
         exists now,
           e = SendSubmit now
           /\ mounted s = true /\ isConnected s = true
           /\ wsIsOpen s = true /\ isRateLimited s = false
           /\ wsRef s = Some i
           /\ text = trim (messageInput s) /\ text <> []
           /\ fs = [(i, TypingFrame false); (i, MessageFrame text)].
Proof.
  intros e s. unfold step. rewrite outbox_commit.
  assert (Hcase : (exists now, e = SendSubmit now)
                  \/ forall now, e <> SendSubmit now).
  { destruct e; try (right; discriminate). left. now exists now. }
  destruct Hcase as [[now ->] | Hne].
  - change (handle toUpperCase (SendSubmit now) s)
      with (if mounted s && isConnected s then handleSendMessage now s else s).
    destruct (mounted s) eqn:Hm; simpl andb; cbv iota.
    2:{ exists []. split; [now rewrite app_nil_r | intros i text []]. }
    destruct (isConnected s) eqn:Hc; cbv iota.
    2:{ exists []. split; [now rewrite app_nil_r | intros i text []]. }
    exists (sendFrames (trim (messageInput s)) s).
    split; [apply handleSendMessage_outbox|].
    intros i text Hin. exists now. unfold sendFrames in *. rewrite Hc in *.
    destruct (isEmpty (trim (messageInput s))) eqn:Ht; simpl in Hin;
      [destruct Hin|].
    destruct (wsIsOpen s) eqn:Ho; simpl in Hin; [|destruct Hin].
    destruct (isRateLimited s) eqn:Hr; simpl in Hin; [destruct Hin|].
    destruct (wsRef s) as [j|]; [|destruct Hin].
    destruct Hin as [Hin | [Hin | []]]; [discriminate|].
    injection Hin as Hj Htext. subst i text.
    repeat split; auto.
    intros E. rewrite E in Ht. discriminate.
  - destruct (Chatter_handle e s Hne) as [fs [E T]].
    exists fs. split; [exact E|].
    intros i text Hin.
    pose proof (proj1 (Forall_forall _ _) T _ Hin) as Hty. discriminate.
Qed.

End Wire.

(** ** One timer of each kind *)

Lemma timers_by_kind : forall ts : list Timer,
  length ts
  = (length (filter (ofKind isReconnect) ts)
     + length (filter (ofKind isTypingStop) ts)
     + length (filter (ofKind isRateLimit) ts))%nat.
Proof.
  induction ts as [|t ts IH]; [reflexivity|]. unfold ofKind in *. simpl.
  destruct (timerKind t); simpl; lia.
Qed.

Lemma tracked_well_timed : forall k ref ts t,
  tracked k ref ts -> Forall wellTimed ts -> In t (filter (ofKind k) ts) ->
  wellTimed t /\ ref = Some (timerId t).
Proof.
  intros k ref ts t H W Hin. split.
  - apply filter_In in Hin as [Hin _].
    exact (proj1 (Forall_forall _ _) W t Hin).
  - exact (tracked_holds_id k ref ts t H Hin).
Qed.

Section Timers.

Variable toUpperCase : jsstring -> jsstring.

(** X19.  No timer piles up.  In every state the component goes
    through at most one typing timer is pending, a timeout of 2000 ms
    named by [typingTimeoutRef]; at most one countdown interval is
    pending, repeating every 1000 ms and named by
    [rateLimitIntervalRef]; and with the reconnect timer that makes at
    most three pending timers in all. *)
Theorem at_most_one_timer_of_each_kind : forall s : AppState,
  Reachable toUpperCase s ->
  (length (pending isTypingStop s) <= 1)%nat
  /\ (forall t, In t (pending isTypingStop s) ->
        timerDelay t = 2000 /\ timerRepeats t = false
        /\ typingTimeoutRef s = Some (timerId t))
  /\ (length (pending isRateLimit s) <= 1)%nat
  /\ (forall t, In t (pending isRateLimit s) ->
        timerDelay t = 1000 /\ timerRepeats t = true
        /\ rateLimitIntervalRef s = Some (timerId t))
  /\ (length (timers s) <= 3)%nat.
Proof.
  intros s R.
  destruct (Reachable_tracked toUpperCase s R) as (H1 & H2 & H3 & H4).
  pose proof (tracked_at_most_one _ _ _ H1) as L1.
  pose proof (tracked_at_most_one _ _ _ H2) as L2.
  pose proof (tracked_at_most_one _ _ _ H3) as L3.
  split; [exact L3|]. split; [|split; [exact L2|split]].
  - intros t Hin.
    destruct (tracked_well_timed _ _ _ t H3 H4 Hin) as [W E].
    unfold pending in Hin. apply filter_In in Hin as [_ Hk].
    unfold wellTimed in W. unfold ofKind in Hk.
    destruct (timerKind t); try discriminate. tauto.
  - intros t Hin.
    destruct (tracked_well_timed _ _ _ t H2 H4 Hin) as [W E].
    unfold pending in Hin. apply filter_In in Hin as [_ Hk].
    unfold wellTimed in W. unfold ofKind in Hk.
    destruct (timerKind t); try discriminate. tauto.
  - rewrite timers_by_kind. lia.
Qed.

End Timers.

(** ** Sockets *)

(** X20.  [connectWebSocket] keeps every socket there is, with its
    address.  It asks for the close of the current socket only, and
    only when that socket is open; every other socket, and also a
    current socket that is still connecting, keeps its ready state. *)
Theorem connectWebSocket_keeps_other_sockets :
  forall (g u r : jsstring) (s : AppState) (j : nat) (w : Socket),
    nth_error (sockets s) j = Some w ->
    exists w',
      nth_error (sockets (connectWebSocket g u r s)) j = Some w'
      /\ ws_user w' = ws_user w /\ ws_group w' = ws_group w
      /\ ws_groupId w' = ws_groupId w
      /\ ((wsRef s = Some j /\ readyState w = OPEN /\ readyState w' = CLOSING)
          \/ ((wsRef s <> Some j \/ readyState w <> OPEN)
              /\ readyState w' = readyState w)).
Proof.
  intros g u r s j w Hj. unfold connectWebSocket.
  set (s1 := if wsIsOpen s then _ else s).
  assert (H1 : exists w',
             nth_error (sockets s1) j = Some w'
             /\ ws_user w' = ws_user w /\ ws_group w' = ws_group w
             /\ ws_groupId w' = ws_groupId w
             /\ ((wsRef s = Some j /\ readyState w = OPEN
                  /\ readyState w' = CLOSING)
                 \/ ((wsRef s <> Some j \/ readyState w <> OPEN)
                     /\ readyState w' = readyState w))).
  { subst s1. destruct (wsIsOpen s) eqn:Ho.
    - unfold wsIsOpen, currentSocket in Ho.
      destruct (wsRef s) as [i|] eqn:Hw; [|discriminate].
      destruct (Nat.eq_dec i j) as [->|Hij].
      + rewrite Hj in Ho. unfold ws_close. simpl sockets.
        rewrite nth_error_updateNth, Hj. simpl.
        exists (closing w). split; [reflexivity|].
        unfold closing. destruct (readyState w) eqn:Hr; try discriminate.
        simpl. repeat split. left. auto.
      + unfold ws_close. simpl sockets.
        rewrite nth_error_updateNth_other by exact Hij.
        exists w. repeat split; auto. right. split; [|reflexivity].
        left. congruence.
    - exists w. repeat split; auto. right. split; [|reflexivity].
      unfold wsIsOpen, currentSocket in Ho.
      destruct (wsRef s) as [i|]; [|left; discriminate].
      destruct (Nat.eq_dec i j) as [->|Hij]; [|left; congruence].
      rewrite Hj in Ho. right. intros E. rewrite E in Ho. discriminate. }
  clearbody s1. destruct H1 as [w' [N1 F1]]. exists w'. split; [|exact F1].
  assert (E : sockets (match reconnectTimeoutRef s1 with
                       | Some t => set_reconnectTimeoutRef None (clearTimeout t s1)
                       | None => s1
                       end) = sockets s1)
    by (destruct (reconnectTimeoutRef s1); reflexivity).
  destruct (urlEncodes u r); simpl; rewrite E; [|exact N1].
  rewrite nth_error_app1; [exact N1|].
  apply nth_error_Some. congruence.
Qed.

(** ** The rate-limit lock always has a countdown *)

Lemma Sound_same : forall s s',
  reconnectTimeoutRef s' = reconnectTimeoutRef s ->
  rateLimitIntervalRef s' = rateLimitIntervalRef s ->
  typingTimeoutRef s' = typingTimeoutRef s ->
  nextTimerId s' = nextTimerId s ->
  timers s' = timers s ->
  startRateLimitCountdownRef s' = startRateLimitCountdownRef s ->
  mounted s' = mounted s ->
  isRateLimited s' = isRateLimited s ->
  Sound s -> Sound s'.
Proof.
  unfold Sound, RefsApart, Unlocks, pending.
  intros s s' -> -> -> -> -> -> -> ->. auto.
Qed.

(** Clearing the timer named by the reconnect ref or by the typing ref
    leaves the countdown's interval pending. *)
Lemma interval_survives : forall s id,
  TimersTracked s -> RefsApart s ->
  reconnectTimeoutRef s = Some id \/ typingTimeoutRef s = Some id ->
  pending isRateLimit (clearTimeout id s) = pending isRateLimit s.
Proof.
  intros s id (_ & T & _) (_ & _ & _ & D1 & D2 & _) Hid.
  unfold pending. simpl. rewrite filter_swap. unfold tracked in T.
  destruct (filter (ofKind isRateLimit) (timers s)) as [|t0 [|t1 l]];
    [reflexivity | | contradiction].
  simpl. unfold keepsTimer.
  destruct (Pos.eqb (timerId t0) id) eqn:E; [|reflexivity].
  apply Pos.eqb_eq in E. rewrite T in D1, D2.
  destruct Hid as [Hid | Hid]; rewrite Hid in *; simpl in *; congruence.
Qed.

Lemma Sound_clearTimeout : forall s id,
  TimersTracked s -> Sound s ->
  reconnectTimeoutRef s = Some id \/ typingTimeoutRef s = Some id ->
  Sound (clearTimeout id s).
Proof.
  intros s id T [A [U1 U2]] Hid. split; [exact A|]. split; [exact U1|].
  rewrite (interval_survives s id T A Hid). exact U2.
Qed.

Lemma Sound_dropReconnect : forall s,
  TimersTracked s -> Sound s -> Sound (dropReconnect s).
Proof.
  intros s T H. unfold dropReconnect.
  destruct (reconnectTimeoutRef s) as [id|] eqn:Hr; [|exact H].
  destruct (Sound_clearTimeout s id T H (or_introl Hr))
    as [(A1 & A2 & A3 & A4 & A5 & A6) U].
  split; [|exact U]. repeat split; try assumption; exact I.
Qed.

Lemma Sound_dropTyping : forall s,
  TimersTracked s -> Sound s -> Sound (dropTyping s).
Proof.
  intros s T H. unfold dropTyping.
  destruct (typingTimeoutRef s) as [id|] eqn:Hr; [|exact H].
  destruct (Sound_clearTimeout s id T H (or_intror Hr))
    as [(A1 & A2 & A3 & A4 & A5 & A6) U].
  split; [|exact U]. repeat split; try assumption; try exact I.
  simpl. destruct (reconnectTimeoutRef s); exact I.
Qed.

Lemma below_succ : forall ref n, below ref n -> below ref (Pos.succ n).
Proof. intros [i|] n H; simpl in *; [lia | exact I]. Qed.

Lemma differ_fresh : forall ref n, below ref n -> differ (Some n) ref.
Proof. intros [i|] n H; simpl in *; [lia | exact I]. Qed.

Lemma differ_fresh_r : forall ref n, below ref n -> differ ref (Some n).
Proof. intros [i|] n H; simpl in *; [lia | exact I]. Qed.

Lemma pending_other_timer : forall k ts tm,
  k (timerKind tm) = false ->
  filter (ofKind k) (ts ++ [tm]) = filter (ofKind k) ts.
Proof.
  intros k ts tm Hk. rewrite filter_app. simpl. unfold ofKind at 2.
  now rewrite Hk, app_nil_r.
Qed.

Lemma Sound_schedule_reconnect : forall g s,
  Sound s ->
  Sound (set_reconnectTimeoutRef (Some (nextTimerId s))
           (snd (setTimeout (ReconnectTimer g) 3000 s))).
Proof.
  intros g s [(A1 & A2 & A3 & A4 & A5 & A6) [U1 U2]].
  split; [|split; [exact U1|]].
  - repeat split; simpl.
    + lia.
    + now apply below_succ.
    + now apply below_succ.
    + now apply differ_fresh.
    + exact A5.
    + now apply differ_fresh.
  - unfold pending. simpl. rewrite pending_other_timer by reflexivity.
    exact U2.
Qed.

Lemma Sound_schedule_typing : forall c s,
  Sound s ->
  Sound (set_typingTimeoutRef (Some (nextTimerId s))
           (snd (setTimeout (TypingTimer c) 2000 s))).
Proof.
  intros c s [(A1 & A2 & A3 & A4 & A5 & A6) [U1 U2]].
  split; [|split; [exact U1|]].
  - repeat split; simpl.
    + now apply below_succ.
    + now apply below_succ.
    + lia.
    + exact A4.
    + now apply differ_fresh.
    + now apply differ_fresh_r.
  - unfold pending. simpl. rewrite pending_other_timer by reflexivity.
    exact U2.
Qed.

Lemma RefsApart_clearNamed : forall ref s,
  RefsApart s -> RefsApart (clearNamed ref s).
Proof. intros [t|] s H; exact H. Qed.

Lemma startRateLimitCountdown_sound : forall n s,
  RefsApart s -> startRateLimitCountdownRef s = true ->
  Sound (startRateLimitCountdown n s).
Proof.
  intros n s A U1. unfold startRateLimitCountdown, clearInterval.
  fold (clearNamed (rateLimitIntervalRef s) s).
  pose proof (RefsApart_clearNamed (rateLimitIntervalRef s) s A) as A'.
  assert (U1' : startRateLimitCountdownRef (clearNamed (rateLimitIntervalRef s) s)
                = true)
    by (destruct (rateLimitIntervalRef s); exact U1).
  set (s1 := clearNamed (rateLimitIntervalRef s) s) in *. clearbody s1.
  destruct A' as (A1 & A2 & A3 & A4 & A5 & A6).
  split; [|split; [exact U1'|]].
  - repeat split; simpl.
    + now apply below_succ.
    + lia.
    + now apply below_succ.
    + now apply differ_fresh_r.
    + now apply differ_fresh_r.
    + exact A6.
  - intros _ _. unfold pending. simpl. rewrite filter_app. simpl.
    intros E. apply app_eq_nil in E as [_ E]. discriminate.
Qed.

Lemma Sound_startRateLimitCountdown : forall n s,
  Sound s -> Sound (startRateLimitCountdown n s).
Proof.
  intros n s [A [U1 _]]. now apply startRateLimitCountdown_sound.
Qed.

(** Raising the flag through the installed countdown function starts
    the countdown with it. *)
Lemma Sound_arm : forall n s,
  RefsApart s -> startRateLimitCountdownRef s = true ->
  Sound (if startRateLimitCountdownRef s
         then startRateLimitCountdown n s else s).
Proof.
  intros n s A U. rewrite U. now apply startRateLimitCountdown_sound.
Qed.

Lemma Sound_rateLimitTick : forall s, Sound s -> Sound (rateLimitTick s).
Proof.
  intros s H. unfold rateLimitTick.
  destruct (rateLimitSeconds s <=? 1); [|exact H].
  change (rateLimitIntervalRef (setIsRateLimited false s))
    with (rateLimitIntervalRef s).
  destruct H as [(A1 & A2 & A3 & A4 & A5 & A6) [U1 U2]].
  destruct (rateLimitIntervalRef s) as [t|] eqn:Hr.
  - split; [|split; [exact U1 | intros _ E; discriminate E]].
    repeat split; simpl; try assumption; try exact I.
    + destruct (reconnectTimeoutRef s); exact I.
    + destruct (typingTimeoutRef s); exact I.
  - split; [|split; [exact U1 | intros _ E; discriminate E]].
    repeat split; simpl; try assumption; rewrite Hr; assumption.
Qed.

Lemma Sound_ws_send : forall f s s',
  ws_send f s = Some s' -> Sound s -> Sound s'.
Proof.
  intros f s s' Hs H. unfold ws_send in Hs.
  destruct (wsRef s); [|discriminate].
  destruct (nth_error (sockets s) n) as [w|]; [|discriminate].
  destruct (readyState w); try discriminate; injection Hs as <-; exact H.
Qed.

Lemma Sound_handleWebSocketMessage : forall data now s,
  Sound s -> Sound (handleWebSocketMessage data now s).
Proof.
  intros data now s H. destruct data as [t u|i n c t|[b|]|n t|n t|r|[l|]|t];
    unfold handleWebSocketMessage; try exact H.
  - destruct (hasId (orFreshId i now) (messages s)); exact H.
  - set (remaining := match r with Some x => if x =? 0 then 5 else x | None => 5 end).
    set (s1 := setIsRateLimited true (setRateLimitSeconds remaining s)).
    assert (A1 : RefsApart s1) by exact (proj1 H).
    assert (U1 : startRateLimitCountdownRef s1 = true) by exact (proj1 (proj2 H)).
    clearbody s1.
    pose proof (Sound_arm remaining s1 A1 U1) as H2.
    set (s2 := if startRateLimitCountdownRef s1
               then startRateLimitCountdown remaining s1 else s1) in *.
    clearbody s2.
    set (s3 := setError (rateLimitedText remaining) s2).
    assert (H3 : Sound s3) by exact H2.
    clearbody s3.
    destruct (negb (isEmpty (pendingMessageRef s3))); exact H3.
Qed.

Lemma Sound_connectWebSocket : forall g u r s,
  TimersTracked s -> Sound s -> Sound (connectWebSocket g u r s).
Proof.
  intros g u r s T H. unfold connectWebSocket.
  set (s1 := if wsIsOpen s then _ else s).
  assert (H1 : TimersTracked s1 /\ Sound s1).
  { subst s1. destruct (wsIsOpen s); [|now split].
    destruct (wsRef s); now split. }
  clearbody s1. destruct H1 as [T1 H1]. fold (dropReconnect s1).
  pose proof (Sound_dropReconnect s1 T1 H1) as H2.
  set (s2 := dropReconnect s1) in *. clearbody s2.
  destruct (urlEncodes u r); exact H2.
Qed.

Lemma Sound_ws_onopen : forall s,
  TimersTracked s -> Sound s -> Sound (ws_onopen s).
Proof.
  intros s T H.
  exact (Sound_dropReconnect (setError [] (setIsConnected true s)) T H).
Qed.

Lemma closeErrorText_lock : forall code reason s,
  startRateLimitCountdownRef (closeErrorText code reason s)
  = startRateLimitCountdownRef s
  /\ mounted (closeErrorText code reason s) = mounted s
  /\ isRateLimited (closeErrorText code reason s) = isRateLimited s.
Proof.
  intros code reason s. unfold closeErrorText.
  destruct (code =? 1000); [repeat split|].
  destruct (code =? 1006); [repeat split|].
  destruct (code =? 1008); [repeat split|].
  destruct (code =? 1011); repeat split.
Qed.

Lemma Sound_ws_onclose : forall g code reason s,
  Sound s -> Sound (ws_onclose g code reason s).
Proof.
  intros g code reason s H. unfold ws_onclose.
  destruct (closeErrorText_same code reason (setIsConnected false s))
    as (E1 & E2 & E3 & E4 & _ & E6).
  destruct (closeErrorText_lock code reason (setIsConnected false s))
    as (L1 & L2 & L3).
  set (s1 := closeErrorText code reason (setIsConnected false s)) in *.
  assert (H1 : Sound s1).
  { apply (Sound_same (setIsConnected false s)); auto. }
  clearbody s1.
  destruct (negb (code =? 1000) && negb (isEmpty (usernameRef s1))
            && negb (isEmpty g)); [|exact H1].
  destruct (reconnectTimeoutRef s1); [exact H1|].
  exact (Sound_schedule_reconnect g s1 H1).
Qed.

Lemma Sound_reconnectCallback : forall g s,
  TimersTracked s -> Sound s -> Sound (reconnectCallback g s).
Proof.
  intros g s T H. unfold reconnectCallback.
  now apply Sound_connectWebSocket.
Qed.

Lemma Sound_clearNamed_typing : forall s,
  TimersTracked s -> Sound s -> Sound (clearNamed (typingTimeoutRef s) s).
Proof.
  intros s T H. destruct (typingTimeoutRef s) as [id|] eqn:Hr; [|exact H].
  exact (Sound_clearTimeout s id T H (or_intror Hr)).
Qed.

Lemma Sound_sendTypingIndicator : forall c isTyping now s,
  TimersTracked s -> Sound s -> Sound (sendTypingIndicator c isTyping now s).
Proof.
  intros c b now s T H. unfold sendTypingIndicator.
  destruct (negb c || negb (wsIsOpen s)); [exact H|].
  destruct (b && (now - lastTypingSentRef s <? 1000)); [exact H|].
  destruct (ws_send (TypingFrame b) (set_lastTypingSentRef now s)) as [s2|] eqn:Hs;
    [|exact H].
  assert (T2 : TimersTracked s2) by (eapply ws_send_tracked; [exact Hs | exact T]).
  assert (H2 : Sound s2) by (eapply Sound_ws_send; [exact Hs | exact H]).
  clear Hs. fold (clearNamed (typingTimeoutRef s2) s2).
  pose proof (Sound_clearNamed_typing s2 T2 H2) as H3.
  set (s3 := clearNamed (typingTimeoutRef s2) s2) in *. clearbody s3.
  destruct b; [|exact H3].
  exact (Sound_schedule_typing c s3 H3).
Qed.

Lemma Sound_handleSendMessage : forall now s,
  TimersTracked s -> Sound s -> Sound (handleSendMessage now s).
Proof.
  intros now s T H. unfold handleSendMessage.
  destruct (isEmpty (trim (messageInput s)) || negb (isConnected s)
            || negb (wsIsOpen s)); [exact H|].
  destruct (isRateLimited s); [exact H|].
  pose proof (Sound_sendTypingIndicator (isConnected s) false now s T H) as H1.
  set (s1 := sendTypingIndicator (isConnected s) false now s) in *.
  clearbody s1.
  set (s2 := set_pendingMessageRef _ (setPendingMessage _ s1)).
  assert (H2 : Sound s2) by exact H1.
  clearbody s2.
  destruct (ws_send (MessageFrame (trim (messageInput s))) s2) as [s3|] eqn:Hs.
  - assert (H3 : Sound s3) by (eapply Sound_ws_send; eauto).
    clear Hs.
    change (startRateLimitCountdownRef (setError [] (setMessageInput [] s3)))
      with (startRateLimitCountdownRef s3).
    set (s4 := setError [] (setMessageInput [] s3)).
    assert (H4 : Sound s4) by exact H3.
    clearbody s4.
    destruct (startRateLimitCountdownRef s3); [|exact H4].
    now apply Sound_startRateLimitCountdown.
  - match goal with |- context [negb (isEmpty ?p)] => destruct (negb (isEmpty p)) end;
      exact H2.
Qed.

Lemma Sound_handleInputChange : forall v now s,
  TimersTracked s -> Sound s -> Sound (handleInputChange v now s).
Proof.
  intros v now s T H. unfold handleInputChange.
  destruct (negb (isEmpty (trim v)) && negb (isRateLimited s));
    apply Sound_sendTypingIndicator; assumption.
Qed.

Lemma Sound_handleDisconnect : forall s,
  TimersTracked s -> Sound s -> Sound (handleDisconnect s).
Proof.
  intros s T H. unfold handleDisconnect.
  set (s1 := if wsIsOpen s then _ else s).
  assert (H1 : TimersTracked s1 /\ Sound s1).
  { subst s1. destruct (wsIsOpen s); [|now split].
    destruct (ws_send (TypingFrame false) s) eqn:Hs; [|now split].
    split; [eapply ws_send_tracked | eapply Sound_ws_send]; eauto. }
  clearbody s1.
  set (s2 := match wsRef s1 with Some i => _ | None => s1 end).
  assert (H2 : TimersTracked s2 /\ Sound s2).
  { subst s2. destruct (wsRef s1); exact H1. }
  clearbody s2.
  set (s3 := setError [] _).
  assert (H3 : TimersTracked s3 /\ Sound s3) by exact H2.
  clearbody s3. destruct H3 as [T3 H3].
  fold (dropReconnect s3). fold (dropTyping (dropReconnect s3)).
  apply Sound_dropTyping.
  - now apply dropReconnect_spec.
  - now apply Sound_dropReconnect.
Qed.

(** The cleanup at unmount hands out no id and changes no timer ref. *)
Lemma unmountCleanup_refs : forall s,
  RefsApart s -> startRateLimitCountdownRef s = true ->
  RefsApart (unmountCleanup s)
  /\ startRateLimitCountdownRef (unmountCleanup s) = true.
Proof.
  intros s A U. unfold unmountCleanup, clearInterval.
  set (s1 := if wsIsOpen s then _ else s).
  assert (H1 : RefsApart s1 /\ startRateLimitCountdownRef s1 = true).
  { subst s1. destruct (wsIsOpen s); [|now split].
    destruct (wsRef s); now split. }
  clearbody s1.
  set (s2 := match reconnectTimeoutRef s1 with Some t => _ | None => s1 end).
  assert (H2 : RefsApart s2 /\ startRateLimitCountdownRef s2 = true).
  { subst s2. destruct (reconnectTimeoutRef s1); exact H1. }
  clearbody s2.
  set (s3 := match rateLimitIntervalRef s2 with Some t => _ | None => s2 end).
  assert (H3 : RefsApart s3 /\ startRateLimitCountdownRef s3 = true).
  { subst s3. destruct (rateLimitIntervalRef s2); exact H2. }
  clearbody s3.
  set (s4 := match typingTimeoutRef s3 with Some t => _ | None => s3 end).
  assert (H4 : RefsApart s4 /\ startRateLimitCountdownRef s4 = true).
  { subst s4. destruct (typingTimeoutRef s3); exact H3. }
  clearbody s4.
  destruct (wsIsOpen s4); [|exact H4].
  unfold ws_send. destruct (wsRef s4); [|exact H4].
  destruct (nth_error (sockets s4) n) as [w|]; [|exact H4].
  destruct (readyState w); exact H4.
Qed.

Lemma Sound_runTimer : forall tm now s,
  In tm (timers s) -> TimersTracked s -> Sound s -> Sound (runTimer tm now s).
Proof.
  intros tm now s Hin T H. unfold runTimer.
  pose proof (proj1 (Forall_forall _ _) (proj2 (proj2 (proj2 T))) tm Hin) as W.
  unfold wellTimed in W.
  destruct (timerKind tm) eqn:Hk.
  - destruct W as [_ ->].
    assert (Hid : reconnectTimeoutRef s = Some (timerId tm)).
    { apply (tracked_holds_id isReconnect _ (timers s)); [apply T|].
      apply filter_In. split; [exact Hin|]. unfold ofKind. now rewrite Hk. }
    pose proof (Sound_clearTimeout s (timerId tm) T H (or_introl Hid)) as H1.
    pose proof (TimersTracked_clearTimeout (timerId tm) s T) as T1.
    set (s1 := clearTimeout (timerId tm) s) in *. clearbody s1.
    now apply Sound_reconnectCallback.
  - destruct W as [_ ->]. now apply Sound_rateLimitTick.
  - destruct W as [_ ->].
    assert (Hid : typingTimeoutRef s = Some (timerId tm)).
    { apply (tracked_holds_id isTypingStop _ (timers s)); [apply T|].
      apply filter_In. split; [exact Hin|]. unfold ofKind. now rewrite Hk. }
    pose proof (Sound_clearTimeout s (timerId tm) T H (or_intror Hid)) as H1.
    pose proof (TimersTracked_clearTimeout (timerId tm) s T) as T1.
    set (s1 := clearTimeout (timerId tm) s) in *. clearbody s1.
    now apply Sound_sendTypingIndicator.
Qed.

Lemma Sound_commit : forall s, Sound s -> Sound (commit s).
Proof.
  intros s H.
  destruct (commit_cells s)
    as (_ & _ & _ & _ & _ & _ & _ & _ & C1 & _ & _ & C2 & C3 & C4 & C5 & _
        & _ & _ & _ & C6 & C7 & C8).
  now apply (Sound_same s).
Qed.

Lemma Sound_initialState : Sound initialState.
Proof.
  split; [repeat split; exact I|]. split; [reflexivity|].
  intros _ E. discriminate E.
Qed.

Section Lock.

Variable toUpperCase : jsstring -> jsstring.

Lemma Sound_handleJoin : forall s,
  TimersTracked s -> Sound s -> Sound (handleJoin toUpperCase s).
Proof.
  intros s T H. unfold handleJoin.
  destruct (isEmpty (trim (username s))); [exact H|].
  match goal with |- context [negb ?b] => destruct (negb b) end; [exact H|].
  apply Sound_connectWebSocket; [exact T | exact H].
Qed.

Lemma Sound_handle : forall e s,
  TimersTracked s -> Sound s -> Sound (handle toUpperCase e s).
Proof.
  intros e s T H. destruct e; unfold handle.
  - destruct (mounted s && negb (isConnected s)); exact H.
  - destruct (mounted s && negb (isConnected s)); exact H.
  - destruct (mounted s && negb (isConnected s));
      [now apply Sound_handleJoin | exact H].
  - destruct (mounted s && isConnected s);
      [now apply Sound_handleInputChange | exact H].
  - destruct (mounted s && isConnected s);
      [now apply Sound_handleSendMessage | exact H].
  - destruct (mounted s && isConnected s);
      [now apply Sound_handleDisconnect | exact H].
  - destruct (nth_error (sockets s) i) as [w|]; [|exact H].
    destruct (readyState w); try exact H.
    apply Sound_ws_onopen; [exact T | exact H].
  - destruct (nth_error (sockets s) i) as [w|]; [|exact H].
    destruct (readyState w); try exact H;
      (destruct data as [d|]; [|exact H]; unfold ws_onmessage;
       destruct (handleWebSocketMessageRef s); [|exact H];
       now apply Sound_handleWebSocketMessage).
  - destruct (nth_error (sockets s) i); exact H.
  - destruct (nth_error (sockets s) i) as [w|]; [|exact H].
    destruct (readyState w); try exact H;
      (apply Sound_ws_onclose; exact H).
  - destruct (find (fun x => Pos.eqb (timerId x) t) (timers s)) as [tm|] eqn:Hf;
      [|exact H].
    apply Sound_runTimer; [|exact T | exact H].
    apply find_some in Hf. tauto.
  - destruct (mounted s); [|exact H].
    destruct (unmountCleanup_refs s (proj1 H) (proj1 (proj2 H))) as [A U].
    set (s1 := unmountCleanup s) in *. clearbody s1.
    split; [exact A|]. split; [exact U|]. intros E. discriminate E.
Qed.

Lemma Reachable_sound : forall s, Reachable toUpperCase s -> Sound s.
Proof.
  intros s R. induction R as [|e s R IH].
  - exact Sound_initialState.
  - unfold step. apply Sound_commit.
    apply Sound_handle; [now apply (Reachable_tracked toUpperCase) | exact IH].
Qed.

(** X22.  The rate-limit lock always has a countdown.  In every state
    a mounted component goes through, if the client is rate-limited then
    exactly one countdown interval is pending, repeating every 1000 ms
    and named by [rateLimitIntervalRef].  When the seconds shown are at
    most [2^53], the ticks of that interval lower the flag: after as
    many ticks as the seconds shown (one tick when fewer than one second
    is shown) the client is not rate-limited any more and 0 seconds are
    shown.  When the seconds shown are so large that subtracting 1
    gives the same double again, no number of ticks lowers the flag. *)
Theorem rate_limit_lock_has_countdown : forall s : AppState,
  Reachable toUpperCase s -> mounted s = true -> isRateLimited s = true ->
  (exists t, pending isRateLimit s = [t]
             /\ timerDelay t = 1000 /\ timerRepeats t = true
             /\ rateLimitIntervalRef s = Some (timerId t))
  /\ (rateLimitSeconds s <= 2 ^ 53 ->
      isRateLimited (ticks (ticksLeft (rateLimitSeconds s)) s) = false
      /\ rateLimitSeconds (ticks (ticksLeft (rateLimitSeconds s)) s) = 0)
  /\ (1 < rateLimitSeconds s ->
      roundDouble (rateLimitSeconds s - 1) = rateLimitSeconds s ->
      forall k : nat,
        isRateLimited (ticks k s) = true
        /\ rateLimitSeconds (ticks k s) = rateLimitSeconds s).
Proof.
  intros s R Hm Hr.
  destruct (Reachable_sound s R) as [_ [_ U]].
  destruct (Reachable_tracked toUpperCase s R) as (_ & T & _ & W).
  specialize (U Hm Hr). split; [|split].
  - unfold tracked, pending in *.
    destruct (filter (ofKind isRateLimit) (timers s)) as [|t [|t' l]] eqn:E;
      [congruence | | contradiction].
    exists t. split; [reflexivity|].
    assert (Hin : In t (filter (ofKind isRateLimit) (timers s)))
      by (rewrite E; now left).
    apply filter_In in Hin as [Hin Hk].
    pose proof (proj1 (Forall_forall _ _) W t Hin) as Wt.
    unfold wellTimed in Wt. unfold ofKind in Hk.
    destruct (timerKind t); try discriminate. tauto.
  - intros Hb. unfold ticksLeft.
    destruct (Z.le_gt_cases (rateLimitSeconds s) 1) as [Hle | Hgt].
    + rewrite Z.max_l by lia. change (Z.to_nat 1) with 1%nat.
      change (ticks 1 s) with (rateLimitTick s).
      destruct (rateLimitTick_last s Hle) as [L1 L2]. now split.
    + rewrite Z.max_r by lia.
      set (n := rateLimitSeconds s) in *.
      assert (En : Z.to_nat n = S (Z.to_nat (n - 1))) by lia.
      rewrite En, ticks_succ.
      destruct (ticks_count_down (Z.to_nat (n - 1)) n s eq_refl Hr Hb
                  ltac:(lia)) as [C1 C2].
      destruct (rateLimitTick_last (ticks (Z.to_nat (n - 1)) s) ltac:(lia))
        as [L1 L2].
      now split.
  - intros Hgt Hfix k. clear U T W. induction k as [|k [I1 I2]].
    + now split.
    + rewrite ticks_succ. revert I1 I2. generalize (ticks k s). intros s' I1 I2.
      unfold rateLimitTick.
      destruct (rateLimitSeconds s' <=? 1) eqn:E;
        [apply Z.leb_le in E; lia|].
      split; [exact I1|].
      change (rateLimitSeconds (setRateLimitSeconds
                (roundDouble (rateLimitSeconds s' - 1)) s'))
        with (roundDouble (rateLimitSeconds s' - 1)).
      now rewrite I2.
Qed.

End Lock.

(** ** Repeats inside one batch *)

(** X23.  A batch is checked against the rendered list only, not against
    itself: when no element's id is rendered yet, the whole batch is
    appended in order, so an element the batch holds twice is rendered
    twice and the rendered ids are not distinct any more. *)
Theorem batch_repeats_are_rendered :
  forall (s : AppState) (batch : list WireMessage) (now : Z),
    (forall w, In w batch ->
       ~ In (msg_id (renderWire now w)) (map msg_id (messages s))) ->
    let s' := handleWebSocketMessage (messages_batch (Some batch)) now s in
    messages s' = messages s ++ map (renderWire now) batch
    /\ (~ NoDup batch -> ~ NoDup (map msg_id (messages s'))).
Proof.
  intros s batch now Hnew s'.
  assert (Hm : messages s' = messages s ++ map (renderWire now) batch).
  { subst s'. rewrite handle_batch_messages. f_equal. apply filter_all.
    intros m Hin. apply in_map_iff in Hin as [w [<- Hw]].
    apply negb_true_iff.
    destruct (hasId (msg_id (renderWire now w)) (messages s)) eqn:E;
      [|reflexivity].
    apply hasId_spec in E. now apply Hnew in E. }
  clearbody s'. split; [exact Hm|].
  intros Hdup Hnd. apply Hdup. rewrite Hm in Hnd.
  apply NoDup_map_inv in Hnd. apply NoDup_app_remove_l in Hnd.
  now apply NoDup_map_inv in Hnd.
Qed.

(** ** Whose name the typing list leaves out *)

Lemma connectWebSocket_handlerRef : forall g u r s,
  handleWebSocketMessageRef (connectWebSocket g u r s)
  = handleWebSocketMessageRef s.
Proof.
  intros g u r s. unfold connectWebSocket.
  set (s1 := if wsIsOpen s then _ else s).
  assert (H1 : handleWebSocketMessageRef s1 = handleWebSocketMessageRef s).
  { subst s1. destruct (wsIsOpen s); [|reflexivity].
    destruct (wsRef s); reflexivity. }
  clearbody s1.
  destruct (reconnectTimeoutRef s1), (urlEncodes u r); exact H1.
Qed.

Lemma ws_onopen_cells : forall s,
  sockets (ws_onopen s) = sockets s /\ wsRef (ws_onopen s) = wsRef s
  /\ username (ws_onopen s) = username s
  /\ mounted (ws_onopen s) = mounted s
  /\ handleWebSocketMessageRef (ws_onopen s) = handleWebSocketMessageRef s.
Proof.
  intros s. unfold ws_onopen.
  change (reconnectTimeoutRef (setError [] (setIsConnected true s)))
    with (reconnectTimeoutRef s).
  destruct (reconnectTimeoutRef s); repeat split.
Qed.

Section TypingList.

Variable toUpperCase : jsstring -> jsstring.

(** A join that connects, followed by the socket's open event: the
    current socket is open under the trimmed username, while
    [usernameRef] holds the username as typed. *)
Lemma join_then_open : forall s : AppState,
  mounted s = true -> isConnected s = false ->
  joinConnects toUpperCase s = true ->
  let i := length (sockets s) in
  let joined :=
    step toUpperCase (SocketOpen i) (step toUpperCase JoinSubmit s) in
  (exists w, nth_error (sockets joined) i = Some w
             /\ ws_user w = trim (username s) /\ readyState w = OPEN)
  /\ wsRef joined = Some i
  /\ usernameRef joined = username s
  /\ handleWebSocketMessageRef joined = handleWebSocketMessageRef s.
Proof.
  intros s Hm Hc Hj i joined.
  (* the join *)
  assert (J : exists w, nth_error (sockets (handleJoin toUpperCase s)) i = Some w
                /\ ws_user w = trim (username s)
                /\ readyState w = CONNECTING).
  { destruct (handleJoin_cases toUpperCase s)
      as [[_ E] | [(_ & _ & E) | [(_ & _ & _ & E & _)
                                | (_ & _ & _ & _ & E & _)]]];
      unfold joinConnects in Hj.
    - rewrite E in Hj. simpl sockets in Hj.
      rewrite Nat.ltb_irrefl in Hj. discriminate.
    - rewrite E in Hj. simpl sockets in Hj.
      rewrite Nat.ltb_irrefl in Hj. discriminate.
    - rewrite E, Nat.ltb_irrefl in Hj. discriminate.
    - eexists. split; [exact E|]. split; reflexivity. }
  assert (K : wsRef (handleJoin toUpperCase s) = Some i
              /\ username (handleJoin toUpperCase s) = username s
              /\ mounted (handleJoin toUpperCase s) = true
              /\ handleWebSocketMessageRef (handleJoin toUpperCase s)
                 = handleWebSocketMessageRef s).
  { destruct (handleJoin_cases toUpperCase s)
      as [[_ E] | [(_ & _ & E) | [(_ & _ & _ & E & _)
                                | (_ & _ & _ & _ & _ & E & _)]]];
      unfold joinConnects in Hj.
    - rewrite E in Hj. simpl sockets in Hj.
      rewrite Nat.ltb_irrefl in Hj. discriminate.
    - rewrite E in Hj. simpl sockets in Hj.
      rewrite Nat.ltb_irrefl in Hj. discriminate.
    - rewrite E, Nat.ltb_irrefl in Hj. discriminate.
    - split; [exact E|]. unfold handleJoin.
      destruct (isEmpty (trim (username s))); [repeat split; exact Hm|].
      match goal with |- context [negb ?b] => destruct (negb b) end;
        [repeat split; exact Hm|].
      match goal with |- context [connectWebSocket ?g ?u ?r ?x] =>
        destruct (connectWebSocket_cells g u r x) as (_ & _ & _ & C4 & C5 & _);
        pose proof (connectWebSocket_handlerRef g u r x) as C6;
        revert C4 C5 C6; generalize (connectWebSocket g u r x)
      end.
      intros x C4 C5 C6. rewrite C4, C5, C6. repeat split. exact Hm. }
  assert (S1 : step toUpperCase JoinSubmit s
               = commit (handleJoin toUpperCase s)).
  { unfold step. f_equal.
    change (handle toUpperCase JoinSubmit s)
      with (if mounted s && negb (isConnected s)
            then handleJoin toUpperCase s else s).
    now rewrite Hm, Hc. }
  subst joined. rewrite S1. clear S1.
  revert J K. generalize (handleJoin toUpperCase s). intros j0 J K.
  destruct J as (w & J1 & J2 & J3). destruct K as (K1 & K2 & K3 & K4).
  (* the render after the join *)
  destruct (commit_cells j0)
    as (_ & C1 & _ & _ & _ & _ & _ & _ & _ & _ & C2 & _ & _ & _ & _ & _ & C3
        & C4 & _ & _ & _ & C5).
  revert C1 C2 C3 C4 C5. generalize (commit j0). intros j1 C1 C2 C3 C4 C5.
  rewrite K2 in C1. rewrite K1 in C2. rewrite K4 in C3. rewrite K3 in C5.
  rewrite <- C4 in J1. clear C4 K1 K2 K3 K4 j0.
  (* the open event *)
  unfold step.
  assert (O : handle toUpperCase (SocketOpen i) j1
              = ws_onopen (setReadyState i OPEN j1)).
  { unfold handle. now rewrite J1, J3. }
  rewrite O. clear O.
  destruct (ws_onopen_cells (setReadyState i OPEN j1))
    as (O1 & O2 & O3 & O4 & O5).
  revert O1 O2 O3 O4 O5. generalize (ws_onopen (setReadyState i OPEN j1)).
  intros j2 O1 O2 O3 O4 O5.
  assert (N : nth_error (sockets j2) i = Some (withReadyState OPEN w)).
  { rewrite O1. simpl sockets. now rewrite nth_error_updateNth, J1. }
  change (wsRef (setReadyState i OPEN j1)) with (wsRef j1) in O2.
  change (username (setReadyState i OPEN j1)) with (username j1) in O3.
  change (mounted (setReadyState i OPEN j1)) with (mounted j1) in O4.
  change (handleWebSocketMessageRef (setReadyState i OPEN j1))
    with (handleWebSocketMessageRef j1) in O5.
  clear O1.
  destruct (commit_cells j2)
    as (_ & D1 & _ & _ & _ & _ & _ & _ & _ & _ & D2 & _ & _ & _ & _ & _ & D3
        & D4 & _).
  pose proof (commit_usernameRef j2 ltac:(congruence)) as D5.
  revert D1 D2 D3 D4 D5. generalize (commit j2). intros j3 D1 D2 D3 D4 D5.
  split; [|split; [congruence | split; congruence]].
  exists (withReadyState OPEN w). rewrite D4. split; [exact N|].
  split; [exact J2 | reflexivity].
Qed.

(** C6.  The list is filtered by the username as typed, not by the
    name the client joined under.  After a join that connects and the
    open event of its socket, the client is in the room under the
    trimmed username, and a [typing] envelope leaves as displayed list
    the received one without the occurrences of the username as it was
    typed into the form.  So the client's own name is left out when the
    username was typed without surrounding white space; when it was
    typed with some, the own name stays in the list whenever the
    server sends it. *)
Theorem typing_list_filters_by_typed_name :
  forall (s : AppState) (typing_users : list jsstring) (now : Z),
    mounted s = true -> isConnected s = false ->
    handleWebSocketMessageRef s = true ->
    joinConnects toUpperCase s = true ->
    let i := length (sockets s) in
    let own := trim (username s) in
    let joined :=
      step toUpperCase (SocketOpen i) (step toUpperCase JoinSubmit s) in
    let s' :=
      step toUpperCase
        (SocketMessage i (Some (typing (Some typing_users))) now) joined in
    (exists w, currentSocket joined = Some w /\ ws_user w = own)
    /\ typingUsers s' = remove jsstring_eq_dec (username s) typing_users
    /\ (own = username s -> ~ In own (typingUsers s'))
    /\ (own <> username s -> In own typing_users -> In own (typingUsers s')).
Proof.
  intros s l now Hm Hc Hh Hj i own joined s'. subst s' joined own i.
  destruct (join_then_open s Hm Hc Hj) as ((w & N & U & O) & W & R & F).
  rewrite Hh in F. revert N W R F.
  generalize (step toUpperCase (SocketOpen (length (sockets s)))
                (step toUpperCase JoinSubmit s)).
  intros joined N W R F.
  set (i := length (sockets s)) in *.
  assert (T : typingUsers
                (step toUpperCase
                   (SocketMessage i (Some (typing (Some l))) now) joined)
              = remove jsstring_eq_dec (username s) l).
  { unfold step.
    destruct (commit_cells
                (handle toUpperCase
                   (SocketMessage i (Some (typing (Some l))) now) joined))
      as (_ & _ & _ & _ & _ & _ & _ & _ & _ & C & _).
    rewrite C. clear C.
    unfold handle. rewrite N, O. unfold ws_onmessage. rewrite F.
    unfold handleWebSocketMessage.
    change (typingUsers (setTypingUsers ?x joined)) with x.
    rewrite R. apply filter_out_is_remove. }
  revert T.
  generalize (step toUpperCase
                (SocketMessage i (Some (typing (Some l))) now) joined).
  intros s' T.
  split; [|split; [exact T|split]].
  - exists w. split; [|exact U]. unfold currentSocket. now rewrite W.
  - intros E. rewrite T, E. apply remove_In.
  - intros E Hin. rewrite T. apply in_in_remove; assumption.
Qed.

End TypingList.

(** ** The properties above on alice's session *)

Lemma aliceJoined_reachable : Reachable asciiToUpperCase aliceJoined.
Proof.
  unfold aliceJoined. apply Reachable_run. apply Reachable_mounted.
Defined.

Lemma aliceReady_reachable : Reachable asciiToUpperCase aliceReady.
Proof.
  unfold aliceReady. apply Reachable_run. exact aliceSent_reachable.
Defined.

Lemma aliceCutOff_reachable : Reachable asciiToUpperCase aliceCutOff.
Proof.
  unfold aliceCutOff. apply Reachable_step. exact aliceSent_reachable.
Defined.

Lemma send_then_rate_limit_restores_text_witness :
  isConnected aliceReady = true /\ wsIsOpen aliceReady = true
  /\ isRateLimited aliceReady = false
  /\ trim (messageInput aliceReady) <> []
  /\ messageInput
       (handleWebSocketMessage (rate_limit (Some 7)) 12100
          (handleSendMessage 12000 aliceReady))
     = trim (messageInput aliceReady).
Proof.
  assert (H1 : isConnected aliceReady = true) by (vm_compute; reflexivity).
  assert (H2 : wsIsOpen aliceReady = true) by (vm_compute; reflexivity).
  assert (H3 : isRateLimited aliceReady = false) by (vm_compute; reflexivity).
  assert (H4 : trim (messageInput aliceReady) <> [])
    by (vm_compute; discriminate).
  split; [exact H1|]. split; [exact H2|]. split; [exact H3|].
  split; [exact H4|].
  destruct (send_then_rate_limit_restores_text aliceReady 12000 12100 (Some 7)
              H1 H2 H3 H4) as (_ & _ & _ & _ & _ & _ & B & _).
  exact B.
Defined.

Lemma own_echo_settles_pending_witness :
  Reachable asciiToUpperCase aliceSent /\ mounted aliceSent = true
  /\ ~ In (orFreshId (Some (IdStr (js "m1"))) 6000)
          (map msg_id (messages aliceSent))
  /\ pendingMessageRef aliceSent <> []
  /\ pendingMessageRef
       (commit
          (handleWebSocketMessage
             (message (Some (IdStr (js "m1"))) (usernameRef aliceSent)
                (js "hi") (js "2024-01-01T00:00:00"))
             6000 aliceSent))
     = [].
Proof.
  assert (Hm : mounted aliceSent = true) by (vm_compute; reflexivity).
  assert (H : ~ In (orFreshId (Some (IdStr (js "m1"))) 6000)
                   (map msg_id (messages aliceSent)))
    by (vm_compute; tauto).
  assert (Hp : pendingMessageRef aliceSent <> [])
    by (vm_compute; discriminate).
  split; [exact aliceSent_reachable|]. split; [exact Hm|].
  split; [exact H|]. split; [exact Hp|].
  destruct (own_echo_settles_pending asciiToUpperCase aliceSent
              (Some (IdStr (js "m1"))) (usernameRef aliceSent) (js "hi")
              (js "2024-01-01T00:00:00") 6000 6100 None
              aliceSent_reachable Hm H) as (_ & _ & B & _).
  exact (proj1 (B eq_refl)).
Defined.


Lemma typing_start_arms_auto_stop_witness :
  Reachable asciiToUpperCase aliceJoined /\ wsIsOpen aliceJoined = true
  /\ 1000 <= 5000 - lastTypingSentRef aliceJoined
  /\ typingTimeoutRef (sendTypingIndicator true true 5000 aliceJoined)
     = Some (nextTimerId aliceJoined).
Proof.
  assert (H1 : wsIsOpen aliceJoined = true) by (vm_compute; reflexivity).
  assert (H2 : 1000 <= 5000 - lastTypingSentRef aliceJoined)
    by (vm_compute; discriminate).
  split; [exact aliceJoined_reachable|]. split; [exact H1|].
  split; [exact H2|].
  destruct (typing_start_arms_auto_stop asciiToUpperCase aliceJoined 5000 7000
              aliceJoined_reachable H1 H2) as (_ & B & _).
  exact B.
Defined.

Lemma leave_ends_retry_loop_witness :
  Reachable asciiToUpperCase aliceJoined /\ mounted aliceJoined = true
  /\ isConnected aliceJoined = true
  /\ forall e,
       pending isReconnect
         (step asciiToUpperCase e
            (step asciiToUpperCase LeaveClick aliceJoined))
       = [].
Proof.
  assert (H1 : mounted aliceJoined = true) by (vm_compute; reflexivity).
  assert (H2 : isConnected aliceJoined = true) by (vm_compute; reflexivity).
  split; [exact aliceJoined_reachable|]. split; [exact H1|].
  split; [exact H2|].
  destruct (leave_ends_retry_loop asciiToUpperCase aliceJoined
              aliceJoined_reachable H1 H2) as (_ & _ & _ & B).
  exact B.
Defined.

Lemma reconnect_retries_same_room_witness :
  Reachable asciiToUpperCase aliceCutOff
  /\ In (mkTimer 3 (ReconnectTimer (js "ABC12")) 3000 false)
        (timers aliceCutOff)
  /\ urlEncodes (usernameRef aliceCutOff) (js "ABC12") = true
  /\ wsRef (runTimer (mkTimer 3 (ReconnectTimer (js "ABC12")) 3000 false)
              9000 aliceCutOff)
     = Some (length (sockets aliceCutOff)).
Proof.
  assert (H : In (mkTimer 3 (ReconnectTimer (js "ABC12")) 3000 false)
                 (timers aliceCutOff))
    by (vm_compute; right; left; reflexivity).
  assert (He : urlEncodes (usernameRef aliceCutOff) (js "ABC12") = true)
    by (vm_compute; reflexivity).
  split; [exact aliceCutOff_reachable|]. split; [exact H|].
  split; [exact He|].
  destruct (reconnect_retries_same_room asciiToUpperCase aliceCutOff
              (mkTimer 3 (ReconnectTimer (js "ABC12")) 3000 false)
              (js "ABC12") 9000 aliceCutOff_reachable H eq_refl)
    as (_ & _ & _ & B & _).
  exact (proj1 (proj2 (B He))).
Defined.

Lemma rooms_stay_canonical_witness :
  Reachable asciiToUpperCase aliceCutOff
  /\ upperAlnum (groupId aliceCutOff)
  /\ (length (groupId aliceCutOff) <= 5)%nat.
Proof.
  split; [exact aliceCutOff_reachable|].
  destruct (rooms_stay_canonical asciiToUpperCase asciiToUpperCase_fixes
              aliceCutOff aliceCutOff_reachable) as (B1 & B2 & _).
  split; [exact B1 | exact B2].
Defined.

Lemma at_most_one_timer_of_each_kind_witness :
  Reachable asciiToUpperCase aliceCutOff
  /\ (length (timers aliceCutOff) <= 3)%nat.
Proof.
  split; [exact aliceCutOff_reachable|].
  destruct (at_most_one_timer_of_each_kind asciiToUpperCase aliceCutOff
              aliceCutOff_reachable) as (_ & _ & _ & _ & B).
  exact B.
Defined.

Lemma connectWebSocket_keeps_other_sockets_witness :
  nth_error (sockets aliceJoined) 0
  = Some (mkSocket (js "alice") (js "ABC12") (js "ABC12") OPEN)
  /\ exists w',
       nth_error
         (sockets (connectWebSocket (js "ABC12") (js "alice") (js "XYZ99")
                     aliceJoined)) 0
       = Some w'
       /\ ws_group w' = js "ABC12".
Proof.
  assert (H : nth_error (sockets aliceJoined) 0
              = Some (mkSocket (js "alice") (js "ABC12") (js "ABC12") OPEN))
    by (vm_compute; reflexivity).
  split; [exact H|].
  destruct (connectWebSocket_keeps_other_sockets (js "ABC12") (js "alice")
              (js "XYZ99") aliceJoined 0 _ H) as (w' & B1 & _ & B2 & _).
  exists w'. split; [exact B1 | exact B2].
Defined.

Lemma aliceFlooded_reachable : Reachable asciiToUpperCase aliceFlooded.
Proof.
  unfold aliceFlooded. apply Reachable_step. exact aliceSent_reachable.
Defined.

Lemma rate_limit_lock_has_countdown_witness :
  (Reachable asciiToUpperCase aliceSent /\ mounted aliceSent = true
   /\ isRateLimited aliceSent = true
   /\ rateLimitSeconds aliceSent <= 2 ^ 53
   /\ isRateLimited (ticks (ticksLeft (rateLimitSeconds aliceSent)) aliceSent)
      = false)
  /\ (Reachable asciiToUpperCase aliceFlooded /\ mounted aliceFlooded = true
      /\ isRateLimited aliceFlooded = true
      /\ 1 < rateLimitSeconds aliceFlooded
      /\ roundDouble (rateLimitSeconds aliceFlooded - 1)
         = rateLimitSeconds aliceFlooded
      /\ isRateLimited (ticks 1000 aliceFlooded) = true).
Proof.
  assert (H1 : mounted aliceSent = true) by (vm_compute; reflexivity).
  assert (H2 : isRateLimited aliceSent = true) by (vm_compute; reflexivity).
  assert (H3 : rateLimitSeconds aliceSent <= 2 ^ 53)
    by (vm_compute; discriminate).
  assert (F1 : mounted aliceFlooded = true) by (vm_compute; reflexivity).
  assert (F2 : isRateLimited aliceFlooded = true) by (vm_compute; reflexivity).
  assert (F3 : 1 < rateLimitSeconds aliceFlooded) by (vm_compute; reflexivity).
  assert (F4 : roundDouble (rateLimitSeconds aliceFlooded - 1)
               = rateLimitSeconds aliceFlooded) by (vm_compute; reflexivity).
  split.
  - split; [exact aliceSent_reachable|]. split; [exact H1|].
    split; [exact H2|]. split; [exact H3|].
    destruct (rate_limit_lock_has_countdown asciiToUpperCase aliceSent
                aliceSent_reachable H1 H2) as (_ & B & _).
    exact (proj1 (B H3)).
  - split; [exact aliceFlooded_reachable|]. split; [exact F1|].
    split; [exact F2|]. split; [exact F3|]. split; [exact F4|].
    destruct (rate_limit_lock_has_countdown asciiToUpperCase aliceFlooded
                aliceFlooded_reachable F1 F2) as (_ & _ & B).
    exact (proj1 (B F3 F4 1000%nat)).
Defined.

Lemma batch_repeats_are_rendered_witness :
  (forall w, In w sampleBatch ->
     ~ In (msg_id (renderWire 6000 w)) (map msg_id (messages aliceSent)))
  /\ messages
       (handleWebSocketMessage (messages_batch (Some sampleBatch)) 6000
          aliceSent)
     = messages aliceSent ++ map (renderWire 6000) sampleBatch.
Proof.
  assert (H : forall w, In w sampleBatch ->
                ~ In (msg_id (renderWire 6000 w))
                     (map msg_id (messages aliceSent)))
    by (intros w _; vm_compute; tauto).
  split; [exact H|].
  destruct (batch_repeats_are_rendered aliceSent sampleBatch 6000 H) as [B _].
  exact B.
Defined.

Lemma handleJoin_unencodable_username_witness :
  trim (username surrogateForm) <> []
  /\ length (stripNonUpperAlnum
               (asciiToUpperCase (trim (groupId surrogateForm)))) = 5%nat
  /\ isWellFormed (trim (username surrogateForm)) = false
  /\ joinConnects asciiToUpperCase surrogateForm = false
  /\ length (sockets (handleJoin asciiToUpperCase surrogateForm))
     = length (sockets surrogateForm)
  /\ error (handleJoin asciiToUpperCase surrogateForm) = [].
Proof.
  assert (H1 : trim (username surrogateForm) <> [])
    by (vm_compute; discriminate).
  assert (H2 : length (stripNonUpperAlnum
                         (asciiToUpperCase (trim (groupId surrogateForm))))
               = 5%nat) by (vm_compute; reflexivity).
  assert (H3 : isWellFormed (trim (username surrogateForm)) = false)
    by (vm_compute; reflexivity).
  split; [exact H1|]. split; [exact H2|]. split; [exact H3|].
  destruct (handleJoin_unencodable_username asciiToUpperCase surrogateForm
              H1 H2 H3) as (B1 & B2 & _ & _ & B3 & _).
  split; [exact B1|]. split; [exact B2 | exact B3].
Defined.

Lemma handleJoin_connects_iff_valid_witness :
  isWellFormed (trim (username aliceForm)) = true
  /\ (joinConnects asciiToUpperCase aliceForm = true
      <-> trim (username aliceForm) <> []
          /\ length (stripNonUpperAlnum
                       (asciiToUpperCase (trim (groupId aliceForm))))
             = 5%nat).
Proof.
  assert (H : isWellFormed (trim (username aliceForm)) = true)
    by (vm_compute; reflexivity).
  split; [exact H|].
  exact (proj1 (handleJoin_connects_iff_valid asciiToUpperCase aliceForm H)).
Defined.

Lemma typing_list_filters_by_typed_name_witness :
  mounted aliceForm = true /\ isConnected aliceForm = false
  /\ handleWebSocketMessageRef aliceForm = true
  /\ joinConnects asciiToUpperCase aliceForm = true
  /\ trim (username aliceForm) <> username aliceForm
  /\ In (trim (username aliceForm)) [js "alice"; js "bob"]
  /\ In (trim (username aliceForm))
        (typingUsers
           (step asciiToUpperCase
              (SocketMessage (length (sockets aliceForm))
                 (Some (typing (Some [js "alice"; js "bob"]))) 7000)
              (step asciiToUpperCase (SocketOpen (length (sockets aliceForm)))
                 (step asciiToUpperCase JoinSubmit aliceForm)))).
Proof.
  assert (H1 : mounted aliceForm = true) by (vm_compute; reflexivity).
  assert (H2 : isConnected aliceForm = false) by (vm_compute; reflexivity).
  assert (H3 : handleWebSocketMessageRef aliceForm = true)
    by (vm_compute; reflexivity).
  assert (H4 : joinConnects asciiToUpperCase aliceForm = true)
    by (vm_compute; reflexivity).
  assert (H5 : trim (username aliceForm) <> username aliceForm)
    by (vm_compute; discriminate).
  assert (H6 : In (trim (username aliceForm)) [js "alice"; js "bob"])
    by (vm_compute; left; reflexivity).
  split; [exact H1|]. split; [exact H2|]. split; [exact H3|].
  split; [exact H4|]. split; [exact H5|]. split; [exact H6|].
  destruct (typing_list_filters_by_typed_name asciiToUpperCase aliceForm
              [js "alice"; js "bob"] 7000 H1 H2 H3 H4) as (_ & _ & _ & B).
  exact (B H5 H6).
Defined.
